(** * EMR9: the tenant-scoped request router of [lambda_code/index.js]

    A shallow embedding of the Lambda handler: JavaScript values, the
    [try]/[catch]/[finally] control flow, the module-level [pool] variable,
    and the conversation with PostgreSQL (borrow, statement, release)
    recorded as a trace.  The database, the secret store, the clock and the
    process environment are outside the repository; they enter the model
    through the record [Runtime].

    Logging is left out, except where evaluating the logged expression can
    throw.  The handler is one [if]/[else if] chain in the source; here each
    branch is a definition of its own and [tenant_routes] is the chain. *)

From Stdlib Require Import String Ascii List ZArith Bool Lia PeanoNat.
From Stdlib Require Import DecimalString Sorting.Sorted Sorting.Permutation.
Import ListNotations.
Local Open Scope list_scope.
Local Open Scope string_scope.
Set Warnings "-register-all".

(** ** JavaScript values *)

(** Values as [JSON.parse] and property reads produce them. Numbers are the
    integers, [JNum n] standing for the double nearest to [n]; the handler
    only tests them for truthiness and prints them, and numbers with a
    fraction are not represented. Strings are sequences of code units below
    256. *)
Inductive jsval : Type :=
| JUndefined
| JNull
| JBool (b : bool)
| JNum (n : Z)
| JStr (s : string)
| JArr (items : list jsval)
| JObj (fields : list (string * jsval)).   (* own properties, each key once *)

(** ToBoolean: [if (v)], [!v], [v || w]. *)
Definition truthy (v : jsval) : bool :=
  match v with
  | JUndefined | JNull => false
  | JBool b => b
  | JNum n => negb (Z.eqb n 0)
  | JStr s => negb (String.eqb s "")
  | JArr _ | JObj _ => true
  end.

Definition js_or (v w : jsval) : jsval := if truthy v then v else w.

Definition is_undefined (v : jsval) : bool :=
  match v with JUndefined => true | _ => false end.

Fixpoint assoc (k : string) (l : list (string * jsval)) : option jsval :=
  match l with
  | [] => None
  | (k', v) :: r => if String.eqb k k' then Some v else assoc k r
  end.

(** [v.k] on a value that is neither [null] nor [undefined]: own properties of
    an object, [undefined] for the field names the handler reads on anything
    else. *)
Definition js_get (v : jsval) (k : string) : jsval :=
  match v with
  | JObj l => match assoc k l with Some x => x | None => JUndefined end
  | _ => JUndefined
  end.

(** [Array.isArray(v) && v.length > 0] *)
Definition is_nonempty_array (v : jsval) : bool :=
  match v with JArr (_ :: _) => true | _ => false end.

(** [typeof v !== 'object' || v === null], negated. *)
Definition is_object_not_null (v : jsval) : bool :=
  match v with JArr _ | JObj _ => true | _ => false end.

(** [Object.keys(v).length]; [None] when [Object.keys] throws a TypeError. *)
Definition object_keys_length (v : jsval) : option nat :=
  match v with
  | JUndefined | JNull => None
  | JBool _ | JNum _ => Some 0
  | JStr s => Some (String.length s)
  | JArr l => Some (List.length l)
  | JObj l => Some (List.length l)
  end.

Definition nat_to_string (n : nat) : string :=
  NilEmpty.string_of_uint (Nat.to_uint n).

Definition Z_to_string (z : Z) : string :=
  NilEmpty.string_of_int (Z.to_int z).

Fixpoint join (sep : string) (l : list string) : string :=
  match l with
  | [] => ""
  | [x] => x
  | x :: r => x ++ sep ++ join sep r
  end.

(** *** Numbers as text

    An integer literal of JSON denotes the double nearest to it, and
    Number::toString prints a double by the shortest digits that read back as
    that double: in full up to twenty-one digits, with an exponent above. *)

(** The double nearest to the integer [m >= 0], ties to even; a result of
    [2^1024] or more stands for [Infinity]. *)
Definition round_double (m : Z) : Z :=
  if (m <? 2 ^ 53)%Z then m
  else
    let sh := (Z.log2 m - 52)%Z in
    let q := Z.shiftr m sh in
    let r := (m - Z.shiftl q sh)%Z in
    let half := Z.shiftl 1 (sh - 1) in
    let q' := if (half <? r)%Z || ((r =? half)%Z && Z.odd q) then (q + 1)%Z else q in
    Z.shiftl q' sh.

Fixpoint zeros (n : nat) : string :=
  match n with O => "" | S k => String "0" (zeros k) end.

(** The shortest digits [s], with their number [k], such that
    [s * 10^(d-k)] rounds to [x], the closest to [x] among those of that
    length; [d] is the number of digits of [x]. With [k = d] the digits of
    [x] itself do. *)
Fixpoint shortest_digits (fuel : nat) (k d x : Z) : Z * Z :=
  match fuel with
  | O => (x, d)
  | S f =>
      let p := (10 ^ (d - k))%Z in
      let lo := (x / p)%Z in
      let hi := (lo + 1)%Z in
      let ok_lo := (round_double (lo * p) =? x)%Z in
      let ok_hi := (hi <? 10 ^ k)%Z && (round_double (hi * p) =? x)%Z in
      if ok_lo && ok_hi then
        let dl := (x - lo * p)%Z in
        let dh := (hi * p - x)%Z in
        if (dl <? dh)%Z then (lo, k)
        else if (dh <? dl)%Z then (hi, k)
        else if Z.even lo then (lo, k) else (hi, k)
      else if ok_lo then (lo, k)
      else if ok_hi then (hi, k)
      else if (k <? d)%Z then shortest_digits f (k + 1) d x
      else (x, d)
  end.

(** Number::toString(x), radix 10, for a finite double [x >= 2^53]. *)
Definition big_to_string (x : Z) : string :=
  let d := Z.of_nat (String.length (Z_to_string x)) in
  let '(s, k, n) :=
    if (round_double (10 ^ d) =? x)%Z then (1%Z, 1%Z, (d + 1)%Z)
    else let '(s, k) := shortest_digits 17 1 d x in (s, k, d) in
  let digits := Z_to_string s in
  if (n <=? 21)%Z then digits ++ zeros (Z.to_nat (n - k))
  else
    match digits with
    | String c EmptyString => String c ("e+" ++ Z_to_string (n - 1))
    | String c rest => String c ("." ++ rest ++ "e+" ++ Z_to_string (n - 1))
    | EmptyString => EmptyString
    end.

(** ToString of the number that the integer literal [m] denotes. *)
Definition number_to_string (m : Z) : string :=
  let x := round_double (Z.abs m) in
  let text := if (2 ^ 1024 <=? x)%Z then "Infinity"
              else if (x <? 2 ^ 53)%Z then Z_to_string x
              else big_to_string x in
  if (m <? 0)%Z then "-" ++ text else text.

(** ToString, as a template literal applies it, when it returns. *)
Fixpoint js_to_string (v : jsval) : string :=
  match v with
  | JUndefined => "undefined"
  | JNull => "null"
  | JBool true => "true"
  | JBool false => "false"
  | JNum n => number_to_string n
  | JStr s => s
  | JArr l =>
      join "," (map (fun x => match x with
                              | JUndefined | JNull => ""
                              | _ => js_to_string x
                              end) l)
  | JObj _ => "[object Object]"
  end.

(** ToString throws a TypeError on an object that has a property [toString]
    of its own: nothing that [JSON.parse] returns is callable, so the
    conversion finds no method that yields a primitive. An array is joined
    from the conversions of its items. *)
Fixpoint to_string_throws (v : jsval) : bool :=
  match v with
  | JObj l => match assoc "toString" l with Some _ => true | None => false end
  | JArr l => existsb to_string_throws l
  | _ => false
  end.

(** ** Strings *)

Definition code (c : ascii) : nat := nat_of_ascii c.

Definition in_range (lo hi : nat) (c : ascii) : bool :=
  (lo <=? code c)%nat && (code c <=? hi)%nat.

Definition is_letter (c : ascii) : bool := in_range 97 122 c || in_range 65 90 c.
Definition is_digit (c : ascii) : bool := in_range 48 57 c.
Definition is_underscore (c : ascii) : bool := (code c =? 95)%nat.

(** White space and line terminators that [String.prototype.trim] strips,
    among the code units below 256. *)
Definition is_space (c : ascii) : bool :=
  in_range 9 13 c || (code c =? 32)%nat || (code c =? 160)%nat.

Fixpoint trimStart (s : string) : string :=
  match s with
  | EmptyString => EmptyString
  | String c r => if is_space c then trimStart r else s
  end.

Fixpoint trimEnd (s : string) : string :=
  match s with
  | EmptyString => EmptyString
  | String c r =>
      match trimEnd r with
      | EmptyString => if is_space c then EmptyString else String c EmptyString
      | r' => String c r'
      end
  end.

Definition trim (s : string) : string := trimEnd (trimStart s).

Definition startsWith (s p : string) : bool := String.prefix p s.

Definition includes (s sub : string) : bool :=
  match String.index 0 sub s with Some _ => true | None => false end.

(** ** Regular expressions

    The allow-list is a regular expression in the source, so it is one here:
    a matcher by derivatives, anchored at both ends as [^] and [$] (without
    the [m] flag) anchor it. *)
Inductive regex : Type :=
| RNone
| REps
| RClass (p : ascii -> bool)
| RSeq (r1 r2 : regex)
| RAlt (r1 r2 : regex)
| RStar (r : regex).

Fixpoint nullable (r : regex) : bool :=
  match r with
  | RNone => false
  | REps => true
  | RClass _ => false
  | RSeq a b => nullable a && nullable b
  | RAlt a b => nullable a || nullable b
  | RStar _ => true
  end.

Fixpoint deriv (c : ascii) (r : regex) : regex :=
  match r with
  | RNone => RNone
  | REps => RNone
  | RClass p => if p c then REps else RNone
  | RSeq a b =>
      if nullable a then RAlt (RSeq (deriv c a) b) (deriv c b)
      else RSeq (deriv c a) b
  | RAlt a b => RAlt (deriv c a) (deriv c b)
  | RStar a => RSeq (deriv c a) (RStar a)
  end.

Fixpoint regex_test (r : regex) (s : string) : bool :=
  match s with
  | EmptyString => nullable r
  | String c s' => regex_test (deriv c r) s'
  end.

(** [/^[a-zA-Z_][a-zA-Z0-9_]*$/] *)
Definition schemaRegex : regex :=
  RSeq (RClass (fun c => is_letter c || is_underscore c))
       (RStar (RClass (fun c => is_letter c || is_digit c || is_underscore c))).

Definition isValidSchemaName (schemaName : string) : bool :=
  if negb (truthy (JStr schemaName)) then false
  else regex_test schemaRegex schemaName.

(** The allow-list read off the pattern, character by character. *)
Definition ident_start (c : ascii) : bool := is_letter c || is_underscore c.
Definition ident_part (c : ascii) : bool := is_letter c || is_digit c || is_underscore c.

Fixpoint all_chars (p : ascii -> bool) (s : string) : bool :=
  match s with
  | EmptyString => true
  | String c r => p c && all_chars p r
  end.

Definition matches_allow_list (s : string) : bool :=
  match s with
  | EmptyString => false
  | String c r => ident_start c && all_chars ident_part r
  end.

Fixpoint contains_char (p : ascii -> bool) (s : string) : bool :=
  match s with
  | EmptyString => false
  | String c r => p c || contains_char p r
  end.

(** ** Errors, results, the conversation with the database *)

(** A thrown value: an [Error] (or [SyntaxError], or [TypeError]) or, from
    the driver, a PostgreSQL error carrying [code], [detail] and
    [constraint]. *)
Record js_error : Type := mkError {
  e_syntax : bool;              (* [instanceof SyntaxError] *)
  e_message : string;
  e_code : option string;
  e_detail : jsval;
  e_constraint : option string
}.

Definition Error (msg : string) : js_error := mkError false msg None JUndefined None.
Definition TypeError (msg : string) : js_error := mkError false msg None JUndefined None.
Definition SyntaxError (msg : string) : js_error := mkError true msg None JUndefined None.

Definition code_is (e : js_error) (c : string) : bool :=
  match e_code e with Some c' => String.eqb c' c | None => false end.

Definition constraint_is (e : js_error) (c : string) : bool :=
  match e_constraint e with Some c' => String.eqb c' c | None => false end.

(** A bound parameter of a statement: a value, or the text
    [JSON.stringify(v)] of a value. *)
Inductive param : Type :=
| PVal (v : jsval)
| PJson (v : jsval).

(** What [client.query] resolves to. *)
Record query_result : Type := mkResult {
  rows : list (list (string * jsval));   (* each row an object, column by column *)
  rowCount : Z
}.

Definition rows_value (res : query_result) : jsval := JArr (map JObj (rows res)).

(** One borrow is one client; clients are numbered in the order they are
    borrowed during an invocation. *)
Inductive db_event : Type :=
| Borrow (c : nat)                                   (* [pool.connect()] resolved *)
| ConnectFailed                                      (* [pool.connect()] rejected *)
| Query (c : nat) (text : string) (values : list param)
| Release (c : nat)                                  (* [client.release()] *)
| PoolEnd.                                           (* [pool.end()] *)

(** The body of an HTTP response: the empty string of the preflight reply, or
    [JSON.stringify] of a value. *)
Inductive body_text : Type :=
| RawBody (s : string)
| JsonBody (v : jsval).

Record Response : Type := mkResponse {
  r_statusCode : Z;
  r_headers : list (string * jsval);
  r_body : body_text
}.

(** [event.body] by what [JSON.parse] makes of it. *)
Inductive request_body : Type :=
| NoBody                       (* absent, [null] or the empty string *)
| Malformed (msg : string)     (* [JSON.parse] throws a SyntaxError with [msg] *)
| Json (v : jsval).            (* [JSON.parse] returns [v] *)

(** The API Gateway proxy event, as far as the handler reads it. [ev_claims]
    is [event.requestContext?.authorizer?.claims], [JUndefined] when any link
    of the chain is missing. *)
Record Event : Type := mkEvent {
  ev_httpMethod : string;
  ev_path : string;
  ev_pathId : option string;          (* [event.pathParameters?.id] *)
  ev_queryPatientId : option string;  (* [event.queryStringParameters?.patient_id] *)
  ev_body : request_body;
  ev_claims : jsval
}.

(** Everything outside the repository. The driver's answers may depend on
    all that happened before in the invocation. *)
Record Runtime : Type := mkRuntime {
  credentials : option js_error;       (* [getDbCredentials()]: [Some e] when it rejects *)
  connect_reply : list db_event -> option js_error;
  query_reply : list db_event -> string -> list param -> js_error + query_result;
  cors_allow_origin : option string;   (* [process.env.CORS_ALLOW_ORIGIN] *)
  clock : string                       (* [new Date().toISOString()] *)
}.

(** The variables the handler assigns: the module-level [pool], and the
    locals [client], [statusCode], [responseBody]. *)
Record St : Type := mkSt {
  trace : list db_event;
  pool : bool;
  client : option nat;
  statusCode : Z;
  responseBody : jsval
}.

(** ** The monad of handler code *)

(** How a block ends: normally, by a thrown error, or by [return]. *)
Inductive outcome (A : Type) : Type :=
| Val (a : A)
| Throw (e : js_error)
| Ret (r : Response).
Arguments Val {A} a.
Arguments Throw {A} e.
Arguments Ret {A} r.

Definition M (A : Type) : Type := St -> St * outcome A.

Definition ret {A} (a : A) : M A := fun st => (st, Val a).

Definition bind {A B} (m : M A) (k : A -> M B) : M B :=
  fun st =>
    match m st with
    | (st', Val a) => k a st'
    | (st', Throw e) => (st', Throw e)
    | (st', Ret r) => (st', Ret r)
    end.

Declare Scope js_scope.
Delimit Scope js_scope with js.
Notation "x <- m ;; k" := (bind m (fun x => k))
  (at level 61, m at next level, right associativity) : js_scope.
Notation "m ;; k" := (bind m (fun _ => k))
  (at level 61, right associativity) : js_scope.
Local Open Scope js_scope.

Definition throw {A} (e : js_error) : M A := fun st => (st, Throw e).
Definition return_ {A} (r : Response) : M A := fun st => (st, Ret r).

(** [try { m } catch (e) { h e }] *)
Definition try_catch {A} (m : M A) (h : js_error -> M A) : M A :=
  fun st =>
    match m st with
    | (st', Throw e) => h e st'
    | other => other
    end.

(** [try { m } finally { f }]: [f] runs however [m] ends, and [m]'s ending
    stands unless [f] itself throws or returns. *)
Definition try_finally {A} (m : M A) (f : M unit) : M A :=
  fun st =>
    match m st with
    | (st', o) =>
        match f st' with
        | (st'', Val _) => (st'', o)
        | (st'', Throw e) => (st'', Throw e)
        | (st'', Ret r) => (st'', Ret r)
        end
    end.

Definition read_client : M (option nat) := fun st => (st, Val (client st)).
Definition set_client (c : option nat) : M unit :=
  fun st => (mkSt (trace st) (pool st) c (statusCode st) (responseBody st), Val tt).
Definition set_statusCode (n : Z) : M unit :=
  fun st => (mkSt (trace st) (pool st) (client st) n (responseBody st), Val tt).
Definition set_responseBody (v : jsval) : M unit :=
  fun st => (mkSt (trace st) (pool st) (client st) (statusCode st) v, Val tt).
Definition set_pool (p : bool) : M unit :=
  fun st => (mkSt (trace st) p (client st) (statusCode st) (responseBody st), Val tt).
Definition emit (e : db_event) : M unit :=
  fun st => (mkSt (trace st ++ [e])%list (pool st) (client st) (statusCode st) (responseBody st), Val tt).

Definition is_borrow (e : db_event) : bool :=
  match e with Borrow _ => true | _ => false end.

Definition borrows (t : list db_event) : nat := List.length (filter is_borrow t).

(** ** Statements

    The SQL texts of the source, line by line; the indentation inside the
    template literals is dropped. *)
Definition nl : string := String (ascii_of_nat 10) EmptyString.
Definition lines (l : list string) : string := join nl l.

Definition sql_select_now : string := "SELECT NOW()".
Definition sql_select_1 : string := "SELECT 1".

Definition sql_select_patients : string :=
  "SELECT patient_id, first_name, last_name, date_of_birth, created_at, updated_at FROM patients ORDER BY last_name, first_name;".

Definition sql_insert_patient : string :=
  lines [ "INSERT INTO patients (";
          "first_name, last_name, date_of_birth, middle_initial, preferred_name,";
          "gender, phone_number, email, address_line1, address_line2, city,";
          "state_province, postal_code, country, is_medicare_eligible, custom_data";
          ")";
          "VALUES ($1, $2, $3, $4, $5, $6, $7, $8, $9, $10, $11, $12, $13, $14, $15, $16::jsonb)";
          "RETURNING patient_id, first_name, last_name, date_of_birth, created_at;" ].

Definition sql_update_patient (fields : list string) (paramIndex : nat) : string :=
  lines [ "UPDATE patients";
          "SET " ++ join ", " fields;
          "WHERE patient_id = $" ++ nat_to_string paramIndex;
          "RETURNING patient_id, first_name, last_name, date_of_birth, updated_at;" ].

Definition sql_delete_patient : string := "DELETE FROM patients WHERE patient_id = $1;".

Definition sql_select_queue : string :=
  lines [ "SELECT";
          "wq.queue_entry_id,";
          "wq.patient_id,";
          "p.first_name,";
          "p.last_name,";
          "wq.queue_timestamp,";
          "wq.status,";
          "wq.notes";
          "FROM waiting_queue wq";
          "JOIN patients p ON wq.patient_id = p.patient_id";
          "ORDER BY wq.queue_timestamp ASC;" ].

Definition sql_insert_note : string :=
  lines [ "INSERT INTO notes (";
          "patient_id,";
          "doctor_id,";
          "subjective_note,";
          "objective_note,";
          "assessment_note,";
          "plan_note,";
          "dx_codes,";
          "billing_codes,";
          "note_type,";
          "signed_status";
          "-- created_at, updated_at default in schema";
          ")";
          "VALUES ($1, $2, $3, $4, $5, $6, $7::jsonb, $8::jsonb, $9)";
          "RETURNING note_id, created_at, updated_at, signed_status;" ].

Definition sql_select_notes (conditions : list string) : string :=
  "SELECT note_id, patient_id, doctor_id, note_type, created_at, updated_at, signed_status FROM notes"
  ++ (match conditions with
      | [] => ""
      | _ => " WHERE " ++ join " AND " conditions
      end)
  ++ " ORDER BY created_at DESC;".

Definition sql_select_note : string := "SELECT * FROM notes WHERE note_id = $1;".

Definition sql_update_note (fields : list string) (paramIndex : nat) : string :=
  lines [ "UPDATE soap_notes";
          "SET " ++ join ", " fields;
          "WHERE note_id = $" ++ nat_to_string paramIndex;
          "RETURNING *;" ].

(** ** Objects the handler builds *)

Definition msg_obj (m : string) : jsval := JObj [("message", JStr m)].

Definition msg_err_obj (m : string) (err : jsval) : jsval :=
  JObj [("message", JStr m); ("error", err)].

Definition schema_not_found (tenantSchema : string) (dbError : js_error) : jsval :=
  msg_err_obj ("Tenant schema '" ++ tenantSchema ++ "' not found.") (JStr (e_message dbError)).

(** Assignment of a property: in place when the key is there, at the end
    otherwise. *)
Fixpoint obj_set (k : string) (v : jsval) (l : list (string * jsval)) : list (string * jsval) :=
  match l with
  | [] => [(k, v)]
  | (k', v') :: r => if String.eqb k k' then (k, v) :: r else (k', v') :: obj_set k v r
  end.

(** [{ ...base, ...extra }] *)
Definition obj_spread (base extra : list (string * jsval)) : list (string * jsval) :=
  fold_left (fun acc kv => obj_set (fst kv) (snd kv) acc) extra base.

Definition env_string (o : option string) : jsval :=
  match o with Some s => JStr s | None => JUndefined end.

(** The partial update under construction: [fields], [values], [paramIndex]. *)
Record update_acc : Type := mkAcc {
  u_fields : list string;
  u_values : list param;
  u_paramIndex : nat
}.

(** [if (v !== undefined) { fields.push(`col = $${paramIndex++}`); values.push(p v); }] *)
Definition push_field (col : string) (v : jsval) (p : jsval -> param) (a : update_acc) : update_acc :=
  if is_undefined v then a
  else mkAcc (u_fields a ++ [(col ++ " = $" ++ nat_to_string (u_paramIndex a))%string])%list
             (u_values a ++ [p v])%list
             (S (u_paramIndex a)).

Definition push_timestamp (a : update_acc) : update_acc :=
  mkAcc (u_fields a ++ ["updated_at = CURRENT_TIMESTAMP"])%list (u_values a) (u_paramIndex a).

Definition json_or_empty (v : jsval) : param := PJson (js_or v (JObj [])).

Definition patient_update_fields (body : jsval) : update_acc :=
  push_timestamp
    (push_field "medical_history" (js_get body "medical_history") json_or_empty
    (push_field "insurance_info" (js_get body "insurance_info") json_or_empty
    (push_field "address" (js_get body "address") json_or_empty
    (push_field "contact_info" (js_get body "contact_info") json_or_empty
    (push_field "gender" (js_get body "gender") PVal
    (push_field "date_of_birth" (js_get body "date_of_birth") PVal
    (push_field "last_name" (js_get body "last_name") PVal
    (push_field "first_name" (js_get body "first_name") PVal
       (mkAcc [] [] 1))))))))).

Definition note_update_fields (body : jsval) : update_acc :=
  push_timestamp
    (push_field "plan" (js_get body "plan") PVal
    (push_field "assessment" (js_get body "assessment") PVal
    (push_field "objective" (js_get body "objective") PVal
    (push_field "subjective" (js_get body "subjective") PVal
       (mkAcc [] [] 1))))).

(** The sixteen bound values of the patient INSERT, [$1] to [$16]. *)
Definition patient_insert_values (body : jsval) : list param :=
  [ PVal (js_get body "first_name");
    PVal (js_get body "last_name");
    PVal (js_get body "date_of_birth");
    PVal (js_or (js_get body "middle_initial") JNull);
    PVal (js_or (js_get body "preferred_name") JNull);
    PVal (js_or (js_get body "gender") JNull);
    PVal (js_or (js_get body "phone_number") JNull);
    PVal (js_or (js_get body "email") JNull);
    PVal (js_or (js_get body "address_line1") JNull);
    PVal (js_or (js_get body "address_line2") JNull);
    PVal (js_or (js_get body "city") JNull);
    PVal (js_or (js_get body "state_province") JNull);
    PVal (js_or (js_get body "postal_code") JNull);
    PVal (js_or (js_get body "country") JNull);
    PVal (js_or (js_get body "is_medicare_eligible") (JBool false));
    PJson (js_or (js_get body "custom_data") (JObj [])) ].

(** [(Array.isArray(c) && c.length > 0) ? JSON.stringify(c) : null] *)
Definition sanitize_codes (c : jsval) : param :=
  if is_nonempty_array c then PJson c else PVal JNull.

(** The nine bound values of the note INSERT, [$1] to [$9]. *)
Definition note_insert_values (requestBody : jsval) : list param :=
  [ PVal (js_get requestBody "patient_id");
    PVal (js_or (js_get requestBody "doctor_id") JNull);
    PVal (js_or (js_get requestBody "subjective") JNull);
    PVal (js_or (js_get requestBody "objective") JNull);
    PVal (js_or (js_get requestBody "assessment") JNull);
    PVal (js_or (js_get requestBody "plan") JNull);
    sanitize_codes (js_get requestBody "dx_codes");
    sanitize_codes (js_get requestBody "billing_codes");
    PVal (JStr "SOAP") ].

(** [JSON.parse(event.body || '{}')] *)
Definition parse_body_or_empty (b : request_body) : M jsval :=
  match b with
  | NoBody => ret (JObj [])
  | Malformed msg => throw (SyntaxError msg)
  | Json v => ret v
  end.

(** [v.k] where [v] may be [null]: the read throws a TypeError then. *)
Definition member (v : jsval) (k : string) : M jsval :=
  match v with
  | JUndefined | JNull =>
      throw (TypeError ("Cannot read properties of " ++ js_to_string v
                        ++ " (reading '" ++ k ++ "')"))
  | _ => ret (js_get v k)
  end.

(** [`${v}`] *)
Definition template (v : jsval) : M string :=
  if to_string_throws v then throw (TypeError "Cannot convert object to primitive value")
  else ret (js_to_string v).

(** [Object.keys(v).length] *)
Definition keys_length (v : jsval) : M nat :=
  match object_keys_length v with
  | Some n => ret n
  | None => throw (TypeError "Cannot convert undefined or null to object")
  end.

(** [const row = result.rows[0]] followed by a read of [row.k] (in the log
    line): a TypeError when there is no first row. *)
Definition first_row (res : query_result) (k : string) : M jsval :=
  match rows res with
  | r :: _ => ret (JObj r)
  | [] => member JUndefined k
  end.

(** [!patientId] on a path or query parameter. *)
Definition param_missing (o : option string) : bool :=
  match o with Some s => String.eqb s "" | None => true end.

Definition param_text (o : option string) : string :=
  match o with Some s => s | None => "undefined" end.

Section Handler.

Variable R : Runtime.

(** [await pool.connect()] *)
Definition pool_connect : M nat :=
  fun st =>
    match connect_reply R (trace st) with
    | None => (emit (Borrow (borrows (trace st))) ;; ret (borrows (trace st))) st
    | Some e => (emit ConnectFailed ;; throw e) st
    end.

(** [await client.query(text, values)] *)
Definition client_query (c : nat) (text : string) (values : list param) : M query_result :=
  fun st =>
    match query_reply R (trace st) text values with
    | inr res => (emit (Query c text values) ;; ret res) st
    | inl e => (emit (Query c text values) ;; throw e) st
    end.

(** [client.release()] *)
Definition client_release (c : nat) : M unit := emit (Release c).

(** [if (client) client.release();] *)
Definition release_if_client : M unit :=
  c <- read_client ;;
  match c with Some c => client_release c | None => ret tt end.

(** ** Helpers of the source *)

Definition dquote : string := String (ascii_of_nat 34) EmptyString.

(** [client.escapeIdentifier] of the driver: the identifier between double
    quotes, each double quote inside doubled. *)
Fixpoint double_quotes (s : string) : string :=
  match s with
  | EmptyString => EmptyString
  | String c r =>
      if Ascii.eqb c (ascii_of_nat 34)
      then String c (String c (double_quotes r))
      else String c (double_quotes r)
  end.

Definition escapeIdentifier (s : string) : string :=
  dquote ++ double_quotes s ++ dquote.

Definition search_path_query (tenantSchema : string) : string :=
  "SET search_path TO " ++ escapeIdentifier tenantSchema ++ ", public;".

Definition setTenantSearchPath (c : nat) (tenantSchema : string) : M unit :=
  if negb (isValidSchemaName tenantSchema) then
    throw (Error "Invalid tenant identifier.")
  else
    try_catch
      (client_query c (search_path_query tenantSchema) [] ;; ret tt)
      (fun error => throw error).

(** [getDbCredentials] talks to the secret store only; its outcome is the
    runtime's. *)
Definition getDbCredentials : M unit :=
  match credentials R with
  | None => ret tt
  | Some e => throw e
  end.

Definition pool_end : M unit := emit PoolEnd.

Definition initializePool : M unit :=
  fun st =>
    if pool st then (st, Val tt)
    else
      try_catch
        (getDbCredentials ;;
         set_pool true ;;
         c <- pool_connect ;;
         try_finally
           (client_query c sql_select_now [] ;; ret tt)
           (client_release c))
        (fun error =>
           (fun st' => if pool st' then pool_end st' else (st', Val tt)) ;;
           set_pool false ;;
           throw error) st.

(** ** The handler, route by route *)

Definition allow_origin : jsval := js_or (env_string (cors_allow_origin R)) (JStr "*").

Definition headers : list (string * jsval) :=
  [ ("Access-Control-Allow-Origin", allow_origin);
    ("Access-Control-Allow-Headers", JStr "Content-Type, Authorization");
    ("Access-Control-Allow-Methods", JStr "OPTIONS,POST,GET,PUT,DELETE");
    ("Content-Type", JStr "application/json") ].

Definition preflight_response : Response :=
  mkResponse 204
    [ ("Access-Control-Allow-Origin", allow_origin);
      ("Access-Control-Allow-Methods", JStr "OPTIONS,POST,GET,PUT,DELETE");
      ("Access-Control-Allow-Headers", JStr "Content-Type, Authorization");
      ("Access-Control-Max-Age", JNum 86400) ]
    (RawBody "").

Definition finalHeaders : list (string * jsval) :=
  obj_spread
    [ ("Access-Control-Allow-Origin", JStr "*");
      ("Access-Control-Allow-Headers",
       JStr "Content-Type,X-Amz-Date,Authorization,X-Api-Key,X-Amz-Security-Token");
      ("Access-Control-Allow-Methods", JStr "OPTIONS,POST,GET,PUT,DELETE") ]
    headers.

(** The tenant identifier of the request: [tenantSchema] after the claims
    block, [None] for [null]. *)
Definition extract_tenant (ev : Event) : option string :=
  let claims := ev_claims ev in
  if truthy claims && truthy (js_get claims "custom:clinic_id") then
    match js_get claims "custom:clinic_id" with
    | JStr rawTenantId =>
        if (0 <? String.length (trim rawTenantId))%nat then Some (trim rawTenantId)
        else None
    | _ => None
    end
  else None.

(** [!tenantSchema] *)
Definition tenant_missing (t : option string) : bool :=
  match t with Some s => negb (truthy (JStr s)) | None => true end.

Definition healthcheck : M unit :=
  dbOk <- try_finally
            (try_catch
               (c <- pool_connect ;;
                set_client (Some c) ;;
                client_query c sql_select_1 [] ;;
                ret true)
               (fun dbError => ret false))
            release_if_client ;;
  set_responseBody
    (JObj [ ("status", JStr "OK");
            ("database_status", JStr (if dbOk : bool then "OK" else "Unavailable"));
            ("timestamp", JStr (clock R)) ]) ;;
  body <- (fun st => (st, Val (responseBody st))) ;;
  return_ (mkResponse 200 headers (JsonBody body)).

Definition tenant_rejected : Response :=
  mkResponse 400 headers
    (JsonBody (msg_obj "Bad Request: Tenant identifier missing or invalid in user token.")).

Definition get_patients (tenantSchema : string) : M unit :=
  try_finally
    (try_catch
       (c <- pool_connect ;;
        set_client (Some c) ;;
        setTenantSearchPath c tenantSchema ;;
        result <- client_query c sql_select_patients [] ;;
        set_responseBody (rows_value result) ;;
        set_statusCode 200)
       (fun dbError =>
          if code_is dbError "3F000" then
            set_statusCode 404 ;;
            set_responseBody (schema_not_found tenantSchema dbError)
          else
            set_statusCode 500 ;;
            set_responseBody
              (msg_err_obj "Internal Server Error: Could not fetch patients."
                           (JStr (e_message dbError)))))
    release_if_client.

(** [!body.first_name || !body.last_name || !body.date_of_birth] *)
Definition missing_required (body : jsval) : M bool :=
  a <- member body "first_name" ;;
  if negb (truthy a) then ret true else
  b <- member body "last_name" ;;
  if negb (truthy b) then ret true else
  c <- member body "date_of_birth" ;;
  ret (negb (truthy c)).

Definition post_patients_error (tenantSchema : string) (dbError : js_error) : M unit :=
  if code_is dbError "23505" then
    set_statusCode 409 ;;
    set_responseBody
      (msg_err_obj "Conflict: Patient data violates a unique constraint." (e_detail dbError))
  else if code_is dbError "22P02" then
    set_statusCode 400 ;;
    set_responseBody
      (msg_err_obj "Bad Request: Invalid data format provided." (JStr (e_message dbError)))
  else if code_is dbError "3F000" then
    set_statusCode 404 ;;
    set_responseBody (schema_not_found tenantSchema dbError)
  else
    set_statusCode 500 ;;
    set_responseBody
      (msg_err_obj "Internal Server Error: Could not create patient." (JStr (e_message dbError))).

(** The outer [catch (parseError)] of the two routes that parse before their
    database block. *)
Definition on_parse_error (parseError : js_error) : M unit :=
  if e_syntax parseError then
    set_statusCode 400 ;;
    set_responseBody (msg_obj "Bad Request: Invalid JSON format in request body.")
  else
    set_statusCode 500 ;;
    set_responseBody (msg_err_obj "Internal Server Error" (JStr (e_message parseError))).

Definition post_patients (tenantSchema : string) (ev : Event) : M unit :=
  try_catch
    (body <- parse_body_or_empty (ev_body ev) ;;
     try_finally
       (try_catch
          (missing <- missing_required body ;;
           if missing : bool then
             set_statusCode 400 ;;
             set_responseBody
               (msg_obj "Bad Request: Missing required patient fields (first_name, last_name, date_of_birth).")
           else
             c <- pool_connect ;;
             set_client (Some c) ;;
             setTenantSearchPath c tenantSchema ;;
             result <- client_query c sql_insert_patient (patient_insert_values body) ;;
             match rows result with
             | newPatient :: _ =>
                 set_statusCode 201 ;;
                 set_responseBody
                   (JObj [ ("message", JStr "Patient created successfully.");
                           ("patientId", js_get (JObj newPatient) "patient_id") ])
             | [] => throw (Error "Failed to retrieve created patient details after insert.")
             end)
          (post_patients_error tenantSchema))
       release_if_client)
    on_parse_error.

Definition put_patient_error (tenantSchema patientId : string) (dbError : js_error) : M unit :=
  if code_is dbError "23505" then
    set_statusCode 409 ;;
    set_responseBody
      (msg_err_obj "Conflict: Update violates a unique constraint." (e_detail dbError))
  else if code_is dbError "22P02" then
    set_statusCode 400 ;;
    set_responseBody
      (msg_err_obj "Bad Request: Invalid data format provided for update."
                   (JStr (e_message dbError)))
  else if code_is dbError "3F000" then
    set_statusCode 404 ;;
    set_responseBody (schema_not_found tenantSchema dbError)
  else
    set_statusCode 500 ;;
    set_responseBody
      (msg_err_obj ("Internal Server Error: Could not update patient " ++ patientId ++ ".")
                   (JStr (e_message dbError))).

Definition put_patient (tenantSchema : string) (ev : Event) : M unit :=
  let patientId := param_text (ev_pathId ev) in
  set_client None ;;
  if param_missing (ev_pathId ev) then
    set_statusCode 400 ;;
    set_responseBody (msg_obj "Bad Request: Missing patient ID in path.")
  else
    try_finally
      (try_catch
         (body <- parse_body_or_empty (ev_body ev) ;;
          n <- keys_length body ;;
          if (n =? 0)%nat then
            set_statusCode 400 ;;
            set_responseBody (msg_obj "Bad Request: No fields provided for update.")
          else
            c <- pool_connect ;;
            set_client (Some c) ;;
            setTenantSearchPath c tenantSchema ;;
            let acc := patient_update_fields body in
            if (List.length (u_fields acc) =? 1)%nat then
              set_statusCode 400 ;;
              set_responseBody (msg_obj "Bad Request: No updatable fields provided.")
            else
              result <- client_query c (sql_update_patient (u_fields acc) (u_paramIndex acc))
                                     (u_values acc ++ [PVal (JStr patientId)])%list ;;
              if (rowCount result >? 0)%Z then
                updatedPatient <- first_row result "patient_id" ;;
                set_statusCode 200 ;;
                set_responseBody
                  (JObj [ ("message", JStr "Patient updated successfully.");
                          ("patient", updatedPatient) ])
              else
                set_statusCode 404 ;;
                set_responseBody (msg_obj ("Patient with ID " ++ patientId ++ " not found.")))
         (put_patient_error tenantSchema patientId))
      release_if_client.

Definition delete_patient_error (tenantSchema patientId : string) (dbError : js_error) : M unit :=
  if code_is dbError "23503" then
    set_statusCode 409 ;;
    set_responseBody
      (msg_err_obj ("Conflict: Cannot delete patient " ++ patientId
                    ++ " as they have related records (e.g., SOAP notes).")
                   (e_detail dbError))
  else if code_is dbError "3F000" then
    set_statusCode 404 ;;
    set_responseBody (schema_not_found tenantSchema dbError)
  else
    set_statusCode 500 ;;
    set_responseBody
      (msg_err_obj ("Internal Server Error: Could not delete patient " ++ patientId ++ ".")
                   (JStr (e_message dbError))).

Definition delete_patient (tenantSchema : string) (ev : Event) : M unit :=
  let patientId := param_text (ev_pathId ev) in
  set_client None ;;
  if param_missing (ev_pathId ev) then
    set_statusCode 400 ;;
    set_responseBody (msg_obj "Bad Request: Missing patient ID in path.")
  else
    try_finally
      (try_catch
         (c <- pool_connect ;;
          set_client (Some c) ;;
          setTenantSearchPath c tenantSchema ;;
          result <- client_query c sql_delete_patient [PVal (JStr patientId)] ;;
          if (rowCount result >? 0)%Z then
            set_statusCode 200 ;;
            set_responseBody (msg_obj ("Patient " ++ patientId ++ " deleted successfully."))
          else
            set_statusCode 404 ;;
            set_responseBody (msg_obj ("Patient with ID " ++ patientId ++ " not found.")))
         (delete_patient_error tenantSchema patientId))
      release_if_client.

Definition queue_error (tenantSchema : string) (dbError : js_error) : M unit :=
  if code_is dbError "42P01" then
    set_statusCode 500 ;;
    set_responseBody
      (msg_err_obj ("Internal Server Error: waiting_queue table not found in schema "
                    ++ tenantSchema ++ ".")
                   (JStr (e_message dbError)))
  else if code_is dbError "3F000" then
    set_statusCode 404 ;;
    set_responseBody (schema_not_found tenantSchema dbError)
  else
    set_statusCode 500 ;;
    set_responseBody
      (msg_err_obj "Internal Server Error: Could not fetch waiting queue."
                   (JStr (e_message dbError))).

(** [GET /waiting-queue] and [GET /queue]: two branches of the source with
    the same text. *)
Definition get_queue (tenantSchema : string) : M unit :=
  set_client None ;;
  try_finally
    (try_catch
       (c <- pool_connect ;;
        set_client (Some c) ;;
        setTenantSearchPath c tenantSchema ;;
        result <- client_query c sql_select_queue [] ;;
        set_statusCode 200 ;;
        set_responseBody (rows_value result))
       (queue_error tenantSchema))
    release_if_client.

Definition get_waiting_queue (tenantSchema : string) : M unit := get_queue tenantSchema.

Definition post_soapnotes_error (tenantSchema : string) (patient_id doctorId : jsval)
    (dbError : js_error) : M unit :=
  if code_is dbError "23503" then
    let field := if constraint_is dbError "fk_notes_patient" then "patient_id"
                 else if constraint_is dbError "fk_notes_doctor" then "doctor_id"
                 else "related entity" in
    let idValue := if constraint_is dbError "fk_notes_patient" then patient_id else doctorId in
    (* the log line prints [idValue] first, then the message does *)
    text <- template idValue ;;
    set_statusCode 400 ;;
    set_responseBody
      (msg_obj ("Bad Request: Invalid " ++ field ++ " provided (" ++ text
                ++ "). It does not exist."))
  else if code_is dbError "22P02" then
    set_statusCode 400 ;;
    set_responseBody
      (msg_err_obj "Bad Request: Invalid data format provided." (JStr (e_message dbError)))
  else if code_is dbError "3F000" then
    set_statusCode 404 ;;
    set_responseBody (schema_not_found tenantSchema dbError)
  else
    set_statusCode 500 ;;
    set_responseBody
      (msg_err_obj "Internal Server Error: Could not save SOAP note." (JStr (e_message dbError))).

(** The parsing block of [POST /soapnotes]. *)
Definition parse_note_body (b : request_body) : M jsval :=
  match b with
  | NoBody => throw (Error "Request body is missing.")
  | Malformed msg => throw (SyntaxError msg)
  | Json v =>
      if is_object_not_null v then ret v
      else throw (Error "Invalid JSON object in body.")
  end.

Definition post_soapnotes (tenantSchema : string) (ev : Event) : M unit :=
  requestBody <- try_catch (parse_note_body (ev_body ev))
                   (fun parseError =>
                      return_ (mkResponse 400 headers
                                 (JsonBody (msg_obj ("Bad Request: " ++ e_message parseError))))) ;;
  let patient_id := js_get requestBody "patient_id" in
  if negb (truthy patient_id) then
    return_ (mkResponse 400 headers
               (JsonBody (msg_obj "Bad Request: Missing required field 'patient_id'.")))
  else
    let doctorId := js_or (js_get requestBody "doctor_id") JNull in
    try_finally
      (try_catch
         (c <- pool_connect ;;
          set_client (Some c) ;;
          setTenantSearchPath c tenantSchema ;;
          result <- client_query c sql_insert_note (note_insert_values requestBody) ;;
          match rows result with
          | newNote :: _ =>
              set_statusCode 201 ;;
              set_responseBody
                (JObj [ ("message", JStr "SOAP note created successfully.");
                        ("note", JObj newNote) ])
          | [] => throw (Error "Failed to retrieve created note details after insert.")
          end)
         (post_soapnotes_error tenantSchema patient_id doctorId))
      release_if_client.

Definition get_soapnotes_error (tenantSchema : string) (patientId : option string)
    (dbError : js_error) : M unit :=
  if code_is dbError "22P02"
     && includes (e_message dbError) "invalid input syntax for type uuid"
     && negb (param_missing patientId) then
    set_statusCode 400 ;;
    set_responseBody
      (msg_obj ("Bad Request: Invalid format for patient_id filter '"
                ++ param_text patientId ++ "'."))
  else if code_is dbError "42703" && negb (param_missing patientId) then
    set_statusCode 400 ;;
    set_responseBody (msg_obj "Bad Request: Invalid filter parameter used.")
  else if code_is dbError "3F000" then
    set_statusCode 404 ;;
    set_responseBody (schema_not_found tenantSchema dbError)
  else
    set_statusCode 500 ;;
    set_responseBody
      (msg_err_obj "Internal Server Error: Could not retrieve SOAP notes list."
                   (JStr (e_message dbError))).

Definition get_soapnotes (tenantSchema : string) (ev : Event) : M unit :=
  let patientId := ev_queryPatientId ev in
  set_client None ;;
  try_finally
    (try_catch
       (c <- pool_connect ;;
        set_client (Some c) ;;
        setTenantSearchPath c tenantSchema ;;
        let conditions := if param_missing patientId then [] else ["patient_id = $1"] in
        let values := if param_missing patientId then []
                      else [PVal (JStr (param_text patientId))] in
        result <- client_query c (sql_select_notes conditions) values ;;
        set_statusCode 200 ;;
        set_responseBody
          (JObj [ ("message", JStr "SOAP notes retrieved successfully.");
                  ("notes", rows_value result) ]))
       (get_soapnotes_error tenantSchema patientId))
    release_if_client.

Definition get_soapnote_error (tenantSchema noteId : string) (dbError : js_error) : M unit :=
  if code_is dbError "22P02"
     && includes (e_message dbError) "invalid input syntax for type uuid" then
    set_statusCode 400 ;;
    set_responseBody
      (msg_obj ("Bad Request: Invalid format for SOAP note ID '" ++ noteId ++ "'."))
  else if code_is dbError "3F000" then
    set_statusCode 404 ;;
    set_responseBody (schema_not_found tenantSchema dbError)
  else
    set_statusCode 500 ;;
    set_responseBody
      (msg_err_obj ("Internal Server Error: Could not retrieve SOAP note " ++ noteId ++ ".")
                   (JStr (e_message dbError))).

Definition get_soapnote (tenantSchema : string) (ev : Event) : M unit :=
  let noteId := param_text (ev_pathId ev) in
  set_client None ;;
  if param_missing (ev_pathId ev) then
    set_statusCode 400 ;;
    set_responseBody (msg_obj "Bad Request: Missing SOAP note ID in path.")
  else
    try_finally
      (try_catch
         (c <- pool_connect ;;
          set_client (Some c) ;;
          setTenantSearchPath c tenantSchema ;;
          result <- client_query c sql_select_note [PVal (JStr noteId)] ;;
          match rows result with
          | note :: _ =>
              set_statusCode 200 ;;
              set_responseBody
                (JObj [ ("message", JStr "SOAP note retrieved successfully.");
                        ("note", JObj note) ])
          | [] =>
              set_statusCode 404 ;;
              set_responseBody (msg_obj ("SOAP note with ID " ++ noteId ++ " not found."))
          end)
         (get_soapnote_error tenantSchema noteId))
      release_if_client.

Definition put_soapnote_error (tenantSchema noteId : string) (dbError : js_error) : M unit :=
  if code_is dbError "22P02" then
    set_statusCode 400 ;;
    set_responseBody
      (msg_err_obj "Bad Request: Invalid data format provided for SOAP note update."
                   (JStr (e_message dbError)))
  else if code_is dbError "23503" then
    set_statusCode 400 ;;
    set_responseBody
      (msg_err_obj "Bad Request: Update references an invalid entity (e.g., patient_id)."
                   (e_detail dbError))
  else if code_is dbError "3F000" then
    set_statusCode 404 ;;
    set_responseBody (schema_not_found tenantSchema dbError)
  else
    set_statusCode 500 ;;
    set_responseBody
      (msg_err_obj ("Internal Server Error: Could not update SOAP note " ++ noteId ++ ".")
                   (JStr (e_message dbError))).

Definition put_soapnote (tenantSchema : string) (ev : Event) : M unit :=
  let noteId := param_text (ev_pathId ev) in
  set_client None ;;
  if param_missing (ev_pathId ev) then
    set_statusCode 400 ;;
    set_responseBody (msg_obj "Bad Request: Missing SOAP note ID in path.")
  else
    try_catch
      (body <- parse_body_or_empty (ev_body ev) ;;
       try_finally
         (try_catch
            (n <- keys_length body ;;
             if (n =? 0)%nat then
               set_statusCode 400 ;;
               set_responseBody (msg_obj "Bad Request: No fields provided for update.")
             else
               c <- pool_connect ;;
               set_client (Some c) ;;
               setTenantSearchPath c tenantSchema ;;
               let acc := note_update_fields body in
               if (List.length (u_fields acc) =? 1)%nat then
                 set_statusCode 400 ;;
                 set_responseBody
                   (msg_obj "Bad Request: No updatable SOAP note fields provided.")
               else
                 result <- client_query c (sql_update_note (u_fields acc) (u_paramIndex acc))
                                        (u_values acc ++ [PVal (JStr noteId)])%list ;;
                 if (rowCount result >? 0)%Z then
                   updatedNote <- first_row result "note_id" ;;
                   set_statusCode 200 ;;
                   set_responseBody
                     (JObj [ ("message", JStr "SOAP note updated successfully.");
                             ("note", updatedNote) ])
                 else
                   set_statusCode 404 ;;
                   set_responseBody
                     (msg_obj ("SOAP note with ID " ++ noteId ++ " not found.")))
            (put_soapnote_error tenantSchema noteId))
         release_if_client)
      on_parse_error.

Definition unknown_path (path : string) : M unit :=
  set_statusCode 404 ;;
  set_responseBody (JObj [ ("message", JStr "Not Found"); ("requestedPath", JStr path) ]).

(** The [if]/[else if] chain below the tenant check, in the order of the
    source. *)
Definition tenant_routes (tenantSchema : string) (ev : Event) : M unit :=
  let path := ev_path ev in
  let method := ev_httpMethod ev in
  if String.eqb path "/patients" && String.eqb method "GET" then
    get_patients tenantSchema
  else if String.eqb method "POST" && String.eqb path "/patients" then
    post_patients tenantSchema ev
  else if String.eqb method "PUT" && startsWith path "/patients/" then
    put_patient tenantSchema ev
  else if String.eqb method "DELETE" && startsWith path "/patients/" then
    delete_patient tenantSchema ev
  else if String.eqb path "/waiting-queue" && String.eqb method "GET" then
    get_waiting_queue tenantSchema
  else if String.eqb path "/soapnotes" && String.eqb method "POST" then
    post_soapnotes tenantSchema ev
  else if String.eqb method "GET" && String.eqb path "/soapnotes" then
    get_soapnotes tenantSchema ev
  else if String.eqb method "GET" && startsWith path "/soapnotes/" then
    get_soapnote tenantSchema ev
  else if String.eqb method "PUT" && startsWith path "/soapnotes/" then
    put_soapnote tenantSchema ev
  else if String.eqb path "/queue" && String.eqb method "GET" then
    get_queue tenantSchema
  else
    unknown_path path.

(** The routing [try] block. *)
Definition routing (ev : Event) : M unit :=
  let tenantSchema := extract_tenant ev in
  if String.eqb (ev_path ev) "/healthcheck" && String.eqb (ev_httpMethod ev) "GET" then
    healthcheck
  else if tenant_missing tenantSchema then
    return_ tenant_rejected
  else
    tenant_routes (match tenantSchema with Some t => t | None => "" end) ev.

(** The handler below the preflight test. *)
Definition handler_body (ev : Event) : M Response :=
  (fun st =>
     if negb (pool st) then
       try_catch initializePool
         (fun initError =>
            set_statusCode 500 ;;
            set_responseBody
              (msg_err_obj "Internal Server Error: Could not connect to database."
                           (JStr (e_message initError))) ;;
            return_ (mkResponse 500 headers
                       (JsonBody
                          (msg_err_obj "Internal Server Error: Could not connect to database."
                                       (JStr (e_message initError)))))) st
     else (st, Val tt)) ;;
  try_catch (routing ev)
    (fun error =>
       set_statusCode 500 ;;
       set_responseBody (msg_err_obj "Internal Server Error" (JStr (e_message error)))) ;;
  (fun st => (st, Val (mkResponse (statusCode st) finalHeaders (JsonBody (responseBody st))))).

(** The state in which an invocation starts: nothing happened yet, [client]
    undeclared, [statusCode = 200], [responseBody = {}]; [warm] tells whether
    the process already holds a pool. *)
Definition initial (warm : bool) : St := mkSt [] warm None 200 (JObj []).

(** [exports.handler]: the response, and the state the invocation ends in. *)
Definition handler (warm : bool) (ev : Event) : St * Response :=
  if String.eqb (ev_httpMethod ev) "OPTIONS" then (initial warm, preflight_response)
  else
    match handler_body ev (initial warm) with
    | (st, Val r) => (st, r)
    | (st, Ret r) => (st, r)
    | (st, Throw e) =>
        (* not reached: every throw is caught above *)
        (st, mkResponse 500 [] (RawBody (e_message e)))
    end.

End Handler.

(** ** Reading a trace *)

(** A trace is a sequence of sessions when clients are borrowed one at a
    time under increasing numbers, every statement goes to the client that
    is open, and the open client is released before the trace ends.
    [next] is the number the next borrow gets, [open] the open client. *)
Fixpoint sessions (next : nat) (open : option nat) (t : list db_event) : bool :=
  match t with
  | [] => match open with None => true | Some _ => false end
  | Borrow c :: r =>
      match open with
      | None => (c =? next)%nat && sessions (S next) (Some c) r
      | Some _ => false
      end
  | Query c _ _ :: r =>
      match open with
      | Some o => (c =? o)%nat && sessions next open r
      | None => false
      end
  | Release c :: r =>
      match open with
      | Some o => (c =? o)%nat && sessions next None r
      | None => false
      end
  | ConnectFailed :: r => sessions next open r
  | PoolEnd :: r => sessions next open r
  end.

Definition count_borrow (c : nat) (t : list db_event) : nat :=
  List.length (filter (fun e => match e with Borrow c' => (c' =? c)%nat | _ => false end) t).

Definition count_release (c : nat) (t : list db_event) : nat :=
  List.length (filter (fun e => match e with Release c' => (c' =? c)%nat | _ => false end) t).

(** * Stating properties of runs *)

Arguments search_path_query : simpl never.
Arguments sql_update_patient : simpl never.
Arguments sql_update_note : simpl never.
Arguments sql_select_notes : simpl never.
Arguments schema_not_found : simpl never.
Arguments msg_obj : simpl never.
Arguments msg_err_obj : simpl never.
Arguments isValidSchemaName : simpl never.
Arguments patient_insert_values : simpl never.
Arguments note_insert_values : simpl never.
Arguments patient_update_fields : simpl never.
Arguments note_update_fields : simpl never.
Arguments code_is : simpl never.
Arguments constraint_is : simpl never.
Arguments includes : simpl never.
Arguments js_to_string : simpl never.
Arguments String.append : simpl never.
Arguments borrows : simpl never.
Arguments headers : simpl never.
Arguments finalHeaders : simpl never.
Arguments sql_select_queue : simpl never.

Ltac break_match :=
  match goal with
  | |- context [match ?x with _ => _ end] =>
      lazymatch x with
      | context [match _ with _ => _ end] => fail
      | _ => destruct x eqn:?
      end
  end.

Ltac unfold_ops :=
  unfold setTenantSearchPath, pool_connect, client_query, client_release,
    release_if_client, read_client, missing_required, member,
    parse_body_or_empty, parse_note_body, keys_length, first_row,
    post_patients_error, put_patient_error, delete_patient_error, queue_error,
    post_soapnotes_error, get_soapnotes_error, get_soapnote_error,
    put_soapnote_error, on_parse_error, getDbCredentials, pool_end, template,
    bind, ret, throw, return_, try_catch, try_finally,
    set_client, set_statusCode, set_responseBody, set_pool, emit.

Ltac exec := unfold_ops; cbn; repeat (break_match; cbn).


Definition is_search_path_stmt (text : string) : bool :=
  String.prefix "SET search_path" text.

(** A statement on client [n] that leaves the search path alone. *)
Definition plain_statement (n : nat) (e : db_event) : bool :=
  match e with
  | Query c text _ => (c =? n)%nat && negb (is_search_path_stmt text)
  | _ => false
  end.

(** What a tenant route adds to the trace when the next client is [n]. *)
Inductive tenant_session (tenantSchema : string) (n : nat) : list db_event -> Prop :=
| ts_untouched : tenant_session tenantSchema n []
| ts_connect_failed : tenant_session tenantSchema n [ConnectFailed]
| ts_rejected :
    isValidSchemaName tenantSchema = false ->
    tenant_session tenantSchema n [Borrow n; Release n]
| ts_scoped stmts :
    isValidSchemaName tenantSchema = true ->
    forallb (plain_statement n) stmts = true ->
    tenant_session tenantSchema n
      (Borrow n :: Query n (search_path_query tenantSchema) [] :: stmts ++ [Release n])%list.

Definition adds {A} (m : M A) (st : St) (P : list db_event -> Prop) : Prop :=
  exists d, trace (fst (m st)) = (trace st ++ d)%list /\ P d.

Ltac norm_hyps :=
  repeat match goal with
         | H : negb _ = true |- _ => apply negb_true_iff in H
         | H : negb _ = false |- _ => apply negb_false_iff in H
         end.

Ltac close_session :=
  norm_hyps;
  repeat rewrite <- app_assoc; cbn;
  eexists; split; [ first [ reflexivity | symmetry; apply app_nil_r ] | ];
  first [ apply ts_untouched
        | apply ts_connect_failed
        | apply ts_rejected; assumption
        | apply (ts_scoped _ _ []); [ assumption | reflexivity ]
        | apply (ts_scoped _ _ [_]);
          [ assumption | cbn; rewrite Nat.eqb_refl; reflexivity ] ].

Ltac route_adds :=
  match goal with
  | st : St |- _ => destruct st as [tr p c s b]; cbn; intros ->
  end;
  unfold adds; exec; close_session.

(** What the pool's set-up adds on a cold start; the flag tells whether the
    handler goes on to routing. *)
Inductive pool_setup : bool -> list db_event -> bool -> Prop :=
| setup_warm : pool_setup true [] true
| setup_no_credentials : pool_setup false [] false
| setup_connect_failed : pool_setup false [ConnectFailed; PoolEnd] false
| setup_probe_failed :
    pool_setup false [Borrow 0; Query 0 sql_select_now []; Release 0; PoolEnd] false
| setup_ready :
    pool_setup false [Borrow 0; Query 0 sql_select_now []; Release 0] true.

(** What the health check adds when the next client is [n]. *)
Inductive probe_session (n : nat) : list db_event -> Prop :=
| probe_connect_failed : probe_session n [ConnectFailed]
| probe_done : probe_session n [Borrow n; Query n sql_select_1 []; Release n].

(** The traces of the handler. *)
Inductive handler_trace (warm : bool) (ev : Event) : list db_event -> Prop :=
| ht_preflight : handler_trace warm ev []
| ht_unavailable i : pool_setup warm i false -> handler_trace warm ev i
| ht_healthcheck i d :
    pool_setup warm i true -> probe_session (borrows i) d ->
    handler_trace warm ev (i ++ d)%list
| ht_no_tenant i :
    pool_setup warm i true -> extract_tenant ev = None -> handler_trace warm ev i
| ht_tenant i t d :
    pool_setup warm i true -> extract_tenant ev = Some t ->
    tenant_session t (borrows i) d ->
    handler_trace warm ev (i ++ d)%list.

Definition count_search_path (c : nat) (t : list db_event) : nat :=
  List.length
    (filter (fun e => match e with
                      | Query c' text _ => (c' =? c)%nat && is_search_path_stmt text
                      | _ => false
                      end) t).

(** How the handler ends, from the way the routing block ends: the final
    response, the response of a [return], or the catch-all of the routing
    [try]. *)
Definition respond (R : Runtime) (x : St * outcome unit) : St * Response :=
  match x with
  | (st, Val _) =>
      (st, mkResponse (statusCode st) (finalHeaders R) (JsonBody (responseBody st)))
  | (st, Ret r) => (st, r)
  | (st, Throw error) =>
      (mkSt (trace st) (pool st) (client st) 500
            (msg_err_obj "Internal Server Error" (JStr (e_message error))),
       mkResponse 500 (finalHeaders R)
         (JsonBody (msg_err_obj "Internal Server Error" (JStr (e_message error)))))
  end.

(** The reply when the pool cannot be set up. *)
Definition unavailable (R : Runtime) (initError : js_error) : Response :=
  mkResponse 500 (headers R)
    (JsonBody (msg_err_obj "Internal Server Error: Could not connect to database."
                           (JStr (e_message initError)))).

(** ** Sample requests and runtimes *)

Definition claims_for (tenant : string) : jsval :=
  JObj [("custom:clinic_id", JStr tenant)].

Definition request (method path : string) (id : option string) (body : request_body)
    (claims : jsval) : Event :=
  mkEvent method path id None body claims.

(** A database that accepts every statement and returns no row. *)
Definition rt_quiet : Runtime :=
  mkRuntime None (fun _ => None) (fun _ _ _ => inr (mkResult [] 0)) None
            "2025-04-15T12:00:00.000Z".

(** A database that cannot be reached. *)
Definition rt_down : Runtime :=
  mkRuntime None (fun _ => Some (Error "connect ECONNREFUSED"))
            (fun _ _ _ => inl (Error "Connection terminated")) None
            "2025-04-15T12:00:00.000Z".

(** ** Shapes of replies *)

(** A value whose JSON text is an object with a [message] string. *)
Definition has_message (v : jsval) : bool :=
  match v with
  | JObj l => match assoc "message" l with Some (JStr _) => true | _ => false end
  | _ => false
  end.

(** How a route may end: with [responseBody] carrying a message (or, on a
    listing route, status 200 and the rows), or by returning a response with
    the common headers and a message. What a route throws is answered by
    the catch around the routing. *)
Definition reply_ok (R : Runtime) (listing : bool) (x : St * outcome unit) : Prop :=
  match snd x with
  | Val _ =>
      has_message (responseBody (fst x)) = true
      \/ (listing = true /\ statusCode (fst x) = 200%Z
          /\ exists res, responseBody (fst x) = rows_value res)
  | Ret r =>
      r_headers r = headers R
      /\ exists v, r_body r = JsonBody v /\ has_message v = true
  | Throw _ => True
  end.

Definition is_healthcheck (ev : Event) : bool :=
  String.eqb (ev_path ev) "/healthcheck" && String.eqb (ev_httpMethod ev) "GET".

Definition is_listing (ev : Event) : bool :=
  String.eqb (ev_httpMethod ev) "GET"
  && (String.eqb (ev_path ev) "/patients"
      || String.eqb (ev_path ev) "/waiting-queue"
      || String.eqb (ev_path ev) "/queue").

Definition health_body (R : Runtime) (dbOk : bool) : jsval :=
  JObj [ ("status", JStr "OK");
         ("database_status", JStr (if dbOk then "OK" else "Unavailable"));
         ("timestamp", JStr (clock R)) ].

Definition cors_header_names : list string :=
  [ "Access-Control-Allow-Origin";
    "Access-Control-Allow-Headers";
    "Access-Control-Allow-Methods" ].

Ltac close_reply :=
  cbn;
  first [ exact I
        | left; reflexivity
        | right; repeat split; eexists; reflexivity
        | split; [ reflexivity | eexists; split; reflexivity ] ].

Ltac route_reply :=
  match goal with
  | st : St |- _ => destruct st as [tr p c s b]
  end;
  unfold reply_ok; exec; close_reply.

(** Case analysis on the test of the [if] that heads the computation. *)
Ltac branch H :=
  match goal with
  | |- context [(if ?c then _ else _) _] => destruct c eqn:H
  end.

(** ** Tenant claims *)

(** The claim has no usable tenant identifier: it is absent, not a string, or
    empty after trimming. *)
Definition lacks_tenant (ev : Event) : Prop :=
  match js_get (ev_claims ev) "custom:clinic_id" with
  | JStr s => trim s = ""
  | _ => True
  end.

(** Whether the health check's probe goes through on a warm start. *)
Definition probe_ok (R : Runtime) : bool :=
  match connect_reply R [] with
  | None =>
      match query_reply R [Borrow 0] sql_select_1 [] with
      | inr _ => true
      | inl _ => false
      end
  | Some _ => false
  end.

(** ** Columns and bound values *)

(** The column lists of the two INSERT statements, in the order of their
    placeholders. *)
Definition patient_columns : list string :=
  [ "first_name"; "last_name"; "date_of_birth"; "middle_initial"; "preferred_name";
    "gender"; "phone_number"; "email"; "address_line1"; "address_line2"; "city";
    "state_province"; "postal_code"; "country"; "is_medicare_eligible"; "custom_data" ].

Definition note_columns : list string :=
  [ "patient_id"; "doctor_id"; "subjective_note"; "objective_note"; "assessment_note";
    "plan_note"; "dx_codes"; "billing_codes"; "note_type"; "signed_status" ].

(** The optional columns of a patient: all but the three required ones. *)
Definition optional_columns : list string := skipn 3 patient_columns.

(** Those that are bound with [|| null]. *)
Definition nullable_columns : list string := firstn 11 optional_columns.

(** The value bound to the placeholder of column [k]. *)
Fixpoint bound_to (k : string) (cols : list string) (vals : list param) : option param :=
  match cols, vals with
  | c :: cols', v :: vals' => if String.eqb k c then Some v else bound_to k cols' vals'
  | _, _ => None
  end.

(** A database whose INSERT ... RETURNING gives back one row. *)
Definition rt_insert : Runtime :=
  mkRuntime None (fun _ => None)
            (fun _ _ _ => inr (mkResult [[("patient_id", JStr "p-1"); ("note_id", JStr "n-1")]] 1))
            None "2025-04-15T12:00:00.000Z".

Definition jane : jsval :=
  JObj [ ("first_name", JStr "Jane"); ("last_name", JStr "Doe");
         ("date_of_birth", JStr "1990-01-01") ].

(** ** Reading a statement *)

(** [s] cut at every [sep]. *)
Fixpoint pieces (sep : ascii) (s : string) : list string :=
  match s with
  | EmptyString => [EmptyString]
  | String c r =>
      if Ascii.eqb c sep then EmptyString :: pieces sep r
      else match pieces sep r with
           | h :: t => String c h :: t
           | [] => [String c EmptyString]
           end
  end.

(** What stands between the first [a] and the next [b]. *)
Definition between (a b s : string) : option string :=
  match String.index 0 a s with
  | Some i =>
      let rest := String.substring (i + String.length a) (String.length s) s in
      match String.index 0 b rest with
      | Some j => Some (String.substring 0 j rest)
      | None => None
      end
  | None => None
  end.

(** A line without its comment: what stands before [--]. *)
Definition strip_comment (line : string) : string :=
  match String.index 0 "--" line with
  | Some i => String.substring 0 i line
  | None => line
  end.

Definition without_comments (text : string) : string :=
  join nl (map strip_comment (pieces (ascii_of_nat 10) text)).

(** The items of a list that commas separate. *)
Definition items (s : string) : list string := map trim (pieces ","%char s).

(** The target columns of an INSERT, and the expressions of its VALUES. *)
Definition insert_targets (text : string) : option (list string) :=
  option_map items (between "(" ")" (without_comments text)).

Definition insert_values (text : string) : option (list string) :=
  option_map items (between "VALUES (" ")" (without_comments text)).

(** An INSERT that names a number of target columns and gives another
    number of expressions. *)
Definition unbalanced (text : string) : bool :=
  match insert_targets text, insert_values text with
  | Some targets, Some values =>
      String.prefix "INSERT" text
      && negb (List.length targets =? List.length values)%nat
  | _, _ => false
  end.




(** A database that refuses an unbalanced INSERT, as PostgreSQL does:
    "INSERT has more target columns than expressions", a syntax error. *)
Definition refuses_unbalanced (R : Runtime) : Prop :=
  forall tr text values,
    unbalanced text = true ->
    exists e, query_reply R tr text values = inl e /\ e_code e = Some "42601".

Definition more_targets : js_error :=
  mkError false "INSERT has more target columns than expressions" (Some "42601")
          JUndefined None.

(** Such a database: it refuses the unbalanced INSERT and answers every
    other statement with one row. *)
Definition rt_strict : Runtime :=
  mkRuntime None (fun _ => None)
            (fun _ text _ =>
               if unbalanced text then inl more_targets
               else inr (mkResult [[("patient_id", JStr "p-1"); ("note_id", JStr "n-1")]] 1))
            None "2025-04-15T12:00:00.000Z".

(** ** Request bodies *)

(** The three required fields of a patient are there and truthy. *)
Definition has_required (body : jsval) : bool :=
  truthy (js_get body "first_name")
  && truthy (js_get body "last_name")
  && truthy (js_get body "date_of_birth").

(** What [JSON.parse(event.body || '{}')] returns, when it returns. *)
Definition parsed_body (b : request_body) : option jsval :=
  match b with
  | NoBody => Some (JObj [])
  | Malformed _ => None
  | Json v => Some v
  end.

(** ** The listing of the waiting queue *)






(** ** Reading a reply, and running the routes from a warm start *)

(** The [error] member of a JSON reply. *)
Definition error_field (r : Response) : jsval :=
  match r_body r with
  | JsonBody v => js_get v "error"
  | RawBody _ => JUndefined
  end.

Ltac unfold_routes :=
  unfold get_patients, post_patients, put_patient, delete_patient, get_waiting_queue,
    get_queue, post_soapnotes, get_soapnotes, get_soapnote, put_soapnote, unknown_path.

Ltac route_step :=
  first [ progress cbn
        | match goal with
          | H : ?x = _ |- context [match ?x with _ => _ end] => rewrite H
          end
        | break_match ].

Ltac all_routes :=
  unfold tenant_routes;
  repeat match goal with
         | |- context [(if ?c then _ else _) _] => destruct c
         end;
  unfold_routes.

(** A route's database block up to the scoping, from a warm start: [Hv]
    reads the allow-list as its regular expression, [Ht] says the tenant
    passes it, [Hc] that a client is lent, [Hs] that the directive goes
    through. *)
Ltac scope Hv Ht Hc Hs :=
  unfold setTenantSearchPath; rewrite Hv, Ht; cbn [negb];
  unfold_ops; unfold code_is, borrows, initial; cbn;
  rewrite Hc; cbn; rewrite Hs; cbn.

(** The same for the two PUT routes, whose block first counts the keys of
    the body ([Hk]). *)
Ltac scope_body Hv Hk Ht Hc Hs :=
  unfold setTenantSearchPath; rewrite Hv, Ht; cbn [negb];
  unfold_ops; unfold code_is, borrows, initial; cbn;
  rewrite Hk; cbn; rewrite Hc; cbn; rewrite Hs; cbn.

(** ** Partial updates, declaratively *)

(** The columns the two UPDATE builders look at, each with the way its value
    is bound. *)
Definition patient_update_columns : list (string * (jsval -> param)) :=
  [ ("first_name", PVal); ("last_name", PVal); ("date_of_birth", PVal); ("gender", PVal);
    ("contact_info", json_or_empty); ("address", json_or_empty);
    ("insurance_info", json_or_empty); ("medical_history", json_or_empty) ].

Definition note_update_columns : list (string * (jsval -> param)) :=
  [ ("subjective", PVal); ("objective", PVal); ("assessment", PVal); ("plan", PVal) ].

(** The columns of [cols] the body supplies: those it does not leave
    [undefined]. *)
Definition supplied (body : jsval) (cols : list (string * (jsval -> param)))
  : list (string * (jsval -> param)) :=
  filter (fun c => negb (is_undefined (js_get body (fst c)))) cols.

(** [col = $n], [col' = $n+1], ... *)
Fixpoint numbered (n : nat) (cols : list (string * (jsval -> param))) : list string :=
  match cols with
  | [] => []
  | c :: r => (fst c ++ " = $" ++ nat_to_string n) :: numbered (S n) r
  end.

Definition bound_values (body : jsval) (cols : list (string * (jsval -> param))) : list param :=
  map (fun c => snd c (js_get body (fst c))) cols.

(** The builders as one loop over their columns. *)
Definition push_columns (body : jsval) (cols : list (string * (jsval -> param)))
    (a : update_acc) : update_acc :=
  fold_left (fun a c => push_field (fst c) (js_get body (fst c)) (snd c) a) cols a.

(** ** More sample requests and runtimes *)

Definition clinic_a : jsval := claims_for "clinic_a".

(** A request with an [id] path parameter. *)
Definition request_for (method path id : string) (body : request_body) : Event :=
  mkEvent method path (Some id) None body clinic_a.

(** The SQLSTATE codes for which some route answers otherwise than with the
    500 of its last branch. *)
Definition route_codes : list string := ["23505"; "22P02"; "3F000"; "23503"; "42703"].

(** A database host that refuses the connection. *)
Definition rt_refused : Runtime :=
  mkRuntime None
            (fun _ => Some (mkError false "connect ECONNREFUSED 10.0.1.17:5432"
                                    (Some "ECONNREFUSED") JUndefined None))
            (fun _ _ _ => inl (Error "Connection terminated")) None
            "2025-04-15T12:00:00.000Z".

(** A database in which the tenant's schema does not exist. *)
Definition rt_no_schema : Runtime :=
  mkRuntime None (fun _ => None)
            (fun _ _ _ =>
               inl (mkError false "schema does not exist" (Some "3F000") JUndefined None))
            None "2025-04-15T12:00:00.000Z".

(** A database that scopes the connection and then refuses every statement
    for a patient it does not know. *)
Definition rt_unknown_patient : Runtime :=
  mkRuntime None (fun _ => None)
            (fun _ text _ =>
               if is_search_path_stmt text then inr (mkResult [] 0)
               else inl (mkError false "violates foreign key constraint"
                                 (Some "23503")
                                 (JStr "Key (patient_id)=(p-9) is not present in table.")
                                 (Some "fk_notes_patient")))
            None "2025-04-15T12:00:00.000Z".


(** * The database credentials

    [getDbCredentials] in full: the discovery of the secret's ARN through the
    tags of the secrets, the fall-back on the secret's name, the cache of the
    ARN in the module-level [cachedSecretArn], and the reading of the secret.
    The handler above sees its outcome only; here the secret store is the
    outside world. *)
Module SecretsManager.

Record tag : Type := mkTag {
  Key : option string;
  Value : option string
}.

Record secret : Type := mkSecret {
  ARN : option string;
  Name : option string;
  Tags : option (list tag)
}.

(** What a rejected [client.send] throws: [error.name], [error.message]. *)
Record error : Type := mkErr {
  name : string;
  message : string
}.

(** [new Error(msg)] *)
Definition Error (msg : string) : error := mkErr "Error" msg.

(** The answers to [ListSecrets] without a filter, page after page: a page
    carries its [SecretList] and, under its [NextToken], the answer to the
    request made with that token.  A listing is finite. *)
Inductive listing : Type :=
| Rejected (e : error)
| Page (SecretList : option (list secret)) (NextToken : option (string * listing)).

(** [data.SecretString] under [JSON.parse]. *)
Inductive secret_string : Type :=
| Unparsable (msg : string)     (* [JSON.parse] throws a SyntaxError *)
| Parsed (v : jsval).

Record Service : Type := mkService {
  list_secrets : listing;
  (* [ListSecrets] with a filter on the name: its [SecretList] *)
  list_by_name : string -> error + option (list secret);
  (* [GetSecretValue]: [None] when the answer has no [SecretString] *)
  get_secret_value : string -> error + option secret_string;
  DB_CLUSTER_IDENTIFIER : option string;
  DB_CLUSTER_ENDPOINT : option string;
  DB_NAME : option string
}.

(** The requests sent to the secret store. *)
Inductive call : Type :=
| ListSecrets (NextToken : option string)
| ListSecretsByName (prefix : string)
| GetSecretValue (SecretId : string).

(** What the pool is built from. *)
Record db_config : Type := mkConfig {
  host : jsval;
  port : jsval;
  user : jsval;
  password : jsval;
  database : jsval
}.

(** A string that may be [null] or [undefined], when it is truthy. *)
Definition truthy_text (o : option string) : option string :=
  match o with
  | Some s => if String.eqb s "" then None else Some s
  | None => None
  end.

(** [s.split(sep)] for a separator of one character. *)
Fixpoint split (sep : ascii) (s : string) : list string :=
  match s with
  | EmptyString => [EmptyString]
  | String c r =>
      if Ascii.eqb c sep then EmptyString :: split sep r
      else match split sep r with
           | h :: t => String c h :: t
           | [] => [String c EmptyString]
           end
  end.

(** [l.pop()] on an array of strings that is not empty. *)
Definition pop (l : list string) : string := last l EmptyString.

(** The test of the tag scan on one secret: the first tag under the key
    [aws:rds:primaryDBClusterArn] has a value that mentions the cluster. *)
Definition tag_matches (clusterIdentifier : string) (s : secret) : bool :=
  match Tags s with
  | Some tags =>
      match find (fun t => match Key t with
                           | Some k => String.eqb k "aws:rds:primaryDBClusterArn"
                           | None => false
                           end) tags with
      | Some clusterArnTag =>
          match truthy_text (Value clusterArnTag) with
          | Some v => includes v clusterIdentifier
          | None => false
          end
      | None => false
      end
  | None => false
  end.

(** The [for] loop over a page: [secretArn] after it. *)
Fixpoint scan_secrets (clusterIdentifier : string) (l : list secret)
    (secretArn : option string) : option string :=
  match l with
  | [] => secretArn
  | s :: r =>
      if tag_matches clusterIdentifier s then ARN s
      else scan_secrets clusterIdentifier r secretArn
  end.

(** The [do ... while (nextToken && !secretArn)] loop. *)
Fixpoint scan_pages (clusterIdentifier : string) (l : listing) (nextToken : option string)
    (secretArn : option string) (calls : list call) : list call * (error + option string) :=
  let calls := (calls ++ [ListSecrets nextToken])%list in
  match l with
  | Rejected e => (calls, inl e)
  | Page SecretList NextToken =>
      let secretArn :=
        match SecretList with
        | Some l => scan_secrets clusterIdentifier l secretArn
        | None => secretArn
        end in
      match truthy_text secretArn, NextToken with
      | None, Some (token, more) =>
          match truthy_text (Some token) with
          | Some _ => scan_pages clusterIdentifier more (Some token) secretArn calls
          | None => (calls, inr secretArn)
          end
      | _, _ => (calls, inr secretArn)
      end
  end.

(** The [try] block of the discovery. *)
Definition discover (S : Service) (clusterIdentifier : string)
  : list call * (error + option string) :=
  match scan_pages clusterIdentifier (list_secrets S) None None [] with
  | (calls, inl e) => (calls, inl e)
  | (calls, inr secretArn) =>
      match truthy_text secretArn with
      | Some _ => (calls, inr secretArn)
      | None =>
          let likelySecretPrefix :=
            "rds!cluster-" ++ pop (split "-"%char clusterIdentifier) in
          let calls := (calls ++ [ListSecretsByName likelySecretPrefix])%list in
          match list_by_name S likelySecretPrefix with
          | inr (Some (first :: _)) => (calls, inr (ARN first))
          | inr _ =>
              (calls,
               inl (Error ("Failed to find secret ARN via tags or name pattern: "
                           ++ "Secret not found via tags or name pattern for cluster: "
                           ++ clusterIdentifier)))
          | inl fallbackError =>
              (calls,
               inl (Error ("Failed to find secret ARN via tags or name pattern: "
                           ++ message fallbackError)))
          end
      end
  end.

(** The [if ('SecretString' in data)] block. *)
Definition read_secret (S : Service) (data : option secret_string) : error + db_config :=
  match data with
  | Some (Parsed secret) =>
      match secret with
      | JUndefined | JNull =>
          inl (mkErr "TypeError"
                 ("Cannot read properties of " ++ js_to_string secret ++ " (reading 'host')"))
      | _ =>
          let host := js_or (js_get secret "host") (env_string (DB_CLUSTER_ENDPOINT S)) in
          if negb (truthy host) then inl (Error "DB endpoint address not found.")
          else
            inr (mkConfig host
                   (js_or (js_get secret "port") (JNum 5432))
                   (js_get secret "username")
                   (js_get secret "password")
                   (js_or (js_or (js_get secret "dbname") (env_string (DB_NAME S)))
                          (JStr "postgres")))
      end
  | Some (Unparsable msg) => inl (mkErr "SyntaxError" msg)
  | None => inl (Error "Cannot handle binary secret value.")
  end.

(** The retrieval of the secret under the cached ARN, with its [catch]. *)
Definition retrieve (S : Service) (cachedSecretArn : string) (calls : list call)
  : (option string * list call) * (error + db_config) :=
  let calls := (calls ++ [GetSecretValue cachedSecretArn])%list in
  match match get_secret_value S cachedSecretArn with
        | inr data => read_secret S data
        | inl e => inl e
        end with
  | inr config => ((Some cachedSecretArn, calls), inr config)
  | inl error =>
      ((if String.eqb (name error) "ResourceNotFoundException"
           || String.eqb (name error) "AccessDeniedException"
        then None else Some cachedSecretArn,
        calls),
       inl (Error ("Could not retrieve database credentials: " ++ message error)))
  end.

(** [getDbCredentials], from a value of [cachedSecretArn]: the value it
    leaves there, the requests it sent, and what it returns or throws. *)
Definition getDbCredentials (S : Service) (cachedSecretArn : option string)
  : (option string * list call) * (error + db_config) :=
  match truthy_text (DB_CLUSTER_IDENTIFIER S) with
  | None => ((cachedSecretArn, []), inl (Error "Could not retrieve database credentials."))
  | Some clusterIdentifier =>
      match truthy_text cachedSecretArn with
      | Some arn => retrieve S arn []
      | None =>
          match discover S clusterIdentifier with
          | (calls, inl error) =>
              ((None, calls), inl (Error ("Could not retrieve secret ARN: " ++ message error)))
          | (calls, inr secretArn) =>
              match truthy_text secretArn with
              | None =>
                  ((None, calls),
                   inl (Error "Unable to determine the Secret ARN for the DB cluster."))
              | Some arn => retrieve S arn calls
              end
          end
      end
  end.

(** Pages in front of a listing, each under the token that asks for the
    next. *)
Fixpoint pages_then (front : list (option (list secret) * string)) (l : listing) : listing :=
  match front with
  | [] => l
  | (SecretList, token) :: r => Page SecretList (Some (token, pages_then r l))
  end.

(** No secret of the page passes the tag test. *)
Definition no_match (clusterIdentifier : string) (SecretList : option (list secret)) : bool :=
  match SecretList with
  | Some l => forallb (fun s => negb (tag_matches clusterIdentifier s)) l
  | None => true
  end.

(** The requests the loop sends for the pages in front, and the token the
    following request carries, when none of them ends the loop. *)
Fixpoint front_calls (nextToken : option string)
    (front : list (option (list secret) * string)) : list call :=
  match front with
  | [] => []
  | (_, token) :: r => ListSecrets nextToken :: front_calls (Some token) r
  end.

Fixpoint front_token (nextToken : option string)
    (front : list (option (list secret) * string)) : option string :=
  match front with
  | [] => nextToken
  | (_, token) :: r => front_token (Some token) r
  end.

(** Pages that keep the loop going: no match, and a token to go on with. *)
Definition passes (clusterIdentifier : string)
    (front : list (option (list secret) * string)) : bool :=
  forallb (fun p => no_match clusterIdentifier (fst p) && negb (String.eqb (snd p) "")) front.

(** *** A sample store *)

Definition cluster_arn : string := "arn:aws:rds:us-east-1:123456789012:cluster:emr-cluster-1".
Definition secret_arn : string :=
  "arn:aws:secretsmanager:us-east-1:123456789012:secret:rds!cluster-7f3a".

Definition other_secret : secret :=
  mkSecret (Some "arn:aws:secretsmanager:us-east-1:123456789012:secret:api-key")
           (Some "api-key") None.

Definition cluster_secret : secret :=
  mkSecret (Some secret_arn) (Some "rds!cluster-7f3a")
           (Some [ mkTag (Some "aws:rds:primaryDBClusterArn") (Some cluster_arn) ]).

Definition secret_text : jsval :=
  JObj [ ("username", JStr "emr"); ("password", JStr "s3cret");
         ("host", JStr "emr-cluster-1.cluster-abc.us-east-1.rds.amazonaws.com") ].

Definition answers (SecretId : string) : error + option secret_string :=
  if String.eqb SecretId secret_arn then inr (Some (Parsed secret_text))
  else inl (mkErr "ResourceNotFoundException"
                  "Secrets Manager can't find the specified secret.").

(** The cluster's secret is on the second page, under its tag. *)
Definition store : Service :=
  mkService (Page (Some [other_secret]) (Some ("page-2", Page (Some [cluster_secret]) None)))
            (fun _ => inr None)
            answers
            (Some "emr-cluster-1") None None.

(** No secret carries the tag; the one named after the cluster is found by
    name. *)
Definition untagged_store : Service :=
  mkService (Page (Some [other_secret]) None)
            (fun prefix =>
               if String.eqb prefix "rds!cluster-1"
               then inr (Some [mkSecret (Some secret_arn) (Some "rds!cluster-1") None])
               else inr (Some []))
            answers
            (Some "emr-cluster-1") None None.

End SecretsManager.

(** * Theorems *)

(** ** Values as text *)

Example number_in_full :
  js_to_string (JNum 42) = "42"
  /\ js_to_string (JNum (-7)) = "-7"
  /\ js_to_string (JNum 0) = "0"
  /\ js_to_string (JNum 9007199254740993) = "9007199254740992"
  /\ js_to_string (JNum 123456789012345678901) = "123456789012345680000"
  /\ js_to_string (JNum (2 ^ 64)) = "18446744073709552000".
Proof. repeat split; vm_compute; reflexivity. Qed.

Example number_with_exponent :
  js_to_string (JNum (10 ^ 21)) = "1e+21"
  /\ js_to_string (JNum (10 ^ 23)) = "1e+23"
  /\ js_to_string (JNum (2 ^ 70)) = "1.1805916207174113e+21"
  /\ js_to_string (JNum (- (10 ^ 25))) = "-1e+25"
  /\ js_to_string (JNum (2 ^ 1024 - 2 ^ 970 - 1)) = "1.7976931348623157e+308"
  /\ js_to_string (JNum (2 ^ 1024)) = "Infinity".
Proof. repeat split; vm_compute; reflexivity. Qed.

Example values_in_a_template :
  js_to_string (JArr [JNum 1; JNull; JStr "a"; JArr [JBool true; JUndefined]]) = "1,,a,true,"
  /\ js_to_string (JObj [("id", JNum 1)]) = "[object Object]"
  /\ to_string_throws (JObj [("toString", JNum 1)]) = true
  /\ to_string_throws (JArr [JNull; JObj [("toString", JNull)]]) = true
  /\ to_string_throws (JObj [("valueOf", JNum 1)]) = false.
Proof. repeat split. Qed.


Section RouteTraces.

Variable R : Runtime.
Variable t : string.
Variable ev : Event.
Variable st : St.
Hypothesis fresh : client st = None.

Lemma get_patients_adds :
  adds (get_patients R t) st (tenant_session t (borrows (trace st))).
Proof. revert fresh. unfold get_patients. route_adds. Qed.

Lemma post_patients_adds :
  adds (post_patients R t ev) st (tenant_session t (borrows (trace st))).
Proof. revert fresh. unfold post_patients. route_adds. Qed.

Lemma put_patient_adds :
  adds (put_patient R t ev) st (tenant_session t (borrows (trace st))).
Proof. revert fresh. unfold put_patient. route_adds. Qed.

Lemma delete_patient_adds :
  adds (delete_patient R t ev) st (tenant_session t (borrows (trace st))).
Proof. revert fresh. unfold delete_patient. route_adds. Qed.

Lemma get_queue_adds :
  adds (get_queue R t) st (tenant_session t (borrows (trace st))).
Proof. revert fresh. unfold get_queue. route_adds. Qed.

Lemma post_soapnotes_adds :
  adds (post_soapnotes R t ev) st (tenant_session t (borrows (trace st))).
Proof. revert fresh. unfold post_soapnotes. route_adds. Qed.

Lemma get_soapnotes_adds :
  adds (get_soapnotes R t ev) st (tenant_session t (borrows (trace st))).
Proof. revert fresh. unfold get_soapnotes. route_adds. Qed.

Lemma get_soapnote_adds :
  adds (get_soapnote R t ev) st (tenant_session t (borrows (trace st))).
Proof. revert fresh. unfold get_soapnote. route_adds. Qed.

Lemma put_soapnote_adds :
  adds (put_soapnote R t ev) st (tenant_session t (borrows (trace st))).
Proof. revert fresh. unfold put_soapnote. route_adds. Qed.

Lemma unknown_path_adds :
  adds (unknown_path (ev_path ev)) st (tenant_session t (borrows (trace st))).
Proof. revert fresh. unfold unknown_path. route_adds. Qed.

End RouteTraces.

(** ** The traces of the handler *)

Lemma initializePool_cold (R : Runtime) (c : option nat) (s : Z) (b : jsval) :
  (exists i, pool_setup false i true
             /\ initializePool R (mkSt [] false c s b) = (mkSt i true c s b, Val tt))
  \/ (exists i e, pool_setup false i false
                  /\ initializePool R (mkSt [] false c s b) = (mkSt i false c s b, Throw e)).
Proof.
  unfold initializePool; cbn [pool].
  exec.
  all: first [ left; eexists; split; [ | reflexivity ]; constructor
             | right; eexists; eexists; split; [ | reflexivity ]; constructor ].
Qed.

Lemma handler_preflight (R : Runtime) (warm : bool) (ev : Event) :
  String.eqb (ev_httpMethod ev) "OPTIONS" = true ->
  handler R warm ev = (initial warm, preflight_response R).
Proof. intros H. unfold handler. rewrite H. reflexivity. Qed.

Lemma handler_warm (R : Runtime) (ev : Event) :
  String.eqb (ev_httpMethod ev) "OPTIONS" = false ->
  handler R true ev = respond R (routing R ev (initial true)).
Proof.
  intros Hm. unfold handler. rewrite Hm.
  unfold handler_body, respond.
  unfold bind at 1. cbn [initial pool negb].
  unfold bind, try_catch.
  destruct (routing R ev _) as [st [u | e | r]]; cbn; reflexivity.
Qed.

Lemma handler_cold_ready (R : Runtime) (ev : Event) (i : list db_event) :
  String.eqb (ev_httpMethod ev) "OPTIONS" = false ->
  initializePool R (initial false) = (mkSt i true None 200 (JObj []), Val tt) ->
  handler R false ev = respond R (routing R ev (mkSt i true None 200 (JObj []))).
Proof.
  intros Hm Hi. unfold handler. rewrite Hm.
  unfold handler_body, respond.
  unfold bind at 1. cbn [initial pool negb].
  unfold try_catch at 1. rewrite Hi.
  unfold bind, try_catch.
  destruct (routing R ev _) as [st [u | e | r]]; cbn; reflexivity.
Qed.

Lemma handler_cold_failed (R : Runtime) (ev : Event) (i : list db_event) (e : js_error) :
  String.eqb (ev_httpMethod ev) "OPTIONS" = false ->
  initializePool R (initial false) = (mkSt i false None 200 (JObj []), Throw e) ->
  handler R false ev
  = (mkSt i false None 500
       (msg_err_obj "Internal Server Error: Could not connect to database."
                    (JStr (e_message e))),
     unavailable R e).
Proof.
  intros Hm Hi. unfold handler. rewrite Hm.
  unfold handler_body.
  unfold bind at 1. cbn [initial pool negb].
  unfold try_catch at 1. rewrite Hi.
  reflexivity.
Qed.

Lemma handler_cases (R : Runtime) (warm : bool) (ev : Event) :
  (String.eqb (ev_httpMethod ev) "OPTIONS" = true
   /\ handler R warm ev = (initial warm, preflight_response R))
  \/ (String.eqb (ev_httpMethod ev) "OPTIONS" = false
      /\ exists i e,
           pool_setup warm i false
           /\ handler R warm ev
              = (mkSt i false None 500
                   (msg_err_obj "Internal Server Error: Could not connect to database."
                                (JStr (e_message e))),
                 unavailable R e))
  \/ (String.eqb (ev_httpMethod ev) "OPTIONS" = false
      /\ exists i,
           pool_setup warm i true
           /\ handler R warm ev
              = respond R (routing R ev (mkSt i true None 200 (JObj [])))).
Proof.
  destruct (String.eqb (ev_httpMethod ev) "OPTIONS") eqn:Hm.
  - left. split; [ reflexivity | ]. now apply handler_preflight.
  - right. destruct warm.
    + right. split; [ reflexivity | ]. exists []. split; [ constructor | ].
      now apply handler_warm.
    + destruct (initializePool_cold R None 200 (JObj [])) as [(i & Hi & E) | (i & e & Hi & E)].
      * right. split; [ reflexivity | ]. exists i. split; [ assumption | ].
        now apply handler_cold_ready.
      * left. split; [ reflexivity | ]. exists i, e. split; [ assumption | ].
        now apply handler_cold_failed.
Qed.

Lemma respond_trace (R : Runtime) (x : St * outcome unit) :
  trace (fst (respond R x)) = trace (fst x).
Proof. destruct x as [st [u | e | r]]; reflexivity. Qed.

Lemma healthcheck_adds (R : Runtime) (st : St) :
  client st = None ->
  adds (healthcheck R) st (probe_session (borrows (trace st))).
Proof.
  destruct st as [tr p c s b]; cbn; intros ->.
  unfold adds, healthcheck. exec.
  all: repeat rewrite <- app_assoc; cbn; eexists; (split; [ reflexivity | constructor ]).
Qed.

Lemma tenant_routes_adds (R : Runtime) (t : string) (ev : Event) (st : St) :
  client st = None ->
  adds (tenant_routes R t ev) st (tenant_session t (borrows (trace st))).
Proof.
  intros fresh. unfold tenant_routes.
  repeat match goal with
         | |- context [if ?b then _ else _] => destruct b
         end.
  - now apply get_patients_adds.
  - now apply post_patients_adds.
  - now apply put_patient_adds.
  - now apply delete_patient_adds.
  - now apply get_queue_adds.
  - now apply post_soapnotes_adds.
  - now apply get_soapnotes_adds.
  - now apply get_soapnote_adds.
  - now apply put_soapnote_adds.
  - now apply get_queue_adds.
  - now apply unknown_path_adds.
Qed.

Lemma tenant_missing_spec (o : option string) :
  tenant_missing o = false -> exists t, o = Some t.
Proof. destruct o; [ eauto | discriminate ]. Qed.

Lemma handler_trace_grammar (R : Runtime) (warm : bool) (ev : Event) :
  handler_trace warm ev (trace (fst (handler R warm ev))).
Proof.
  destruct (handler_cases R warm ev)
    as [(_ & E) | [(_ & i & e & Hi & E) | (_ & i & Hi & E)]]; rewrite E; clear E.
  - apply ht_preflight.
  - now apply ht_unavailable.
  - rewrite respond_trace. unfold routing.
    destruct (_ && _).
    + destruct (healthcheck_adds R (mkSt i true None 200 (JObj [])) eq_refl) as (d & -> & Hd).
      now apply ht_healthcheck.
    + destruct (tenant_missing _) eqn:Ht.
      * destruct (extract_tenant ev) eqn:Hx.
        -- cbn in Ht. apply negb_true_iff in Ht.
           unfold extract_tenant in Hx.
           exfalso.
           repeat match type of Hx with
                  | context [if ?b then _ else _] => destruct b eqn:?
                  | context [match ?v with _ => _ end] => destruct v eqn:?
                  end; try discriminate.
           inversion Hx; subst.
           cbn in Ht. apply negb_false_iff in Ht. apply String.eqb_eq in Ht.
           rewrite Ht in *. discriminate.
        -- cbn. now apply ht_no_tenant.
      * destruct (tenant_missing_spec _ Ht) as (t & Hx). rewrite Hx.
        destruct (tenant_routes_adds R t ev (mkSt i true None 200 (JObj [])) eq_refl)
          as (d & -> & Hd).
        now apply (ht_tenant warm ev i t d).
Qed.

(** ** Sessions and counts *)

Lemma sessions_counts (t : list db_event) :
  forall n o, sessions n o t = true ->
  (forall x, o = Some x -> x < n) ->
  forall c,
    (c < n -> count_borrow c t = 0)
    /\ count_borrow c t <= 1
    /\ count_release c t
       = count_borrow c t
         + match o with Some x => if (x =? c)%nat then 1 else 0 | None => 0 end.
Proof.
  unfold count_borrow, count_release.
  induction t as [| e r IH]; intros n o Hs Ho c.
  - destruct o; [ discriminate | ]. cbn. repeat split; lia.
  - destruct e as [c0 | | c0 text values | c0 | ]; cbn in Hs |- *.
    + destruct o; [ discriminate | ].
      apply andb_true_iff in Hs as [Hc Hs]. apply Nat.eqb_eq in Hc. subst c0.
      assert (forall x, Some n = Some x -> x < S n) as Ho' by (intros x [= <-]; lia).
      destruct (IH _ _ Hs Ho' c) as (H0 & H1 & H2).
      destruct (Nat.eqb_spec n c) as [-> | Hne]; cbn.
      * rewrite H2. rewrite (H0 (Nat.lt_succ_diag_r c)). repeat split; lia.
      * rewrite H2. repeat split; try lia; intros Hlt; apply H0; lia.
    + apply (IH _ _ Hs Ho c).
    + destruct o as [x |]; [ | discriminate ].
      apply andb_true_iff in Hs as [_ Hs]. apply (IH _ _ Hs Ho c).
    + destruct o as [x |]; [ | discriminate ].
      apply andb_true_iff in Hs as [Hc Hs]. apply Nat.eqb_eq in Hc. subst c0.
      assert (forall y, @None nat = Some y -> y < n) as Ho' by discriminate.
      destruct (IH _ _ Hs Ho' c) as (H0 & H1 & H2).
      destruct (Nat.eqb_spec x c) as [-> | Hne]; cbn; rewrite H2; repeat split; try lia;
        assumption.
    + apply (IH _ _ Hs Ho c).
Qed.

Lemma sessions_statements (n : nat) (stmts : list db_event) :
  forallb (plain_statement n) stmts = true ->
  sessions (S n) (Some n) (stmts ++ [Release n]) = true.
Proof.
  induction stmts as [| e r IH]; cbn; intros H.
  - now rewrite Nat.eqb_refl.
  - apply andb_true_iff in H as [He Hr].
    destruct e; try discriminate.
    cbn in He. apply andb_true_iff in He as [Hc _].
    rewrite Hc. cbn. now apply IH.
Qed.

Lemma tenant_session_sessions (t : string) (n : nat) (d : list db_event) :
  tenant_session t n d -> sessions n None d = true.
Proof.
  intros [ | | H | stmts H Hs]; cbn; rewrite ?Nat.eqb_refl; cbn; try reflexivity.
  now apply sessions_statements.
Qed.

Lemma handler_trace_sessions (warm : bool) (ev : Event) (t : list db_event) :
  handler_trace warm ev t -> sessions 0 None t = true.
Proof.
  intros [ | i Hi | i d Hi Hd | i Hi _ | i tn d Hi _ Hd].
  - reflexivity.
  - inversion Hi; reflexivity.
  - inversion Hi; subst; inversion Hd; reflexivity.
  - inversion Hi; reflexivity.
  - apply tenant_session_sessions in Hd.
    inversion Hi; subst; cbn in *; assumption.
Qed.

(** C8. Every client borrowed during an invocation is released exactly once,
    after its borrow and after its last statement, however the invocation
    ends: the trace is a sequence of sessions, no client number is borrowed
    twice, and each is released as often as it is borrowed. *)
Theorem released_exactly_once (R : Runtime) (warm : bool) (ev : Event) (c : nat) :
  sessions 0 None (trace (fst (handler R warm ev))) = true
  /\ count_borrow c (trace (fst (handler R warm ev))) <= 1
  /\ count_release c (trace (fst (handler R warm ev)))
     = count_borrow c (trace (fst (handler R warm ev))).
Proof.
  pose proof (handler_trace_sessions _ _ _ (handler_trace_grammar R warm ev)) as Hs.
  split; [ exact Hs | ].
  assert (forall x, @None nat = Some x -> x < 0) as Ho by discriminate.
  destruct (sessions_counts _ _ _ Hs Ho c) as (_ & H1 & H2).
  split; [ exact H1 | ]. rewrite H2. lia.
Qed.

(** ** The allow-list *)

Lemma regex_none (s : string) : regex_test RNone s = false.
Proof. induction s; cbn; auto. Qed.

Lemma regex_alt (s : string) :
  forall a b, regex_test (RAlt a b) s = regex_test a s || regex_test b s.
Proof. induction s as [| c s IH]; intros a b; cbn; auto. Qed.

Lemma regex_seq_none (s : string) : forall r, regex_test (RSeq RNone r) s = false.
Proof. induction s as [| c s IH]; intros r; cbn; auto. Qed.

Lemma regex_seq_eps (s : string) : forall r, regex_test (RSeq REps r) s = regex_test r s.
Proof.
  destruct s as [| c s]; intros r; cbn; [ reflexivity | ].
  now rewrite regex_alt, regex_seq_none.
Qed.

Lemma regex_star_class (p : ascii -> bool) (s : string) :
  regex_test (RStar (RClass p)) s = all_chars p s.
Proof.
  induction s as [| c s IH]; cbn; [ reflexivity | ].
  destruct (p c); cbn.
  - now rewrite regex_seq_eps.
  - apply regex_seq_none.
Qed.

Lemma schemaRegex_spec (s : string) :
  regex_test schemaRegex s = matches_allow_list s.
Proof.
  destruct s as [| c s]; cbn; [ reflexivity | ].
  unfold ident_start.
  destruct (is_letter c || is_underscore c); cbn.
  - rewrite regex_seq_eps. apply regex_star_class.
  - apply regex_seq_none.
Qed.

Lemma isValidSchemaName_spec (s : string) :
  isValidSchemaName s = regex_test schemaRegex s.
Proof. destruct s; reflexivity. Qed.

Lemma all_chars_no_quote (s : string) :
  all_chars ident_part s = true -> double_quotes s = s.
Proof.
  induction s as [| c s IH]; cbn; [ reflexivity | ].
  intros H. apply andb_true_iff in H as [Hc Hs].
  destruct (Ascii.eqb c _) eqn:E.
  - apply Ascii.eqb_eq in E. subst c. discriminate.
  - now rewrite IH.
Qed.

Lemma escapeIdentifier_valid (s : string) :
  regex_test schemaRegex s = true -> escapeIdentifier s = dquote ++ s ++ dquote.
Proof.
  rewrite schemaRegex_spec. destruct s as [| c s]; [ discriminate | ].
  intros H. apply andb_true_iff in H as [Hc Hs].
  unfold escapeIdentifier. f_equal. f_equal.
  change (double_quotes (String c s) = String c s).
  apply all_chars_no_quote. cbn. rewrite Hs.
  unfold ident_start in Hc. unfold ident_part.
  destruct (is_letter c); cbn in *; [ reflexivity | ].
  rewrite Hc. now rewrite orb_true_r.
Qed.

(** A character outside the class anywhere, or a digit in front, and the
    identifier is refused: [;], [-], a blank. *)
Lemma allow_list_rejects_foreign (s : string) :
  contains_char (fun c => negb (ident_part c)) s = true ->
  regex_test schemaRegex s = false.
Proof.
  rewrite schemaRegex_spec.
  destruct s as [| c s]; cbn; [ reflexivity | ].
  intros H. apply orb_true_iff in H as [H | H].
  - apply negb_true_iff in H. unfold ident_part in H. unfold ident_start.
    destruct (is_letter c); [ discriminate | ]. cbn in *.
    destruct (is_underscore c); [ now rewrite orb_true_r in H | reflexivity ].
  - assert (all_chars ident_part s = false) as ->; [ | apply andb_false_r ].
    induction s as [| d s IH]; cbn in *; [ discriminate | ].
    apply orb_true_iff in H as [H | H].
    + apply negb_true_iff in H. now rewrite H.
    + rewrite (IH H). apply andb_false_r.
Qed.

Lemma allow_list_rejects_leading_digit (c : ascii) (s : string) :
  is_digit c = true -> regex_test schemaRegex (String c s) = false.
Proof.
  rewrite schemaRegex_spec. cbn. unfold ident_start, is_letter, is_underscore, is_digit, in_range.
  intros H. apply andb_true_iff in H as [H1 H2].
  apply Nat.leb_le in H1. apply Nat.leb_le in H2.
  assert ((97 <=? code c)%nat = false) as -> by (apply Nat.leb_gt; lia).
  assert ((code c <=? 57)%nat = true) as _ by (apply Nat.leb_le; lia).
  assert ((65 <=? code c)%nat = false) as -> by (apply Nat.leb_gt; lia).
  assert ((code c =? 95)%nat = false) as -> by (apply Nat.eqb_neq; lia).
  reflexivity.
Qed.

Example rejects_semicolon : isValidSchemaName "clinic;DROP" = false.
Proof. reflexivity. Qed.

Example rejects_comment : isValidSchemaName "clinic--" = false.
Proof. reflexivity. Qed.

Example rejects_blank : isValidSchemaName "clinic test" = false.
Proof. reflexivity. Qed.

Example rejects_digit_first : isValidSchemaName "9clinic" = false.
Proof. reflexivity. Qed.

Example accepts_clinic_test : isValidSchemaName "clinic_test" = true.
Proof. reflexivity. Qed.

(** ** The search path *)

Lemma append_assoc (a b c : string) : (a ++ b) ++ c = a ++ b ++ c.
Proof.
  induction a as [| x a IH]; [ reflexivity | ].
  change (String x ((a ++ b) ++ c) = String x (a ++ b ++ c)). now rewrite IH.
Qed.

Lemma setTenantSearchPath_rejects (R : Runtime) (c : nat) (s : string) (st : St) :
  regex_test schemaRegex s = false ->
  setTenantSearchPath R c s st = (st, Throw (Error "Invalid tenant identifier.")).
Proof.
  intros H. unfold setTenantSearchPath. rewrite isValidSchemaName_spec, H. reflexivity.
Qed.

Lemma setTenantSearchPath_issues (R : Runtime) (c : nat) (s : string) (st : St) :
  regex_test schemaRegex s = true ->
  trace (fst (setTenantSearchPath R c s st))
  = (trace st ++ [Query c (search_path_query s) []])%list.
Proof.
  intros H. unfold setTenantSearchPath. rewrite isValidSchemaName_spec, H.
  cbn [negb]. exec; reflexivity.
Qed.

Lemma search_path_query_is_directive (s : string) :
  is_search_path_stmt (search_path_query s) = true.
Proof. reflexivity. Qed.

Lemma count_search_path_app (c : nat) (a b : list db_event) :
  count_search_path c (a ++ b) = count_search_path c a + count_search_path c b.
Proof. unfold count_search_path. now rewrite filter_app, length_app. Qed.

Lemma plain_statements_no_directive (n c : nat) (stmts : list db_event) :
  forallb (plain_statement n) stmts = true -> count_search_path c stmts = 0.
Proof.
  unfold count_search_path.
  induction stmts as [| e r IH]; cbn; [ reflexivity | ].
  intros H. apply andb_true_iff in H as [He Hr].
  destruct e; try discriminate. cbn in He.
  apply andb_true_iff in He as [_ He]. apply negb_true_iff in He.
  rewrite He, andb_false_r. now apply IH.
Qed.

Lemma plain_statements_not_directive (n : nat) (stmts : list db_event) :
  forallb (plain_statement n) stmts = true ->
  forall c text values, In (Query c text values) stmts -> is_search_path_stmt text = false.
Proof.
  intros H c text values Hin.
  rewrite forallb_forall in H. specialize (H _ Hin). cbn in H.
  apply andb_true_iff in H as [_ H]. now apply negb_true_iff in H.
Qed.

Lemma tenant_session_directive (t : string) (n : nat) (d : list db_event) :
  tenant_session t n d ->
  forall c text values,
    In (Query c text values) d -> is_search_path_stmt text = true ->
    regex_test schemaRegex t = true /\ text = search_path_query t /\ values = [].
Proof.
  intros [ | | H | stmts H Hs] c text values Hin Hsp; cbn in Hin.
  - contradiction.
  - destruct Hin as [Hin | []]; discriminate.
  - destruct Hin as [Hin | [Hin | []]]; discriminate.
  - rewrite isValidSchemaName_spec in H.
    destruct Hin as [Hin | [Hin | Hin]]; [ discriminate | | ].
    + inversion Hin; subst. auto.
    + apply in_app_or in Hin as [Hin | [Hin | []]]; [ | discriminate ].
      rewrite (plain_statements_not_directive _ _ Hs _ _ _ Hin) in Hsp. discriminate.
Qed.

Lemma tenant_session_scoped_once (t : string) (n : nat) (d : list db_event) :
  tenant_session t n d -> forall c, count_search_path c d <= 1.
Proof.
  intros [ | | H | stmts H Hs] c; try (cbn; lia).
  change (Borrow n :: Query n (search_path_query t) [] :: stmts ++ [Release n])%list
    with ([Borrow n; Query n (search_path_query t) []] ++ stmts ++ [Release n])%list.
  rewrite !count_search_path_app, (plain_statements_no_directive _ _ _ Hs).
  unfold count_search_path. cbn [filter].
  rewrite search_path_query_is_directive, andb_true_r.
  destruct (n =? c)%nat; cbn; lia.
Qed.

Lemma handler_trace_directive (warm : bool) (ev : Event) (tr : list db_event) :
  handler_trace warm ev tr ->
  forall c text values,
    In (Query c text values) tr -> is_search_path_stmt text = true ->
    exists t, extract_tenant ev = Some t
              /\ regex_test schemaRegex t = true
              /\ text = search_path_query t /\ values = [].
Proof.
  assert (forall w i r c text values,
             pool_setup w i r -> In (Query c text values) i ->
             is_search_path_stmt text = true -> False) as Hsetup.
  { intros w i r c text values Hi Hin Hsp.
    inversion Hi; subst; cbn in Hin;
      repeat match goal with
             | H : _ \/ _ |- _ => destruct H
             | H : False |- _ => contradiction
             | H : _ = Query _ _ _ |- _ => inversion H; subst; clear H
             end; discriminate. }
  intros [ | i Hi | i d Hi Hd | i Hi _ | i tn d Hi Hx Hd] c text values Hin Hsp.
  - contradiction.
  - exfalso; eauto.
  - apply in_app_or in Hin as [Hin | Hin]; [ exfalso; eauto | ].
    inversion Hd; subst; cbn in Hin;
      repeat match goal with
             | H : _ \/ _ |- _ => destruct H
             | H : False |- _ => contradiction
             | H : _ = Query _ _ _ |- _ => inversion H; subst; clear H
             end; discriminate.
  - exfalso; eauto.
  - apply in_app_or in Hin as [Hin | Hin]; [ exfalso; eauto | ].
    exists tn. split; [ assumption | ].
    eapply tenant_session_directive; eassumption.
Qed.

Lemma handler_trace_scoped_once (warm : bool) (ev : Event) (tr : list db_event) :
  handler_trace warm ev tr -> forall c, count_search_path c tr <= 1.
Proof.
  assert (forall w i r c, pool_setup w i r -> count_search_path c i = 0) as Hsetup.
  { intros w i r c Hi. inversion Hi; subst; unfold count_search_path; cbn;
      rewrite ?andb_false_r; reflexivity. }
  intros [ | i Hi | i d Hi Hd | i Hi _ | i tn d Hi Hx Hd] c.
  - cbn; lia.
  - rewrite (Hsetup _ _ _ c Hi). lia.
  - rewrite count_search_path_app, (Hsetup _ _ _ c Hi).
    inversion Hd; subst; unfold count_search_path; cbn; rewrite ?andb_false_r; cbn; lia.
  - rewrite (Hsetup _ _ _ c Hi). lia.
  - rewrite count_search_path_app, (Hsetup _ _ _ c Hi).
    pose proof (tenant_session_scoped_once _ _ _ Hd c). lia.
Qed.

(** ** Replies *)

Lemma finalHeaders_headers (R : Runtime) : finalHeaders R = headers R.
Proof. reflexivity. Qed.

Section RouteReplies.

Variable R : Runtime.
Variable t : string.
Variable ev : Event.
Variable st : St.

Lemma get_patients_reply : reply_ok R true (get_patients R t st).
Proof. unfold get_patients. route_reply. Qed.

Lemma post_patients_reply : reply_ok R false (post_patients R t ev st).
Proof. unfold post_patients. route_reply. Qed.

Lemma put_patient_reply : reply_ok R false (put_patient R t ev st).
Proof. unfold put_patient. route_reply. Qed.

Lemma delete_patient_reply : reply_ok R false (delete_patient R t ev st).
Proof. unfold delete_patient. route_reply. Qed.

Lemma get_queue_reply : reply_ok R true (get_queue R t st).
Proof. unfold get_queue. route_reply. Qed.

Lemma post_soapnotes_reply : reply_ok R false (post_soapnotes R t ev st).
Proof. unfold post_soapnotes. route_reply. Qed.

Lemma get_soapnotes_reply : reply_ok R false (get_soapnotes R t ev st).
Proof. unfold get_soapnotes. route_reply. Qed.

Lemma get_soapnote_reply : reply_ok R false (get_soapnote R t ev st).
Proof. unfold get_soapnote. route_reply. Qed.

Lemma put_soapnote_reply : reply_ok R false (put_soapnote R t ev st).
Proof. unfold put_soapnote. route_reply. Qed.

Lemma unknown_path_reply : reply_ok R false (unknown_path (ev_path ev) st).
Proof. unfold unknown_path. route_reply. Qed.

End RouteReplies.

Lemma reply_ok_listing (R : Runtime) (l : bool) (x : St * outcome unit) :
  reply_ok R false x -> reply_ok R l x.
Proof.
  unfold reply_ok. destruct (snd x); auto.
  intros [H | (H & _)]; [ now left | discriminate ].
Qed.

Lemma tenant_routes_reply (R : Runtime) (t : string) (ev : Event) (st : St) :
  reply_ok R (is_listing ev) (tenant_routes R t ev st).
Proof.
  assert (forall p, String.eqb (ev_path ev) p && String.eqb (ev_httpMethod ev) "GET" = true ->
                    p = "/patients" \/ p = "/waiting-queue" \/ p = "/queue" ->
                    is_listing ev = true) as L.
  { intros p H Hp. apply andb_true_iff in H as [H1 H2]. unfold is_listing. rewrite H2.
    destruct Hp as [-> | [-> | ->]]; rewrite H1; cbn; rewrite ?orb_true_r; reflexivity. }
  unfold tenant_routes.
  branch C1.
  { rewrite (L _ C1) by auto. apply get_patients_reply. }
  branch C2.
  { apply reply_ok_listing, post_patients_reply. }
  branch C3.
  { apply reply_ok_listing, put_patient_reply. }
  branch C4.
  { apply reply_ok_listing, delete_patient_reply. }
  branch C5.
  { rewrite (L _ C5) by auto. apply get_queue_reply. }
  branch C6.
  { apply reply_ok_listing, post_soapnotes_reply. }
  branch C7.
  { apply reply_ok_listing, get_soapnotes_reply. }
  branch C8.
  { apply reply_ok_listing, get_soapnote_reply. }
  branch C9.
  { apply reply_ok_listing, put_soapnote_reply. }
  branch C10.
  { rewrite (L _ C10) by auto. apply get_queue_reply. }
  apply reply_ok_listing, unknown_path_reply.
Qed.

Lemma healthcheck_returns (R : Runtime) (st : St) :
  exists st' ok,
    healthcheck R st = (st', Ret (mkResponse 200 (headers R) (JsonBody (health_body R ok)))).
Proof.
  destruct st as [tr p c s b]. unfold healthcheck. exec.
  all: first [ eexists; exists true; reflexivity | eexists; exists false; reflexivity ].
Qed.

Lemma routing_reply (R : Runtime) (ev : Event) (st : St) :
  match snd (routing R ev st) with
  | Val _ =>
      has_message (responseBody (fst (routing R ev st))) = true
      \/ (is_listing ev = true /\ statusCode (fst (routing R ev st)) = 200%Z
          /\ exists res, responseBody (fst (routing R ev st)) = rows_value res)
  | Ret r =>
      r_headers r = headers R
      /\ exists v, r_body r = JsonBody v
                   /\ (has_message v = true
                       \/ (is_healthcheck ev = true /\ r_statusCode r = 200%Z
                           /\ exists ok, v = health_body R ok))
  | Throw _ => True
  end.
Proof.
  unfold routing. fold (is_healthcheck ev).
  destruct (is_healthcheck ev) eqn:Hh.
  - destruct (healthcheck_returns R st) as (st' & ok & ->). cbn.
    split; [ reflexivity | ]. eexists. split; [ reflexivity | ].
    right. repeat split. now exists ok.
  - destruct (tenant_missing _).
    + cbn. split; [ reflexivity | ]. eexists. split; [ reflexivity | now left ].
    + pose proof (tenant_routes_reply R
                    (match extract_tenant ev with Some t => t | None => "" end) ev st) as H.
      unfold reply_ok in H.
      destruct (snd (tenant_routes R _ ev st)); auto.
      destruct H as (H1 & v & H2 & H3). split; [ assumption | ].
      exists v. split; [ assumption | now left ].
Qed.

(** C4, as the code has it. The three CORS headers (allow-origin,
    allow-headers, allow-methods) carry the same values in every response.
    The preflight reply is the one exception to the common header set and has
    an empty body; every other response has exactly the common headers and a
    JSON body, which is an object with a [message] string except in two
    cases: the health check answers {status, database_status, timestamp}, and
    a successful listing (GET /patients, /waiting-queue, /queue) answers the
    array of rows. *)
Theorem reply_shape (R : Runtime) (warm : bool) (ev : Event) :
  (ev_httpMethod ev = "OPTIONS" -> snd (handler R warm ev) = preflight_response R)
  /\ (ev_httpMethod ev <> "OPTIONS" ->
      r_headers (snd (handler R warm ev)) = headers R
      /\ exists v,
           r_body (snd (handler R warm ev)) = JsonBody v
           /\ (has_message v = true
               \/ (is_healthcheck ev = true
                   /\ r_statusCode (snd (handler R warm ev)) = 200%Z
                   /\ exists ok, v = health_body R ok)
               \/ (is_listing ev = true
                   /\ r_statusCode (snd (handler R warm ev)) = 200%Z
                   /\ exists res, v = rows_value res)))
  /\ (forall k, In k cors_header_names ->
                assoc k (r_headers (snd (handler R warm ev))) = assoc k (headers R)).
Proof.
  assert (ev_httpMethod ev <> "OPTIONS" ->
          r_headers (snd (handler R warm ev)) = headers R
          /\ exists v,
               r_body (snd (handler R warm ev)) = JsonBody v
               /\ (has_message v = true
                   \/ (is_healthcheck ev = true
                       /\ r_statusCode (snd (handler R warm ev)) = 200%Z
                       /\ exists ok, v = health_body R ok)
                   \/ (is_listing ev = true
                       /\ r_statusCode (snd (handler R warm ev)) = 200%Z
                       /\ exists res, v = rows_value res))) as Hmain.
  { intros Hm.
    destruct (handler_cases R warm ev)
      as [(Ho & _) | [(_ & i & e & Hi & E) | (_ & i & Hi & E)]].
    - apply String.eqb_eq in Ho. contradiction.
    - rewrite E. cbn. split; [ reflexivity | ].
      eexists. split; [ reflexivity | now left ].
    - rewrite E. pose proof (routing_reply R ev (mkSt i true None 200 (JObj []))) as H.
      destruct (routing R ev _) as [st [u | e | r]]; cbn in H |- *.
      + split; [ apply finalHeaders_headers | ].
        eexists. split; [ reflexivity | ].
        destruct H as [H | (H1 & H2 & H3)]; [ now left | right; right; auto ].
      + split; [ apply finalHeaders_headers | ].
        eexists. split; [ reflexivity | now left ].
      + destruct H as (H1 & v & H2 & [H3 | H3]); (split; [ assumption | ]);
          exists v; (split; [ assumption | ]); [ now left | right; left; exact H3 ]. }
  split; [ | split; [ exact Hmain | ] ].
  - intros Hm. apply String.eqb_eq in Hm.
    now rewrite (handler_preflight R warm ev Hm).
  - intros k Hk.
    destruct (String.eqb (ev_httpMethod ev) "OPTIONS") eqn:Hm.
    + rewrite (handler_preflight R warm ev Hm).
      cbn in Hk. destruct Hk as [<- | [<- | [<- | []]]]; reflexivity.
    + apply String.eqb_neq in Hm. now rewrite (proj1 (Hmain Hm)).
Qed.

(** ** Reaching a route *)

Lemma extract_tenant_nonempty (ev : Event) (t : string) :
  extract_tenant ev = Some t -> tenant_missing (Some t) = false.
Proof.
  unfold extract_tenant. intros Hx.
  repeat match type of Hx with
         | context [if ?b then _ else _] => destruct b eqn:?
         | context [match ?v with _ => _ end] => destruct v eqn:?
         end; try discriminate.
  inversion Hx; subst. cbn.
  destruct (trim _); [ discriminate | reflexivity ].
Qed.

Lemma routing_tenant (R : Runtime) (ev : Event) (t : string) (st : St) :
  is_healthcheck ev = false ->
  extract_tenant ev = Some t ->
  routing R ev st = tenant_routes R t ev st.
Proof.
  intros Hh Ht. unfold routing. fold (is_healthcheck ev).
  now rewrite Hh, Ht, (extract_tenant_nonempty ev t Ht).
Qed.

Lemma routing_no_tenant (R : Runtime) (ev : Event) (st : St) :
  is_healthcheck ev = false ->
  extract_tenant ev = None ->
  routing R ev st = (st, Ret (tenant_rejected R)).
Proof.
  intros Hh Ht. unfold routing. fold (is_healthcheck ev).
  now rewrite Hh, Ht.
Qed.


(** C4 as stated fails on three kinds of request: the health check and a
    successful listing answer without a [message], and the preflight reply
    has another header set and no JSON body at all. *)
Lemma reply_shape_counterexample :
  r_body (snd (handler rt_quiet true
                 (request "GET" "/healthcheck" None NoBody JUndefined)))
  = JsonBody (JObj [ ("status", JStr "OK");
                     ("database_status", JStr "OK");
                     ("timestamp", JStr "2025-04-15T12:00:00.000Z") ])
  /\ r_body (snd (handler rt_quiet true
                    (request "GET" "/patients" None NoBody (claims_for "clinic_test"))))
     = JsonBody (JArr [])
  /\ has_message (JArr []) = false
  /\ snd (handler rt_quiet true
            (request "OPTIONS" "/patients" None NoBody (claims_for "clinic_test")))
     = mkResponse 204
         [ ("Access-Control-Allow-Origin", JStr "*");
           ("Access-Control-Allow-Methods", JStr "OPTIONS,POST,GET,PUT,DELETE");
           ("Access-Control-Allow-Headers", JStr "Content-Type, Authorization");
           ("Access-Control-Max-Age", JNum 86400) ]
         (RawBody "")
  /\ r_headers (snd (handler rt_quiet true
                       (request "GET" "/patients" None NoBody (claims_for "clinic_test"))))
     = [ ("Access-Control-Allow-Origin", JStr "*");
         ("Access-Control-Allow-Headers", JStr "Content-Type, Authorization");
         ("Access-Control-Allow-Methods", JStr "OPTIONS,POST,GET,PUT,DELETE");
         ("Content-Type", JStr "application/json") ].
Proof. repeat split; vm_compute; reflexivity. Qed.

Lemma reply_shape_witness :
  r_headers (snd (handler rt_quiet true
                    (request "GET" "/patients" None NoBody (claims_for "clinic_test"))))
  = headers rt_quiet.
Proof.
  apply (proj1 (proj2 (reply_shape rt_quiet true
                         (request "GET" "/patients" None NoBody
                                  (claims_for "clinic_test"))))).
  cbn. discriminate.
Defined.

(** ** Tenant identification *)

Lemma lacks_tenant_spec (ev : Event) :
  lacks_tenant ev <-> extract_tenant ev = None.
Proof.
  unfold lacks_tenant, extract_tenant.
  destruct (ev_claims ev) as [ | | b | n | s | l | l ]; cbn;
    try (split; [ reflexivity | exact (fun _ => I) ]).
  - destruct b; split; auto.
  - destruct (negb (Z.eqb n 0)); split; auto.
  - destruct (negb (String.eqb s "")); split; auto.
  - destruct (assoc "custom:clinic_id" l) as [[ | | b | n | s | a | o ] |]; cbn;
      try (split; [ reflexivity | exact (fun _ => I) ]).
    + destruct b; split; auto.
    + destruct (negb (Z.eqb n 0)); split; auto.
    + destruct (String.eqb_spec s "") as [-> | Hs]; cbn.
      * split; reflexivity.
      * destruct (trim s) eqn:E; cbn; split; auto; discriminate.
Qed.

(** C3, as the code has it. On a request outside the preflight verb and the
    health check whose claims lack a usable tenant identifier, a warm process
    answers 400 without touching the database. A cold process first sets up
    its pool, which borrows a client and runs [SELECT NOW()] on it: when that
    succeeds the answer is the same 400 and nothing else is sent to the
    database, when it fails the answer is 500. *)
Theorem tenant_required (R : Runtime) (warm : bool) (ev : Event) :
  ev_httpMethod ev <> "OPTIONS" ->
  is_healthcheck ev = false ->
  lacks_tenant ev ->
  (warm = true ->
   snd (handler R warm ev) = tenant_rejected R
   /\ r_statusCode (tenant_rejected R) = 400%Z
   /\ trace (fst (handler R warm ev)) = [])
  /\ exists i ready,
       pool_setup warm i ready
       /\ trace (fst (handler R warm ev)) = i
       /\ (ready = true -> snd (handler R warm ev) = tenant_rejected R)
       /\ (ready = false ->
           exists e, snd (handler R warm ev) = unavailable R e
                     /\ r_statusCode (unavailable R e) = 500%Z).
Proof.
  intros Hm Hh Hl. apply lacks_tenant_spec in Hl.
  assert (exists i ready,
             pool_setup warm i ready
             /\ trace (fst (handler R warm ev)) = i
             /\ (ready = true -> snd (handler R warm ev) = tenant_rejected R)
             /\ (ready = false ->
                 exists e, snd (handler R warm ev) = unavailable R e
                           /\ r_statusCode (unavailable R e) = 500%Z)) as H.
  { destruct (handler_cases R warm ev)
      as [(Ho & _) | [(_ & i & e & Hi & E) | (_ & i & Hi & E)]].
    - apply String.eqb_eq in Ho. contradiction.
    - exists i, false. rewrite E. cbn. repeat split; [ assumption | discriminate | ].
      intros _. exists e. split; reflexivity.
    - exists i, true. rewrite E, (routing_no_tenant R ev _ Hh Hl). cbn.
      repeat split; [ assumption | discriminate ]. }
  split; [ | exact H ].
  intros ->. destruct H as (i & ready & Hi & Ht & Hr & _).
  inversion Hi; subst. repeat split; auto.
Qed.

(** C3 as stated fails on a cold start: the pool is set up before the claims
    are looked at, so the database is reached before the 400, and the answer
    is 500 when it cannot be reached. *)
Lemma tenant_required_counterexample :
  lacks_tenant (request "GET" "/patients" None NoBody JUndefined)
  /\ r_statusCode (snd (handler rt_quiet false
                          (request "GET" "/patients" None NoBody JUndefined))) = 400%Z
  /\ trace (fst (handler rt_quiet false
                   (request "GET" "/patients" None NoBody JUndefined)))
     = [Borrow 0; Query 0 "SELECT NOW()" []; Release 0]
  /\ r_statusCode (snd (handler rt_down false
                          (request "GET" "/patients" None NoBody JUndefined))) = 500%Z.
Proof. repeat split; vm_compute; reflexivity. Qed.

Lemma tenant_required_witness :
  snd (handler rt_quiet true (request "GET" "/patients" None NoBody JUndefined))
  = tenant_rejected rt_quiet
  /\ r_statusCode (tenant_rejected rt_quiet) = 400%Z
  /\ trace (fst (handler rt_quiet true
                   (request "GET" "/patients" None NoBody JUndefined))) = [].
Proof.
  apply (proj1 (tenant_required rt_quiet true
                  (request "GET" "/patients" None NoBody JUndefined)
                  ltac:(cbn; discriminate) eq_refl I)).
  reflexivity.
Defined.

(** ** The health check *)




Example healthcheck_database_down :
  js_get (health_body rt_down (probe_ok rt_down)) "database_status" = JStr "Unavailable".
Proof. reflexivity. Qed.

(** ** Queue writes *)

(** C2 at its failing inputs. With a usable tenant and a warm pool,
    POST /queue and DELETE /queue/{id} reach no operation: both fall through
    to the unknown-path branch, which answers 404 "Not Found" and sends
    nothing to the database, whether or not the entry exists. *)
Theorem queue_writes_unrouted (R : Runtime) (ev : Event) (t id : string) :
  extract_tenant ev = Some t ->
  (ev_httpMethod ev = "POST" /\ ev_path ev = "/queue")
  \/ (ev_httpMethod ev = "DELETE" /\ ev_path ev = "/queue/" ++ id) ->
  snd (handler R true ev)
  = mkResponse 404 (headers R)
      (JsonBody (JObj [ ("message", JStr "Not Found");
                        ("requestedPath", JStr (ev_path ev)) ]))
  /\ trace (fst (handler R true ev)) = [].
Proof.
  intros Ht Hr.
  assert (String.eqb (ev_httpMethod ev) "OPTIONS" = false) as Ho
      by (destruct Hr as [(-> & _) | (-> & _)]; reflexivity).
  assert (is_healthcheck ev = false) as Hh
      by (unfold is_healthcheck; destruct Hr as [(-> & ->) | (-> & ->)]; reflexivity).
  assert (tenant_routes R t ev (initial true) = unknown_path (ev_path ev) (initial true)) as E.
  { unfold tenant_routes. destruct Hr as [(-> & ->) | (-> & ->)]; reflexivity. }
  rewrite (handler_warm R ev Ho), (routing_tenant R ev t _ Hh Ht), E.
  split; reflexivity.
Qed.

Lemma queue_writes_unrouted_witness :
  snd (handler rt_insert true
         (request "POST" "/queue" None (Json (JObj [("patientId", JStr "p-1")]))
                  (claims_for "clinic_test")))
  = mkResponse 404 (headers rt_insert)
      (JsonBody (JObj [ ("message", JStr "Not Found"); ("requestedPath", JStr "/queue") ]))
  /\ trace (fst (handler rt_insert true
                   (request "POST" "/queue" None (Json (JObj [("patientId", JStr "p-1")]))
                            (claims_for "clinic_test")))) = [].
Proof.
  apply (queue_writes_unrouted rt_insert
           (request "POST" "/queue" None (Json (JObj [("patientId", JStr "p-1")]))
                    (claims_for "clinic_test"))
           "clinic_test" "" eq_refl).
  left. split; reflexivity.
Defined.

Example delete_queue_entry_not_found_either :
  r_statusCode (snd (handler rt_insert true
                       (request "DELETE" "/queue/q-1" (Some "q-1") NoBody
                                (claims_for "clinic_test")))) = 404%Z.
Proof. reflexivity. Qed.

(** ** Creating a patient *)

Lemma tenant_routes_post_patients (R : Runtime) (ev : Event) (t : string) (st : St) :
  ev_httpMethod ev = "POST" -> ev_path ev = "/patients" ->
  tenant_routes R t ev st = post_patients R t ev st.
Proof. intros Hm Hp. unfold tenant_routes. rewrite Hm, Hp. reflexivity. Qed.

Lemma handler_post_patients (R : Runtime) (ev : Event) (t : string) :
  ev_httpMethod ev = "POST" -> ev_path ev = "/patients" ->
  extract_tenant ev = Some t ->
  handler R true ev = respond R (post_patients R t ev (initial true)).
Proof.
  intros Hm Hp Ht.
  assert (String.eqb (ev_httpMethod ev) "OPTIONS" = false) as Ho by now rewrite Hm.
  assert (is_healthcheck ev = false) as Hh
      by (unfold is_healthcheck; now rewrite Hm, Hp).
  now rewrite (handler_warm R ev Ho), (routing_tenant R ev t _ Hh Ht),
    (tenant_routes_post_patients R ev t _ Hm Hp).
Qed.

Lemma parse_body_or_empty_spec (b : request_body) (body : jsval) (st : St) :
  parsed_body b = Some body -> parse_body_or_empty b st = (st, Val body).
Proof. destruct b; cbn; intros [= <-]; reflexivity. Qed.

Lemma missing_required_spec (body : jsval) (st : St) :
  body <> JNull -> body <> JUndefined ->
  missing_required body st = (st, Val (negb (has_required body))).
Proof.
  intros Hn Hu. unfold missing_required, has_required, member, bind, ret.
  destruct body; try contradiction; cbn;
    repeat match goal with
           | |- context [truthy ?v] => destruct (truthy v); cbn
           end; reflexivity.
Qed.

Lemma post_patients_missing (R : Runtime) (ev : Event) (t : string) (body : jsval) (st : St) :
  client st = None ->
  parsed_body (ev_body ev) = Some body ->
  body <> JNull -> body <> JUndefined ->
  has_required body = false ->
  post_patients R t ev st
  = (mkSt (trace st) (pool st) None 400
       (msg_obj "Bad Request: Missing required patient fields (first_name, last_name, date_of_birth)."),
     Val tt).
Proof.
  intros Hc Hb Hn Hu Hr.
  unfold post_patients.
  unfold try_catch at 1. unfold bind at 1.
  rewrite (parse_body_or_empty_spec _ _ _ Hb).
  unfold try_finally, try_catch. unfold bind at 1.
  rewrite (missing_required_spec body _ Hn Hu), Hr.
  destruct st; cbn in *. subst. reflexivity.
Qed.

(** A body other than [null] that lacks a required field is refused with 400
    before a client is borrowed. *)
Lemma missing_required_rejected (R : Runtime) (ev : Event) (t : string) (body : jsval) :
  ev_httpMethod ev = "POST" -> ev_path ev = "/patients" ->
  extract_tenant ev = Some t ->
  parsed_body (ev_body ev) = Some body ->
  body <> JNull -> body <> JUndefined ->
  has_required body = false ->
  snd (handler R true ev)
  = mkResponse 400 (headers R)
      (JsonBody (msg_obj "Bad Request: Missing required patient fields (first_name, last_name, date_of_birth)."))
  /\ trace (fst (handler R true ev)) = [].
Proof.
  intros Hm Hp Ht Hb Hn Hu Hr.
  rewrite (handler_post_patients R ev t Hm Hp Ht).
  rewrite (post_patients_missing R ev t body (initial true) eq_refl Hb Hn Hu Hr).
  split; reflexivity.
Qed.

Lemma post_patients_missing_trace (R : Runtime) (ev : Event) (t : string) (body : jsval)
    (st : St) :
  client st = None ->
  parsed_body (ev_body ev) = Some body ->
  has_required body = false ->
  trace (fst (post_patients R t ev st)) = trace st.
Proof.
  intros Hc Hb Hr.
  destruct body eqn:E;
    try (rewrite (post_patients_missing R ev t _ st Hc Hb) by (congruence || assumption);
         reflexivity).
  all: unfold post_patients; unfold try_catch at 1; unfold bind at 1;
    rewrite (parse_body_or_empty_spec _ _ _ Hb);
    destruct st as [tr p c s b]; cbn in Hc; subst c; exec; reflexivity.
Qed.

(** Whatever the process and the database do, a POST /patients whose body
    lacks a required field ([null] included) sends no INSERT. *)
Lemma missing_required_no_insert (R : Runtime) (warm : bool) (ev : Event) (body : jsval) :
  ev_httpMethod ev = "POST" -> ev_path ev = "/patients" ->
  parsed_body (ev_body ev) = Some body ->
  has_required body = false ->
  forall c values,
    ~ In (Query c sql_insert_patient values) (trace (fst (handler R warm ev))).
Proof.
  intros Hm Hp Hb Hr c values Hin.
  assert (is_healthcheck ev = false) as Hh by (unfold is_healthcheck; now rewrite Hm, Hp).
  assert (forall i r, pool_setup warm i r -> ~ In (Query c sql_insert_patient values) i)
    as Hsetup.
  { intros i r Hi Hq. inversion Hi; subst; cbn in Hq;
      repeat match goal with
             | H : _ \/ _ |- _ => destruct H
             | H : False |- _ => contradiction
             | H : _ = Query _ _ _ |- _ => inversion H; subst; clear H
             end. }
  destruct (handler_cases R warm ev)
    as [(_ & E) | [(_ & i & e & Hi & E) | (_ & i & Hi & E)]]; rewrite E in Hin.
  - contradiction.
  - cbn in Hin. eapply Hsetup; eassumption.
  - rewrite respond_trace in Hin.
    destruct (extract_tenant ev) as [t |] eqn:Hx.
    + rewrite (routing_tenant R ev t _ Hh Hx),
        (tenant_routes_post_patients R ev t _ Hm Hp),
        (post_patients_missing_trace R ev t body
           (mkSt i true None 200 (JObj [])) eq_refl Hb Hr) in Hin.
      eapply Hsetup; eassumption.
    + rewrite (routing_no_tenant R ev _ Hh Hx) in Hin.
      eapply Hsetup; eassumption.
Qed.

(** C5 at its failing input. A body that parses to [null] lacks every
    required field, yet the answer is 500: reading [body.first_name] throws a
    TypeError, which the database [catch] of the route turns into "Could not
    create patient". Nothing is sent to the database. *)
Theorem null_patient_body (R : Runtime) (ev : Event) (t : string) :
  ev_httpMethod ev = "POST" -> ev_path ev = "/patients" ->
  extract_tenant ev = Some t ->
  ev_body ev = Json JNull ->
  snd (handler R true ev)
  = mkResponse 500 (headers R)
      (JsonBody (msg_err_obj "Internal Server Error: Could not create patient."
                   (JStr "Cannot read properties of null (reading 'first_name')")))
  /\ trace (fst (handler R true ev)) = [].
Proof.
  intros Hm Hp Ht Hb.
  rewrite (handler_post_patients R ev t Hm Hp Ht).
  unfold post_patients. rewrite Hb.
  split; reflexivity.
Qed.

Lemma null_patient_body_witness :
  snd (handler rt_insert true
         (request "POST" "/patients" None (Json JNull) (claims_for "clinic_test")))
  = mkResponse 500 (headers rt_insert)
      (JsonBody (msg_err_obj "Internal Server Error: Could not create patient."
                   (JStr "Cannot read properties of null (reading 'first_name')")))
  /\ trace (fst (handler rt_insert true
                   (request "POST" "/patients" None (Json JNull)
                            (claims_for "clinic_test")))) = [].
Proof.
  apply (null_patient_body rt_insert
           (request "POST" "/patients" None (Json JNull) (claims_for "clinic_test"))
           "clinic_test" eq_refl eq_refl eq_refl eq_refl).
Defined.

(** The sibling route does refuse a [null] body as a bad request. *)
Example null_note_body_is_bad_request :
  snd (handler rt_insert true
         (request "POST" "/soapnotes" None (Json JNull) (claims_for "clinic_test")))
  = mkResponse 400 (headers rt_insert)
      (JsonBody (msg_obj "Bad Request: Invalid JSON object in body.")).
Proof. reflexivity. Qed.

Lemma has_required_not_null (body : jsval) :
  has_required body = true -> body <> JNull /\ body <> JUndefined.
Proof. destruct body; try discriminate; split; discriminate. Qed.

Lemma post_patients_inserts (R : Runtime) (ev : Event) (t : string) (body : jsval)
    (scoped : query_result) :
  parsed_body (ev_body ev) = Some body ->
  has_required body = true ->
  regex_test schemaRegex t = true ->
  connect_reply R [] = None ->
  query_reply R [Borrow 0] (search_path_query t) [] = inr scoped ->
  trace (fst (post_patients R t ev (initial true)))
  = [ Borrow 0;
      Query 0 (search_path_query t) [];
      Query 0 sql_insert_patient (patient_insert_values body);
      Release 0 ].
Proof.
  intros Hb Hr Ht Hc Hs.
  destruct (has_required_not_null body Hr) as [Hn Hu].
  unfold post_patients.
  unfold try_catch at 1. unfold bind at 1.
  rewrite (parse_body_or_empty_spec _ _ _ Hb).
  unfold try_finally, try_catch. unfold bind at 1.
  rewrite (missing_required_spec body _ Hn Hu), Hr.
  cbn [negb]. unfold setTenantSearchPath. rewrite isValidSchemaName_spec, Ht.
  cbn [negb]. unfold_ops. unfold borrows, initial. cbn.
  rewrite Hc. cbn. rewrite Hs. cbn.
  repeat (break_match; cbn); reflexivity.
Qed.

(** C6, as the code has it. When the three required fields are there and the
    client is borrowed and scoped, the INSERT is sent with the sixteen values
    of [patient_insert_values]: each of the eleven optional text columns that
    the body leaves out is bound to NULL, [is_medicare_eligible] left out is
    bound to [false], and [custom_data] left out is bound to the JSON text of
    the empty object. *)
Theorem patient_insert_defaults (R : Runtime) (ev : Event) (t : string) (body : jsval)
    (scoped : query_result) :
  ev_httpMethod ev = "POST" -> ev_path ev = "/patients" ->
  extract_tenant ev = Some t ->
  regex_test schemaRegex t = true ->
  parsed_body (ev_body ev) = Some body ->
  has_required body = true ->
  connect_reply R [] = None ->
  query_reply R [Borrow 0] (search_path_query t) [] = inr scoped ->
  trace (fst (handler R true ev))
  = [ Borrow 0;
      Query 0 (search_path_query t) [];
      Query 0 sql_insert_patient (patient_insert_values body);
      Release 0 ]
  /\ (forall k, In k nullable_columns -> js_get body k = JUndefined ->
                bound_to k patient_columns (patient_insert_values body) = Some (PVal JNull))
  /\ (js_get body "is_medicare_eligible" = JUndefined ->
      bound_to "is_medicare_eligible" patient_columns (patient_insert_values body)
      = Some (PVal (JBool false)))
  /\ (js_get body "custom_data" = JUndefined ->
      bound_to "custom_data" patient_columns (patient_insert_values body)
      = Some (PJson (JObj []))).
Proof.
  intros Hm Hp Hx Ht Hb Hr Hc Hs.
  split.
  { rewrite (handler_post_patients R ev t Hm Hp Hx), respond_trace.
    eapply post_patients_inserts; eassumption. }
  split.
  { intros k Hk Hu.
    unfold nullable_columns, optional_columns, patient_columns in Hk. cbn in Hk.
    unfold patient_insert_values, patient_columns.
    repeat (destruct Hk as [<- | Hk]; [ cbn; rewrite Hu; reflexivity | ]).
    contradiction. }
  unfold patient_insert_values, patient_columns.
  split; intros Hu; cbn; rewrite Hu; reflexivity.
Qed.

(** C6 as stated fails for two optional columns: with only the required
    fields in the body, [$15] is [false] and [$16] is the text of [{}], not
    NULL. *)
Lemma patient_insert_defaults_counterexample :
  trace (fst (handler rt_insert true
                (request "POST" "/patients" None (Json jane) (claims_for "clinic_test"))))
  = [ Borrow 0;
      Query 0 (search_path_query "clinic_test") [];
      Query 0 sql_insert_patient
        [ PVal (JStr "Jane"); PVal (JStr "Doe"); PVal (JStr "1990-01-01");
          PVal JNull; PVal JNull; PVal JNull; PVal JNull; PVal JNull; PVal JNull;
          PVal JNull; PVal JNull; PVal JNull; PVal JNull; PVal JNull;
          PVal (JBool false); PJson (JObj []) ];
      Release 0 ]
  /\ In "is_medicare_eligible" optional_columns
  /\ js_get jane "is_medicare_eligible" = JUndefined
  /\ bound_to "is_medicare_eligible" patient_columns (patient_insert_values jane)
     = Some (PVal (JBool false))
  /\ In "custom_data" optional_columns
  /\ js_get jane "custom_data" = JUndefined
  /\ bound_to "custom_data" patient_columns (patient_insert_values jane)
     = Some (PJson (JObj [])).
Proof.
  repeat split; try reflexivity; cbn; tauto.
Qed.

Lemma patient_insert_defaults_witness :
  trace (fst (handler rt_insert true
                (request "POST" "/patients" None (Json jane) (claims_for "clinic_test"))))
  = [ Borrow 0;
      Query 0 (search_path_query "clinic_test") [];
      Query 0 sql_insert_patient (patient_insert_values jane);
      Release 0 ].
Proof.
  apply (proj1 (patient_insert_defaults rt_insert
                  (request "POST" "/patients" None (Json jane) (claims_for "clinic_test"))
                  "clinic_test" jane (mkResult [[("patient_id", JStr "p-1"); ("note_id", JStr "n-1")]] 1)
                  eq_refl eq_refl eq_refl eq_refl eq_refl eq_refl eq_refl eq_refl)).
Defined.

Lemma tenant_routes_post_soapnotes (R : Runtime) (ev : Event) (t : string) (st : St) :
  ev_httpMethod ev = "POST" -> ev_path ev = "/soapnotes" ->
  tenant_routes R t ev st = post_soapnotes R t ev st.
Proof. intros Hm Hp. unfold tenant_routes. rewrite Hm, Hp. reflexivity. Qed.

Lemma post_soapnotes_inserts (R : Runtime) (ev : Event) (t : string) (body : jsval)
    (scoped : query_result) :
  ev_body ev = Json body ->
  truthy (js_get body "patient_id") = true ->
  regex_test schemaRegex t = true ->
  connect_reply R [] = None ->
  query_reply R [Borrow 0] (search_path_query t) [] = inr scoped ->
  trace (fst (post_soapnotes R t ev (initial true)))
  = [ Borrow 0;
      Query 0 (search_path_query t) [];
      Query 0 sql_insert_note (note_insert_values body);
      Release 0 ].
Proof.
  intros Hb Hr Ht Hc Hs.
  assert (is_object_not_null body = true) as Ho by (destruct body; try discriminate; reflexivity).
  unfold post_soapnotes. rewrite Hb.
  unfold parse_note_body. rewrite Ho.
  unfold try_catch at 1. unfold bind at 1. cbn [ret].
  rewrite Hr. cbn [negb].
  unfold setTenantSearchPath. rewrite isValidSchemaName_spec, Ht.
  cbn [negb]. unfold_ops. unfold borrows, initial. cbn.
  rewrite Hc. cbn. rewrite Hs. cbn.
  repeat (break_match; cbn); reflexivity.
Qed.

(** What POST /soapnotes binds for the codes when it reaches its INSERT:
    the JSON text of the field when the field is a non-empty array, and NULL
    in every other case: an empty array, a value that is not an array, a
    field that is absent. *)
Lemma note_codes_bound (R : Runtime) (ev : Event) (t : string) (body : jsval)
    (scoped : query_result) :
  ev_httpMethod ev = "POST" -> ev_path ev = "/soapnotes" ->
  extract_tenant ev = Some t ->
  regex_test schemaRegex t = true ->
  ev_body ev = Json body ->
  truthy (js_get body "patient_id") = true ->
  connect_reply R [] = None ->
  query_reply R [Borrow 0] (search_path_query t) [] = inr scoped ->
  trace (fst (handler R true ev))
  = [ Borrow 0;
      Query 0 (search_path_query t) [];
      Query 0 sql_insert_note (note_insert_values body);
      Release 0 ]
  /\ forall k, k = "dx_codes" \/ k = "billing_codes" ->
       bound_to k note_columns (note_insert_values body)
       = Some (match js_get body k with
               | JArr (x :: l) => PJson (JArr (x :: l))
               | _ => PVal JNull
               end).
Proof.
  intros Hm Hp Hx Ht Hb Hr Hc Hs.
  split.
  - assert (String.eqb (ev_httpMethod ev) "OPTIONS" = false) as Ho by now rewrite Hm.
    assert (is_healthcheck ev = false) as Hh
        by (unfold is_healthcheck; now rewrite Hm, Hp).
    rewrite (handler_warm R ev Ho), (routing_tenant R ev t _ Hh Hx),
      (tenant_routes_post_soapnotes R ev t _ Hm Hp), respond_trace.
    eapply post_soapnotes_inserts; eassumption.
  - unfold note_insert_values, note_columns.
    intros k [-> | ->]; cbn; unfold sanitize_codes, is_nonempty_array;
      match goal with |- context [js_get body ?k] => destruct (js_get body k) as [ | | | | | [| x l] | ] end;
      reflexivity.
Qed.

Example note_codes_bound_sample :
  trace (fst (handler rt_insert true
                (request "POST" "/soapnotes" None
                         (Json (JObj [ ("patient_id", JStr "p-1");
                                       ("dx_codes", JArr [JStr "M54.5"]);
                                       ("billing_codes", JArr []) ]))
                         (claims_for "clinic_test"))))
  = [ Borrow 0;
      Query 0 (search_path_query "clinic_test") [];
      Query 0 sql_insert_note
        (note_insert_values (JObj [ ("patient_id", JStr "p-1");
                                    ("dx_codes", JArr [JStr "M54.5"]);
                                    ("billing_codes", JArr []) ]));
      Release 0 ].
Proof.
  apply (proj1 (note_codes_bound rt_insert
                  (request "POST" "/soapnotes" None
                           (Json (JObj [ ("patient_id", JStr "p-1");
                                         ("dx_codes", JArr [JStr "M54.5"]);
                                         ("billing_codes", JArr []) ]))
                           (claims_for "clinic_test"))
                  "clinic_test"
                  (JObj [ ("patient_id", JStr "p-1");
                          ("dx_codes", JArr [JStr "M54.5"]);
                          ("billing_codes", JArr []) ])
                  (mkResult [[("patient_id", JStr "p-1"); ("note_id", JStr "n-1")]] 1)
                  eq_refl eq_refl eq_refl eq_refl eq_refl eq_refl eq_refl eq_refl)).
Qed.

(** The note INSERT names ten target columns and binds nine values:
    [signed_status], the last column, has no placeholder. *)
Lemma note_insert_arity (requestBody : jsval) :
  List.length note_columns = 10
  /\ List.length (note_insert_values requestBody) = 9
  /\ bound_to "signed_status" note_columns (note_insert_values requestBody) = None.
Proof. repeat split. Qed.

(** The statements as they are written: the targets and the expressions of
    the two INSERTs. *)
Lemma note_insert_text :
  insert_targets sql_insert_note = Some note_columns
  /\ insert_values sql_insert_note
     = Some ["$1"; "$2"; "$3"; "$4"; "$5"; "$6"; "$7::jsonb"; "$8::jsonb"; "$9"]
  /\ unbalanced sql_insert_note = true.
Proof. repeat split; vm_compute; reflexivity. Qed.

Lemma patient_insert_text :
  insert_targets sql_insert_patient = Some patient_columns
  /\ option_map (@List.length string) (insert_values sql_insert_patient) = Some 16
  /\ unbalanced sql_insert_patient = false.
Proof. repeat split; vm_compute; reflexivity. Qed.

(** C10. The codes are prepared as the claim says: what POST /soapnotes
    binds for [dx_codes] and [billing_codes] is the JSON text of a non-empty
    array and NULL in every other case. They are not stored: the INSERT that
    carries them names ten target columns, [signed_status] the last, for nine
    expressions, and a database that refuses such a statement, as PostgreSQL
    does, answers with an error. The request then ends in 500 "Could not
    save SOAP note." whatever the codes are, and the INSERT is the last
    statement sent. *)
Theorem note_codes_never_stored (R : Runtime) (ev : Event) (t : string) (body : jsval)
    (scoped : query_result) :
  ev_httpMethod ev = "POST" -> ev_path ev = "/soapnotes" ->
  extract_tenant ev = Some t ->
  regex_test schemaRegex t = true ->
  ev_body ev = Json body ->
  truthy (js_get body "patient_id") = true ->
  connect_reply R [] = None ->
  query_reply R [Borrow 0] (search_path_query t) [] = inr scoped ->
  refuses_unbalanced R ->
  (forall k targets,
     k = "dx_codes" \/ k = "billing_codes" ->
     insert_targets sql_insert_note = Some targets ->
     bound_to k targets (note_insert_values body)
     = Some (match js_get body k with
             | JArr (x :: l) => PJson (JArr (x :: l))
             | _ => PVal JNull
             end))
  /\ option_map (@List.length string) (insert_targets sql_insert_note) = Some 10
  /\ option_map (@List.length string) (insert_values sql_insert_note) = Some 9
  /\ List.length (note_insert_values body) = 9
  /\ trace (fst (handler R true ev))
     = [ Borrow 0;
         Query 0 (search_path_query t) [];
         Query 0 sql_insert_note (note_insert_values body);
         Release 0 ]
  /\ r_statusCode (snd (handler R true ev)) = 500%Z
  /\ exists e,
       query_reply R [Borrow 0; Query 0 (search_path_query t) []]
                   sql_insert_note (note_insert_values body) = inl e
       /\ r_body (snd (handler R true ev))
          = JsonBody (msg_err_obj "Internal Server Error: Could not save SOAP note."
                                  (JStr (e_message e))).
Proof.
  intros Hm Hp Hx Ht Hb Hr Hc Hs Hpg.
  destruct note_insert_text as (Htargets & Hvalues & Hu).
  destruct (Hpg [Borrow 0; Query 0 (search_path_query t) []] sql_insert_note
                (note_insert_values body) Hu) as (e & Hq & Hcode).
  destruct (note_codes_bound R ev t body scoped Hm Hp Hx Ht Hb Hr Hc Hs) as (Htrace & Hbound).
  split.
  { intros k targets Hk E. rewrite Htargets in E. injection E as <-. now apply Hbound. }
  split; [ now rewrite Htargets | ].
  split; [ now rewrite Hvalues | ].
  split; [ reflexivity | ].
  split; [ exact Htrace | ].
  assert (String.eqb (ev_httpMethod ev) "OPTIONS" = false) as Ho by now rewrite Hm.
  assert (is_healthcheck ev = false) as Hh
      by (unfold is_healthcheck; now rewrite Hm, Hp).
  assert (is_object_not_null body = true) as Hobj
      by (destruct body; try discriminate; reflexivity).
  rewrite (handler_warm R ev Ho), (routing_tenant R ev t _ Hh Hx),
    (tenant_routes_post_soapnotes R ev t _ Hm Hp).
  assert (post_soapnotes R t ev (initial true)
          = (mkSt [ Borrow 0; Query 0 (search_path_query t) [];
                    Query 0 sql_insert_note (note_insert_values body); Release 0 ]
                  true (Some 0) 500
                  (msg_err_obj "Internal Server Error: Could not save SOAP note."
                               (JStr (e_message e))),
             Val tt)) as E.
  { unfold post_soapnotes. rewrite Hb. unfold parse_note_body. rewrite Hobj.
    unfold try_catch at 1. unfold bind at 1. cbn [ret]. rewrite Hr. cbn [negb].
    remember sql_insert_note as q eqn:Eq in *.
    scope isValidSchemaName_spec Ht Hc Hs.
    rewrite Hq. cbn. rewrite Hcode. cbn. reflexivity. }
  rewrite E. cbn.
  split; [ reflexivity | ]. exists e. split; [ exact Hq | reflexivity ].
Qed.

Lemma note_codes_never_stored_witness :
  r_statusCode
    (snd (handler rt_strict true
            (request "POST" "/soapnotes" None
                     (Json (JObj [ ("patient_id", JStr "p-1"); ("dx_codes", JArr []) ]))
                     (claims_for "clinic_test")))) = 500%Z.
Proof.
  assert (refuses_unbalanced rt_strict) as Hpg.
  { intros tr text values H. exists more_targets. cbn. rewrite H. split; reflexivity. }
  exact (proj1 (proj2 (proj2 (proj2 (proj2 (proj2
           (note_codes_never_stored rt_strict
              (request "POST" "/soapnotes" None
                       (Json (JObj [ ("patient_id", JStr "p-1"); ("dx_codes", JArr []) ]))
                       (claims_for "clinic_test"))
              "clinic_test"
              (JObj [ ("patient_id", JStr "p-1"); ("dx_codes", JArr []) ])
              (mkResult [[("patient_id", JStr "p-1"); ("note_id", JStr "n-1")]] 1)
              eq_refl eq_refl eq_refl eq_refl eq_refl eq_refl eq_refl eq_refl Hpg))))))).
Defined.

Example note_codes_sample :
  note_insert_values (JObj [ ("patient_id", JStr "p-1");
                             ("dx_codes", JArr [JStr "M54.5"]);
                             ("billing_codes", JArr []) ])
  = [ PVal (JStr "p-1"); PVal JNull; PVal JNull; PVal JNull; PVal JNull; PVal JNull;
      PJson (JArr [JStr "M54.5"]); PVal JNull; PVal (JStr "SOAP") ].
Proof. reflexivity. Qed.

(** ** Listing the waiting queue *)








(** ** One directive per client *)

Lemma pool_setup_no_directive (w r : bool) (i : list db_event) (c : nat) :
  pool_setup w i r -> count_search_path c i = 0.
Proof.
  intros Hi. inversion Hi; subst; unfold count_search_path; cbn;
    rewrite ?andb_false_r; reflexivity.
Qed.

Lemma plain_statements_no_borrow (n c : nat) (stmts : list db_event) :
  forallb (plain_statement n) stmts = true -> ~ In (Borrow c) stmts.
Proof.
  intros H Hin. rewrite forallb_forall in H. specialize (H _ Hin). discriminate.
Qed.

Lemma scoped_session_count (t : string) (n c : nat) (stmts : list db_event) :
  forallb (plain_statement n) stmts = true ->
  count_search_path c
    (Borrow n :: Query n (search_path_query t) [] :: stmts ++ [Release n])%list
  = if (n =? c)%nat then 1 else 0.
Proof.
  intros Hp.
  change (Borrow n :: Query n (search_path_query t) [] :: stmts ++ [Release n])%list
    with ([Borrow n; Query n (search_path_query t) []] ++ stmts ++ [Release n])%list.
  rewrite !count_search_path_app, (plain_statements_no_directive _ _ _ Hp).
  unfold count_search_path. cbn [filter].
  rewrite search_path_query_is_directive, andb_true_r.
  destruct (n =? c)%nat; reflexivity.
Qed.

Lemma scoped_exactly_once (R : Runtime) (warm : bool) (ev : Event) (t : string) (c : nat) :
  extract_tenant ev = Some t ->
  regex_test schemaRegex t = true ->
  is_healthcheck ev = false ->
  In (Borrow c) (trace (fst (handler R warm ev))) ->
  (warm = false -> c <> 0) ->
  count_search_path c (trace (fst (handler R warm ev))) = 1.
Proof.
  intros Hx Ht Hh Hin Hc.
  assert (forall i r, pool_setup warm i r -> ~ In (Borrow c) i) as Hsetup.
  { intros i r Hi Hb. inversion Hi; subst; cbn in Hb;
      repeat match goal with
             | H : _ \/ _ |- _ => destruct H
             | H : False |- _ => contradiction
             | H : _ = Borrow _ |- _ => inversion H; subst; clear H
             end; now apply Hc. }
  destruct (handler_cases R warm ev)
    as [(_ & E) | [(_ & i & e & Hi & E) | (_ & i & Hi & E)]]; rewrite E in Hin |- *.
  - contradiction.
  - cbn in Hin. exfalso. eapply Hsetup; eassumption.
  - rewrite respond_trace in Hin |- *.
    rewrite (routing_tenant R ev t _ Hh Hx) in Hin |- *.
    destruct (tenant_routes_adds R t ev (mkSt i true None 200 (JObj [])) eq_refl)
      as (d & Hd & Hs).
    rewrite Hd in Hin |- *. cbn [trace] in Hin, Hs |- *.
    apply in_app_or in Hin as [Hin | Hin]; [ exfalso; eapply Hsetup; eassumption | ].
    rewrite count_search_path_app, (pool_setup_no_directive _ _ _ c Hi).
    rewrite <- isValidSchemaName_spec in Ht.
    inversion Hs as [ | | Hv | stmts Hv Hp]; subst d; cbn in Hin.
    + contradiction.
    + destruct Hin as [Hin | []]; discriminate.
    + congruence.
    + destruct Hin as [Hin | [Hin | Hin]]; [ | discriminate | ].
      * inversion Hin; subst c.
        now rewrite (scoped_session_count _ _ _ _ Hp), Nat.eqb_refl.
      * apply in_app_or in Hin as [Hin | [Hin | []]]; [ | discriminate ].
        exfalso. eapply plain_statements_no_borrow; eassumption.
Qed.

(** C1. An identifier that does not match [^[a-zA-Z_][a-zA-Z0-9_]*$] makes
    [setTenantSearchPath] throw "Invalid tenant identifier." with nothing
    sent on the client; one that matches makes it send exactly one statement,
    [SET search_path TO "<tenant>", public;]. In every run of the handler a
    statement that sets the search path is that directive for the request's
    validated tenant, and no client receives it more than once; on a tenant
    route with a matching identifier every client borrowed for the route
    receives it exactly once (on a cold start client 0 is the pool's own
    probe). *)
Theorem tenant_search_path (R : Runtime) (c : nat) (s : string) (st : St) :
  (regex_test schemaRegex s = false ->
   setTenantSearchPath R c s st = (st, Throw (Error "Invalid tenant identifier.")))
  /\ (regex_test schemaRegex s = true ->
      trace (fst (setTenantSearchPath R c s st))
      = (trace st ++ [Query c (search_path_query s) []])%list
      /\ search_path_query s = "SET search_path TO " ++ dquote ++ s ++ dquote ++ ", public;")
  /\ (forall warm ev c' text values,
        In (Query c' text values) (trace (fst (handler R warm ev))) ->
        is_search_path_stmt text = true ->
        exists t, extract_tenant ev = Some t
                  /\ regex_test schemaRegex t = true
                  /\ text = search_path_query t /\ values = [])
  /\ (forall warm ev c', count_search_path c' (trace (fst (handler R warm ev))) <= 1)
  /\ (forall warm ev t c',
        extract_tenant ev = Some t ->
        regex_test schemaRegex t = true ->
        is_healthcheck ev = false ->
        In (Borrow c') (trace (fst (handler R warm ev))) ->
        (warm = false -> c' <> 0) ->
        count_search_path c' (trace (fst (handler R warm ev))) = 1).
Proof.
  split; [ apply setTenantSearchPath_rejects | ].
  split.
  { intros H. split; [ now apply setTenantSearchPath_issues | ].
    unfold search_path_query. rewrite (escapeIdentifier_valid _ H).
    now rewrite !append_assoc. }
  split.
  { intros warm ev. apply (handler_trace_directive warm ev), handler_trace_grammar. }
  split.
  - intros warm ev. apply (handler_trace_scoped_once warm ev), handler_trace_grammar.
  - intros warm ev t c'. apply scoped_exactly_once.
Qed.

Lemma tenant_search_path_witness :
  setTenantSearchPath rt_quiet 0 "clinic;DROP" (initial true)
  = (initial true, Throw (Error "Invalid tenant identifier."))
  /\ trace (fst (setTenantSearchPath rt_quiet 0 "clinic_test" (initial true)))
     = [Query 0 (search_path_query "clinic_test") []].
Proof.
  split.
  - apply (proj1 (tenant_search_path rt_quiet 0 "clinic;DROP" (initial true))).
    reflexivity.
  - apply (proj1 (proj2 (tenant_search_path rt_quiet 0 "clinic_test" (initial true)))).
    reflexivity.
Defined.

(** * Further properties

    The remaining routes of the handler, the builders of the partial
    updates, the life of the pool, and the discovery of the credentials. *)

(** ** Dispatch *)

Lemma code_is_inv (e : js_error) (c : string) :
  code_is e c = true -> e_code e = Some c.
Proof.
  unfold code_is. destruct (e_code e); [ | discriminate ].
  intros H. apply String.eqb_eq in H. now subst.
Qed.

Lemma nonempty_param (id : string) : id <> "" -> param_missing (Some id) = false.
Proof. intros H. now apply String.eqb_neq. Qed.

Lemma startsWith_append (p rest : string) : startsWith (p ++ rest) p = true.
Proof.
  unfold startsWith. induction p as [| a p IH].
  - destruct rest; reflexivity.
  - change (String a p ++ rest) with (String a (p ++ rest)). cbn.
    destruct (ascii_dec a a); [ exact IH | contradiction ].
Qed.

Section Dispatch.

Variable R : Runtime.
Variable t : string.
Variable ev : Event.
Variable st : St.
Variable rest : string.

Lemma tenant_routes_put_patient :
  ev_httpMethod ev = "PUT" -> ev_path ev = "/patients/" ++ rest ->
  tenant_routes R t ev st = put_patient R t ev st.
Proof.
  intros Hm Hp. unfold tenant_routes.
  rewrite Hm, Hp, (startsWith_append "/patients/" rest). reflexivity.
Qed.

Lemma tenant_routes_delete_patient :
  ev_httpMethod ev = "DELETE" -> ev_path ev = "/patients/" ++ rest ->
  tenant_routes R t ev st = delete_patient R t ev st.
Proof.
  intros Hm Hp. unfold tenant_routes.
  rewrite Hm, Hp, (startsWith_append "/patients/" rest). reflexivity.
Qed.

Lemma tenant_routes_get_soapnote :
  ev_httpMethod ev = "GET" -> ev_path ev = "/soapnotes/" ++ rest ->
  tenant_routes R t ev st = get_soapnote R t ev st.
Proof.
  intros Hm Hp. unfold tenant_routes.
  rewrite Hm, Hp, (startsWith_append "/soapnotes/" rest). reflexivity.
Qed.

Lemma tenant_routes_put_soapnote :
  ev_httpMethod ev = "PUT" -> ev_path ev = "/soapnotes/" ++ rest ->
  tenant_routes R t ev st = put_soapnote R t ev st.
Proof.
  intros Hm Hp. unfold tenant_routes.
  rewrite Hm, Hp, (startsWith_append "/soapnotes/" rest).
  assert (startsWith ("/soapnotes/" ++ rest) "/patients/" = false) as -> by reflexivity.
  reflexivity.
Qed.

Lemma tenant_routes_get_soapnotes :
  ev_httpMethod ev = "GET" -> ev_path ev = "/soapnotes" ->
  tenant_routes R t ev st = get_soapnotes R t ev st.
Proof. intros Hm Hp. unfold tenant_routes. rewrite Hm, Hp. reflexivity. Qed.

End Dispatch.

Lemma not_healthcheck_under (ev : Event) (p rest : string) :
  ev_path ev = p ++ rest ->
  p = "/patients/" \/ p = "/soapnotes/" ->
  is_healthcheck ev = false.
Proof.
  intros Hp [-> | ->]; unfold is_healthcheck; rewrite Hp; reflexivity.
Qed.

Lemma handler_tenant_warm (R : Runtime) (ev : Event) (t : string) :
  ev_httpMethod ev <> "OPTIONS" ->
  is_healthcheck ev = false ->
  extract_tenant ev = Some t ->
  handler R true ev = respond R (tenant_routes R t ev (initial true)).
Proof.
  intros Hm Hh Hx. apply String.eqb_neq in Hm.
  now rewrite (handler_warm R ev Hm), (routing_tenant R ev t _ Hh Hx).
Qed.

(** ** Requests that stop before the database *)

(** X1. A body that is not JSON never reaches the database: from a warm
    start the four routes that parse a body answer without borrowing a
    connection.  POST /patients and PUT /soapnotes/{id} answer 400 with the
    fixed message, POST /soapnotes answers 400 with the parser's message, and
    PUT /patients/{id}, whose only [catch] is the one of the database errors,
    answers 500. *)
Theorem malformed_body_never_reaches_database (R : Runtime) (ev : Event) (t msg : string) :
  extract_tenant ev = Some t ->
  ev_body ev = Malformed msg ->
  (ev_httpMethod ev = "POST" -> ev_path ev = "/patients" ->
   snd (handler R true ev)
   = mkResponse 400 (headers R)
       (JsonBody (msg_obj "Bad Request: Invalid JSON format in request body."))
   /\ trace (fst (handler R true ev)) = [])
  /\ (ev_httpMethod ev = "POST" -> ev_path ev = "/soapnotes" ->
      snd (handler R true ev)
      = mkResponse 400 (headers R) (JsonBody (msg_obj ("Bad Request: " ++ msg)))
      /\ trace (fst (handler R true ev)) = [])
  /\ (forall rest id,
        ev_httpMethod ev = "PUT" -> ev_path ev = "/soapnotes/" ++ rest ->
        ev_pathId ev = Some id -> id <> "" ->
        snd (handler R true ev)
        = mkResponse 400 (headers R)
            (JsonBody (msg_obj "Bad Request: Invalid JSON format in request body."))
        /\ trace (fst (handler R true ev)) = [])
  /\ (forall rest id,
        ev_httpMethod ev = "PUT" -> ev_path ev = "/patients/" ++ rest ->
        ev_pathId ev = Some id -> id <> "" ->
        snd (handler R true ev)
        = mkResponse 500 (headers R)
            (JsonBody (msg_err_obj
                         ("Internal Server Error: Could not update patient " ++ id ++ ".")
                         (JStr msg)))
        /\ trace (fst (handler R true ev)) = []).
Proof.
  intros Hx Hb.
  split; [ | split; [ | split ] ].
  - intros Hm Hp.
    rewrite (handler_post_patients R ev t Hm Hp Hx).
    unfold post_patients. rewrite Hb. split; reflexivity.
  - intros Hm Hp.
    rewrite (handler_tenant_warm R ev t), (tenant_routes_post_soapnotes R ev t _ Hm Hp);
      [ | rewrite Hm; discriminate | unfold is_healthcheck; now rewrite Hm, Hp | exact Hx ].
    unfold post_soapnotes. rewrite Hb. split; reflexivity.
  - intros rest id Hm Hp Hi Hne.
    rewrite (handler_tenant_warm R ev t), (tenant_routes_put_soapnote R t ev _ rest Hm Hp);
      [ | rewrite Hm; discriminate | eapply not_healthcheck_under; eauto | exact Hx ].
    unfold put_soapnote. rewrite Hb, Hi, (nonempty_param id Hne). split; reflexivity.
  - intros rest id Hm Hp Hi Hne.
    rewrite (handler_tenant_warm R ev t), (tenant_routes_put_patient R t ev _ rest Hm Hp);
      [ | rewrite Hm; discriminate | eapply not_healthcheck_under; eauto | exact Hx ].
    unfold put_patient. rewrite Hb, Hi, (nonempty_param id Hne). split; reflexivity.
Qed.

Lemma malformed_body_never_reaches_database_witness :
  snd (handler rt_quiet true
         (request_for "PUT" "/patients/p-1" "p-1" (Malformed "Unexpected end of JSON input")))
  = mkResponse 500 (headers rt_quiet)
      (JsonBody (msg_err_obj ("Internal Server Error: Could not update patient " ++ "p-1" ++ ".")
                             (JStr "Unexpected end of JSON input")))
  /\ trace (fst (handler rt_quiet true
                   (request_for "PUT" "/patients/p-1" "p-1"
                                (Malformed "Unexpected end of JSON input")))) = [].
Proof.
  apply (proj2 (proj2 (proj2
           (malformed_body_never_reaches_database rt_quiet
              (request_for "PUT" "/patients/p-1" "p-1" (Malformed "Unexpected end of JSON input"))
              "clinic_a" "Unexpected end of JSON input" eq_refl eq_refl)))
           "p-1" "p-1" eq_refl eq_refl eq_refl).
  discriminate.
Defined.

(** X2. A request on /patients/... or /soapnotes/... whose path carries no
    id is answered 400, naming the missing id, without borrowing a
    connection. *)
Theorem missing_path_id_is_400 (R : Runtime) (ev : Event) (t rest : string) :
  extract_tenant ev = Some t ->
  param_missing (ev_pathId ev) = true ->
  ((ev_httpMethod ev = "PUT" \/ ev_httpMethod ev = "DELETE") ->
   ev_path ev = "/patients/" ++ rest ->
   snd (handler R true ev)
   = mkResponse 400 (headers R) (JsonBody (msg_obj "Bad Request: Missing patient ID in path."))
   /\ trace (fst (handler R true ev)) = [])
  /\ ((ev_httpMethod ev = "GET" \/ ev_httpMethod ev = "PUT") ->
      ev_path ev = "/soapnotes/" ++ rest ->
      snd (handler R true ev)
      = mkResponse 400 (headers R)
          (JsonBody (msg_obj "Bad Request: Missing SOAP note ID in path."))
      /\ trace (fst (handler R true ev)) = []).
Proof.
  intros Hx Hi. split; intros [Hm | Hm] Hp;
    rewrite (handler_tenant_warm R ev t);
    try (rewrite Hm; discriminate);
    try (eapply not_healthcheck_under; eauto);
    try exact Hx.
  - rewrite (tenant_routes_put_patient R t ev _ rest Hm Hp).
    unfold put_patient. rewrite Hi. split; reflexivity.
  - rewrite (tenant_routes_delete_patient R t ev _ rest Hm Hp).
    unfold delete_patient. rewrite Hi. split; reflexivity.
  - rewrite (tenant_routes_get_soapnote R t ev _ rest Hm Hp).
    unfold get_soapnote. rewrite Hi. split; reflexivity.
  - rewrite (tenant_routes_put_soapnote R t ev _ rest Hm Hp).
    unfold put_soapnote. rewrite Hi. split; reflexivity.
Qed.

Lemma missing_path_id_is_400_witness :
  snd (handler rt_quiet true (request "DELETE" "/patients/" None NoBody clinic_a))
  = mkResponse 400 (headers rt_quiet)
      (JsonBody (msg_obj "Bad Request: Missing patient ID in path."))
  /\ trace (fst (handler rt_quiet true (request "DELETE" "/patients/" None NoBody clinic_a)))
     = [].
Proof.
  apply (proj1 (missing_path_id_is_400 rt_quiet
                  (request "DELETE" "/patients/" None NoBody clinic_a)
                  "clinic_a" "" eq_refl eq_refl)
               (or_intror eq_refl) eq_refl).
Defined.

(** X3. An update without a body, or with a body that has no key, is
    answered 400 "No fields provided for update." without borrowing a
    connection, for patients and for notes. *)
Theorem update_without_fields (R : Runtime) (ev : Event) (t rest : string) :
  extract_tenant ev = Some t ->
  ev_httpMethod ev = "PUT" ->
  ev_path ev = "/patients/" ++ rest \/ ev_path ev = "/soapnotes/" ++ rest ->
  param_missing (ev_pathId ev) = false ->
  ev_body ev = NoBody
  \/ (exists body, ev_body ev = Json body /\ object_keys_length body = Some 0) ->
  snd (handler R true ev)
  = mkResponse 400 (headers R)
      (JsonBody (msg_obj "Bad Request: No fields provided for update."))
  /\ trace (fst (handler R true ev)) = [].
Proof.
  intros Hx Hm Hp Hi Hb.
  rewrite (handler_tenant_warm R ev t);
    [ | rewrite Hm; discriminate
      | destruct Hp; eapply not_healthcheck_under; eauto
      | exact Hx ].
  destruct Hp as [Hp | Hp];
    [ rewrite (tenant_routes_put_patient R t ev _ rest Hm Hp); unfold put_patient
    | rewrite (tenant_routes_put_soapnote R t ev _ rest Hm Hp); unfold put_soapnote ];
    rewrite Hi; destruct Hb as [Hb | (body & Hb & Hk)]; rewrite Hb;
    unfold parse_body_or_empty, keys_length; unfold_ops; unfold initial; cbn;
    rewrite ?Hk; cbn; split; reflexivity.
Qed.

Lemma update_without_fields_witness :
  snd (handler rt_quiet true (request_for "PUT" "/soapnotes/n-1" "n-1" (Json (JObj []))))
  = mkResponse 400 (headers rt_quiet)
      (JsonBody (msg_obj "Bad Request: No fields provided for update."))
  /\ trace (fst (handler rt_quiet true
                   (request_for "PUT" "/soapnotes/n-1" "n-1" (Json (JObj []))))) = [].
Proof.
  apply (update_without_fields rt_quiet
           (request_for "PUT" "/soapnotes/n-1" "n-1" (Json (JObj [])))
           "clinic_a" "n-1" eq_refl eq_refl (or_intror eq_refl) eq_refl
           (or_intror (ex_intro _ (JObj []) (conj eq_refl eq_refl)))).
Defined.

(** ** The partial updates *)

Lemma push_columns_spec (body : jsval) (cols : list (string * (jsval -> param)))
    (a : update_acc) :
  u_fields (push_columns body cols a)
  = (u_fields a ++ numbered (u_paramIndex a) (supplied body cols))%list
  /\ u_values (push_columns body cols a)
     = (u_values a ++ bound_values body (supplied body cols))%list
  /\ u_paramIndex (push_columns body cols a)
     = (u_paramIndex a + List.length (supplied body cols))%nat.
Proof.
  revert a. induction cols as [| c cols IH]; intros a; cbn.
  - rewrite !app_nil_r, Nat.add_0_r. auto.
  - unfold push_columns in *. cbn [fold_left].
    destruct (IH (push_field (fst c) (js_get body (fst c)) (snd c) a)) as (F & V & P).
    rewrite F, V, P. unfold push_field.
    destruct (is_undefined (js_get body (fst c))); cbn.
    + auto.
    + rewrite <- !app_assoc, Nat.add_succ_r. auto.
Qed.

(** X4. What the two UPDATE builders produce: the SET list names exactly the
    recognised columns the body supplies (those it does not leave undefined),
    in the fixed column order, numbered [$1], [$2], ... without gaps, followed
    by the timestamp item; the bound values are those columns' values in the
    same order; and [paramIndex] ends one past their number, so that the
    record id pushed last is bound to the placeholder of the WHERE clause. *)
Theorem update_builders_spec (body : jsval) :
  (let cols := supplied body patient_update_columns in
   let acc := patient_update_fields body in
   u_fields acc = (numbered 1 cols ++ ["updated_at = CURRENT_TIMESTAMP"])%list
   /\ u_values acc = bound_values body cols
   /\ u_paramIndex acc = S (List.length cols)
   /\ forall id, List.length (u_values acc ++ [id])%list = u_paramIndex acc)
  /\ (let cols := supplied body note_update_columns in
      let acc := note_update_fields body in
      u_fields acc = (numbered 1 cols ++ ["updated_at = CURRENT_TIMESTAMP"])%list
      /\ u_values acc = bound_values body cols
      /\ u_paramIndex acc = S (List.length cols)
      /\ forall id, List.length (u_values acc ++ [id])%list = u_paramIndex acc).
Proof.
  split; cbv zeta.
  - change (patient_update_fields body)
      with (push_timestamp (push_columns body patient_update_columns (mkAcc [] [] 1))).
    destruct (push_columns_spec body patient_update_columns (mkAcc [] [] 1)) as (F & V & P).
    cbn [push_timestamp u_fields u_values u_paramIndex] in *.
    rewrite F, V, P. repeat split.
    intros id. cbn [app]. rewrite length_app. unfold bound_values. rewrite length_map. cbn. lia.
  - change (note_update_fields body)
      with (push_timestamp (push_columns body note_update_columns (mkAcc [] [] 1))).
    destruct (push_columns_spec body note_update_columns (mkAcc [] [] 1)) as (F & V & P).
    cbn [push_timestamp u_fields u_values u_paramIndex] in *.
    rewrite F, V, P. repeat split.
    intros id. cbn [app]. rewrite length_app. unfold bound_values. rewrite length_map. cbn. lia.
Qed.

Lemma supplied_same (b1 b2 : jsval) (cols : list (string * (jsval -> param))) :
  (forall c, In c cols ->
     is_undefined (js_get b1 (fst c)) = is_undefined (js_get b2 (fst c))) ->
  map fst (supplied b1 cols) = map fst (supplied b2 cols).
Proof.
  induction cols as [| c cols IH]; intros H; cbn; [ reflexivity | ].
  unfold supplied in *. cbn [filter].
  rewrite <- (H c (or_introl eq_refl)).
  assert (forall c', In c' cols ->
            is_undefined (js_get b1 (fst c')) = is_undefined (js_get b2 (fst c'))) as H'
    by (intros c' Hc'; apply H; now right).
  destruct (is_undefined (js_get b1 (fst c))); cbn; rewrite (IH H'); reflexivity.
Qed.

Lemma numbered_names (n : nat) (c1 c2 : list (string * (jsval -> param))) :
  map fst c1 = map fst c2 -> numbered n c1 = numbered n c2.
Proof.
  revert n c2. induction c1 as [| a c1 IH]; intros n [| b c2] H; cbn in *;
    try discriminate; [ reflexivity | ].
  injection H as Hab Hr. rewrite Hab, (IH (S n) c2 Hr). reflexivity.
Qed.

Lemma update_text_same (b1 b2 : jsval) (cols : list (string * (jsval -> param)))
    (text : list string -> nat -> string) :
  (forall c, In c cols ->
     is_undefined (js_get b1 (fst c)) = is_undefined (js_get b2 (fst c))) ->
  let a1 := push_timestamp (push_columns b1 cols (mkAcc [] [] 1)) in
  let a2 := push_timestamp (push_columns b2 cols (mkAcc [] [] 1)) in
  text (u_fields a1) (u_paramIndex a1) = text (u_fields a2) (u_paramIndex a2).
Proof.
  intros H a1 a2. subst a1 a2.
  destruct (push_columns_spec b1 cols (mkAcc [] [] 1)) as (F1 & _ & P1).
  destruct (push_columns_spec b2 cols (mkAcc [] [] 1)) as (F2 & _ & P2).
  cbn [push_timestamp u_fields u_values u_paramIndex] in *.
  rewrite F1, F2, P1, P2.
  pose proof (supplied_same b1 b2 cols H) as S.
  rewrite (numbered_names 1 _ _ S).
  replace (List.length (supplied b1 cols)) with (List.length (supplied b2 cols));
    [ reflexivity | ].
  rewrite <- (length_map fst (supplied b2 _)), <- S, length_map. reflexivity.
Qed.

(** X5. The text of an UPDATE depends only on which recognised columns the
    body supplies, never on what it supplies for them: two bodies that define
    the same columns get the same statement, character for character, for
    patients and for notes.  The values travel as bound parameters only. *)
Theorem update_text_ignores_values (b1 b2 : jsval) :
  (forall c, In c (patient_update_columns ++ note_update_columns)%list ->
     is_undefined (js_get b1 (fst c)) = is_undefined (js_get b2 (fst c))) ->
  sql_update_patient (u_fields (patient_update_fields b1))
                     (u_paramIndex (patient_update_fields b1))
  = sql_update_patient (u_fields (patient_update_fields b2))
                       (u_paramIndex (patient_update_fields b2))
  /\ sql_update_note (u_fields (note_update_fields b1))
                     (u_paramIndex (note_update_fields b1))
     = sql_update_note (u_fields (note_update_fields b2))
                       (u_paramIndex (note_update_fields b2)).
Proof.
  intros H. split.
  - apply (update_text_same b1 b2 patient_update_columns sql_update_patient).
    intros c Hc. apply H, in_or_app. now left.
  - apply (update_text_same b1 b2 note_update_columns sql_update_note).
    intros c Hc. apply H, in_or_app. now right.
Qed.

Lemma update_text_ignores_values_witness :
  sql_update_patient
    (u_fields (patient_update_fields (JObj [("last_name", JStr "Doe")])))
    (u_paramIndex (patient_update_fields (JObj [("last_name", JStr "Doe")])))
  = sql_update_patient
      (u_fields (patient_update_fields (JObj [("last_name", JStr "x', gender = 'y")])))
      (u_paramIndex (patient_update_fields (JObj [("last_name", JStr "x', gender = 'y")]))).
Proof.
  apply (update_text_ignores_values (JObj [("last_name", JStr "Doe")])
                                    (JObj [("last_name", JStr "x', gender = 'y")])).
  intros c Hc. cbn in Hc.
  repeat (destruct Hc as [<- | Hc]; [ reflexivity | ]). contradiction.
Defined.

Lemma fields_only_timestamp (body : jsval) (cols : list (string * (jsval -> param))) :
  (List.length (u_fields (push_timestamp (push_columns body cols (mkAcc [] [] 1)))) =? 1)%nat
  = match supplied body cols with [] => true | _ :: _ => false end.
Proof.
  destruct (push_columns_spec body cols (mkAcc [] [] 1)) as (F & _ & _).
  cbn [push_timestamp u_fields] in *. rewrite F. cbn [app].
  rewrite length_app.
  destruct (supplied body cols) as [| c r]; [ reflexivity | ].
  cbn [numbered List.length]. rewrite Nat.add_1_r. reflexivity.
Qed.

(** ** The routes on a scoped connection *)

Section Scoped.

Variable R : Runtime.
Variable ev : Event.
Variable t : string.
Variable scoped : query_result.
Hypothesis Hx : extract_tenant ev = Some t.
Hypothesis Ht : regex_test schemaRegex t = true.
Hypothesis Hc : connect_reply R [] = None.
Hypothesis Hs : query_reply R [Borrow 0] (search_path_query t) [] = inr scoped.

(** X6. DELETE /patients/{id} on a scoped connection sends one DELETE with
    the id as its only parameter and releases the connection; the status is
    200 when a row was deleted and 404 when none was, 409 when the patient is
    still referenced, 404 when the schema is gone, 500 on any other error. *)
Theorem delete_patient_outcome (rest id : string) :
  ev_httpMethod ev = "DELETE" -> ev_path ev = "/patients/" ++ rest ->
  ev_pathId ev = Some id -> id <> "" ->
  trace (fst (handler R true ev))
  = [ Borrow 0; Query 0 (search_path_query t) [];
      Query 0 sql_delete_patient [PVal (JStr id)]; Release 0 ]
  /\ r_statusCode (snd (handler R true ev))
     = match query_reply R [Borrow 0; Query 0 (search_path_query t) []]
                         sql_delete_patient [PVal (JStr id)] with
       | inr result => if (rowCount result >? 0)%Z then 200%Z else 404%Z
       | inl dbError =>
           if code_is dbError "23503" then 409%Z
           else if code_is dbError "3F000" then 404%Z
           else 500%Z
       end.
Proof.
  intros Hm Hp Hi Hne.
  rewrite (handler_tenant_warm R ev t), (tenant_routes_delete_patient R t ev _ rest Hm Hp);
    [ | rewrite Hm; discriminate | eapply not_healthcheck_under; eauto | exact Hx ].
  unfold delete_patient. rewrite Hi, (nonempty_param id Hne). cbn [param_text].
  scope isValidSchemaName_spec Ht Hc Hs. repeat (break_match; cbn); split; reflexivity.
Qed.

(** X7. GET /soapnotes/{id} on a scoped connection sends one SELECT
    with the id as its only parameter.  A row is returned under [note] with
    status 200; no row gives 404 with a message that names the id; an id that
    is not a uuid gives 400, a missing schema 404, any other error 500. *)
Theorem get_soapnote_outcome (rest id : string) :
  ev_httpMethod ev = "GET" -> ev_path ev = "/soapnotes/" ++ rest ->
  ev_pathId ev = Some id -> id <> "" ->
  trace (fst (handler R true ev))
  = [ Borrow 0; Query 0 (search_path_query t) [];
      Query 0 sql_select_note [PVal (JStr id)]; Release 0 ]
  /\ match query_reply R [Borrow 0; Query 0 (search_path_query t) []]
                       sql_select_note [PVal (JStr id)] with
     | inr result =>
         match rows result with
         | note :: _ =>
             r_statusCode (snd (handler R true ev)) = 200%Z
             /\ r_body (snd (handler R true ev))
                = JsonBody (JObj [ ("message", JStr "SOAP note retrieved successfully.");
                                   ("note", JObj note) ])
         | [] =>
             snd (handler R true ev)
             = mkResponse 404 (headers R)
                 (JsonBody (msg_obj ("SOAP note with ID " ++ id ++ " not found.")))
         end
     | inl dbError =>
         r_statusCode (snd (handler R true ev))
         = if code_is dbError "22P02"
              && includes (e_message dbError) "invalid input syntax for type uuid"
           then 400%Z
           else if code_is dbError "3F000" then 404%Z
           else 500%Z
     end.
Proof.
  intros Hm Hp Hi Hne.
  rewrite (handler_tenant_warm R ev t), (tenant_routes_get_soapnote R t ev _ rest Hm Hp);
    [ | rewrite Hm; discriminate | eapply not_healthcheck_under; eauto | exact Hx ].
  unfold get_soapnote. rewrite Hi, (nonempty_param id Hne). cbn [param_text].
  scope isValidSchemaName_spec Ht Hc Hs. repeat (break_match; cbn); repeat split; reflexivity.
Qed.

(** X8. GET /soapnotes sends one of two fixed statements: without a
    [patient_id] parameter, or with an empty one, the unfiltered listing and
    no bound value; with one, the listing filtered on [patient_id = $1] and
    the parameter as the only bound value. *)
Theorem list_notes_filter :
  ev_httpMethod ev = "GET" -> ev_path ev = "/soapnotes" ->
  trace (fst (handler R true ev))
  = [ Borrow 0; Query 0 (search_path_query t) [];
      (if param_missing (ev_queryPatientId ev)
       then Query 0 (sql_select_notes []) []
       else Query 0 (sql_select_notes ["patient_id = $1"])
                  [PVal (JStr (param_text (ev_queryPatientId ev)))]);
      Release 0 ].
Proof.
  intros Hm Hp.
  rewrite (handler_tenant_warm R ev t), (tenant_routes_get_soapnotes R t ev _ Hm Hp);
    [ | rewrite Hm; discriminate | unfold is_healthcheck; now rewrite Hm, Hp | exact Hx ].
  unfold get_soapnotes.
  scope isValidSchemaName_spec Ht Hc Hs. destruct (param_missing (ev_queryPatientId ev)); cbn;
    repeat (break_match; cbn); reflexivity.
Qed.

(** X9. A note whose INSERT is refused for a foreign key (23503) is
    answered 400.  The message names [patient_id] and the patient id of the
    body for the constraint [fk_notes_patient], [doctor_id] and the doctor id
    for [fk_notes_doctor], and for any other constraint a "related entity"
    with, again, the doctor id.  The id is printed as a template literal
    prints it; an id that cannot be printed, an object with a [toString] of
    its own, makes the log line throw, and the answer is the 500 of the
    outermost catch.  In both cases the connection is released. *)
Theorem note_foreign_key_violation (body : jsval) (dbError : js_error) :
  ev_httpMethod ev = "POST" -> ev_path ev = "/soapnotes" ->
  ev_body ev = Json body ->
  truthy (js_get body "patient_id") = true ->
  query_reply R [Borrow 0; Query 0 (search_path_query t) []]
              sql_insert_note (note_insert_values body) = inl dbError ->
  code_is dbError "23503" = true ->
  let field := if constraint_is dbError "fk_notes_patient" then "patient_id"
               else if constraint_is dbError "fk_notes_doctor" then "doctor_id"
               else "related entity" in
  let idValue := if constraint_is dbError "fk_notes_patient" then js_get body "patient_id"
                 else js_or (js_get body "doctor_id") JNull in
  snd (handler R true ev)
  = (if to_string_throws idValue
     then mkResponse 500 (headers R)
            (JsonBody (msg_err_obj "Internal Server Error"
                                   (JStr "Cannot convert object to primitive value")))
     else mkResponse 400 (headers R)
            (JsonBody (msg_obj ("Bad Request: Invalid " ++ field ++ " provided ("
                                ++ js_to_string idValue ++ "). It does not exist."))))
  /\ trace (fst (handler R true ev))
     = [ Borrow 0; Query 0 (search_path_query t) [];
         Query 0 sql_insert_note (note_insert_values body); Release 0 ].
Proof.
  intros Hm Hp Hb Hr Hq Hcode field idValue. subst field idValue.
  apply code_is_inv in Hcode.
  assert (is_object_not_null body = true) as Ho by (destruct body; try discriminate; reflexivity).
  rewrite (handler_tenant_warm R ev t), (tenant_routes_post_soapnotes R ev t _ Hm Hp);
    [ | rewrite Hm; discriminate | unfold is_healthcheck; now rewrite Hm, Hp | exact Hx ].
  unfold post_soapnotes. rewrite Hb. unfold parse_note_body. rewrite Ho.
  remember sql_insert_note as q eqn:Eq in *.
  split.
  all: unfold try_catch at 1; unfold bind at 1; cbn [ret]; rewrite Hr; cbn [negb].
  all: scope isValidSchemaName_spec Ht Hc Hs; rewrite Hq; cbn; rewrite Hcode; cbn.
  all: destruct (constraint_is dbError "fk_notes_patient");
    [ | destruct (constraint_is dbError "fk_notes_doctor") ];
    match goal with
    | |- context [to_string_throws ?v] => destruct (to_string_throws v)
    end; reflexivity.
Qed.

(** X10. PUT /patients/{id} with a body that has keys.  When none of
    them is a recognised column the answer is 400 and no UPDATE is sent,
    though a connection was borrowed and scoped.  Otherwise one UPDATE is
    sent, built from the body, with the id as its last parameter; the status
    is 200 when a row came back, 404 when no row was updated, 409, 400 or 404
    on a unique violation, a malformed value or a missing schema, and 500
    otherwise. *)
Theorem put_patient_outcome (rest id : string) (body : jsval) (n : nat) :
  ev_httpMethod ev = "PUT" -> ev_path ev = "/patients/" ++ rest ->
  ev_pathId ev = Some id -> id <> "" ->
  ev_body ev = Json body -> object_keys_length body = Some (S n) ->
  let acc := patient_update_fields body in
  let update := Query 0 (sql_update_patient (u_fields acc) (u_paramIndex acc))
                        (u_values acc ++ [PVal (JStr id)])%list in
  match supplied body patient_update_columns with
  | [] =>
      snd (handler R true ev)
      = mkResponse 400 (headers R)
          (JsonBody (msg_obj "Bad Request: No updatable fields provided."))
      /\ trace (fst (handler R true ev))
         = [ Borrow 0; Query 0 (search_path_query t) []; Release 0 ]
  | _ :: _ =>
      trace (fst (handler R true ev))
      = [ Borrow 0; Query 0 (search_path_query t) []; update; Release 0 ]
      /\ r_statusCode (snd (handler R true ev))
         = match query_reply R [Borrow 0; Query 0 (search_path_query t) []]
                   (sql_update_patient (u_fields acc) (u_paramIndex acc))
                   (u_values acc ++ [PVal (JStr id)])%list with
           | inr result =>
               if (rowCount result >? 0)%Z
               then match rows result with _ :: _ => 200%Z | [] => 500%Z end
               else 404%Z
           | inl dbError =>
               if code_is dbError "23505" then 409%Z
               else if code_is dbError "22P02" then 400%Z
               else if code_is dbError "3F000" then 404%Z
               else 500%Z
           end
  end.
Proof.
  intros Hm Hp Hi Hne Hb Hk acc update. subst acc update.
  rewrite (handler_tenant_warm R ev t), (tenant_routes_put_patient R t ev _ rest Hm Hp);
    [ | rewrite Hm; discriminate | eapply not_healthcheck_under; eauto | exact Hx ].
  unfold put_patient. rewrite Hi, (nonempty_param id Hne), Hb. cbn [param_text].
  unfold parse_body_or_empty, keys_length.
  pose proof (fields_only_timestamp body patient_update_columns) as Hf.
  change (push_timestamp (push_columns body patient_update_columns (mkAcc [] [] 1)))
    with (patient_update_fields body) in Hf.
  destruct (supplied body patient_update_columns) as [| c r].
  - split; scope_body isValidSchemaName_spec Hk Ht Hc Hs; rewrite Hf; cbn; reflexivity.
  - split; scope_body isValidSchemaName_spec Hk Ht Hc Hs; rewrite Hf; cbn;
      repeat (break_match; cbn); reflexivity.
Qed.

(** X11. PUT /soapnotes/{id} with a body that has keys.  Only the four
    text sections can be updated: a body with none of them is answered 400
    without an UPDATE.  Otherwise one UPDATE is sent with the id as its last
    parameter; the status is 200 with a row, 404 without, 400 on a malformed
    value or a broken reference, 404 on a missing schema, 500 otherwise. *)
Theorem put_soapnote_outcome (rest id : string) (body : jsval) (n : nat) :
  ev_httpMethod ev = "PUT" -> ev_path ev = "/soapnotes/" ++ rest ->
  ev_pathId ev = Some id -> id <> "" ->
  ev_body ev = Json body -> object_keys_length body = Some (S n) ->
  let acc := note_update_fields body in
  let update := Query 0 (sql_update_note (u_fields acc) (u_paramIndex acc))
                        (u_values acc ++ [PVal (JStr id)])%list in
  match supplied body note_update_columns with
  | [] =>
      snd (handler R true ev)
      = mkResponse 400 (headers R)
          (JsonBody (msg_obj "Bad Request: No updatable SOAP note fields provided."))
      /\ trace (fst (handler R true ev))
         = [ Borrow 0; Query 0 (search_path_query t) []; Release 0 ]
  | _ :: _ =>
      trace (fst (handler R true ev))
      = [ Borrow 0; Query 0 (search_path_query t) []; update; Release 0 ]
      /\ r_statusCode (snd (handler R true ev))
         = match query_reply R [Borrow 0; Query 0 (search_path_query t) []]
                   (sql_update_note (u_fields acc) (u_paramIndex acc))
                   (u_values acc ++ [PVal (JStr id)])%list with
           | inr result =>
               if (rowCount result >? 0)%Z
               then match rows result with _ :: _ => 200%Z | [] => 500%Z end
               else 404%Z
           | inl dbError =>
               if code_is dbError "22P02" then 400%Z
               else if code_is dbError "23503" then 400%Z
               else if code_is dbError "3F000" then 404%Z
               else 500%Z
           end
  end.
Proof.
  intros Hm Hp Hi Hne Hb Hk acc update. subst acc update.
  rewrite (handler_tenant_warm R ev t), (tenant_routes_put_soapnote R t ev _ rest Hm Hp);
    [ | rewrite Hm; discriminate | eapply not_healthcheck_under; eauto | exact Hx ].
  unfold put_soapnote. rewrite Hi, (nonempty_param id Hne), Hb. cbn [param_text].
  unfold parse_body_or_empty, keys_length.
  pose proof (fields_only_timestamp body note_update_columns) as Hf.
  change (push_timestamp (push_columns body note_update_columns (mkAcc [] [] 1)))
    with (note_update_fields body) in Hf.
  destruct (supplied body note_update_columns) as [| c r].
  - split; scope_body isValidSchemaName_spec Hk Ht Hc Hs; rewrite Hf; cbn; reflexivity.
  - split; scope_body isValidSchemaName_spec Hk Ht Hc Hs; rewrite Hf; cbn;
      repeat (break_match; cbn); reflexivity.
Qed.

(** X24. POST /patients with the three required fields, on a scoped
    connection: one INSERT with the sixteen values; a returned row gives 201
    with its [patient_id] under [patientId]; an INSERT that returns no row
    gives 500; a unique violation gives 409, a malformed value 400, a missing
    schema 404, any other error 500. *)
Theorem post_patient_outcome (body : jsval) :
  ev_httpMethod ev = "POST" -> ev_path ev = "/patients" ->
  parsed_body (ev_body ev) = Some body ->
  has_required body = true ->
  trace (fst (handler R true ev))
  = [ Borrow 0; Query 0 (search_path_query t) [];
      Query 0 sql_insert_patient (patient_insert_values body); Release 0 ]
  /\ match query_reply R [Borrow 0; Query 0 (search_path_query t) []]
                       sql_insert_patient (patient_insert_values body) with
     | inr result =>
         match rows result with
         | newPatient :: _ =>
             r_statusCode (snd (handler R true ev)) = 201%Z
             /\ r_body (snd (handler R true ev))
                = JsonBody (JObj [ ("message", JStr "Patient created successfully.");
                                   ("patientId", js_get (JObj newPatient) "patient_id") ])
         | [] => r_statusCode (snd (handler R true ev)) = 500%Z
         end
     | inl dbError =>
         r_statusCode (snd (handler R true ev))
         = if code_is dbError "23505" then 409%Z
           else if code_is dbError "22P02" then 400%Z
           else if code_is dbError "3F000" then 404%Z
           else 500%Z
     end.
Proof.
  intros Hm Hp Hb Hr.
  destruct (has_required_not_null body Hr) as [Hn Hu].
  rewrite (handler_post_patients R ev t Hm Hp Hx).
  remember (post_patients R t ev (initial true)) as x eqn:Ex.
  unfold post_patients in Ex.
  unfold try_catch at 1 in Ex. unfold bind at 1 in Ex.
  rewrite (parse_body_or_empty_spec _ _ _ Hb) in Ex.
  unfold try_finally, try_catch in Ex. unfold bind at 1 in Ex.
  rewrite (missing_required_spec body _ Hn Hu), Hr in Ex.
  cbn [negb] in Ex. subst x.
  remember sql_insert_patient as q eqn:Eq in *.
  scope isValidSchemaName_spec Ht Hc Hs.
  repeat (break_match; cbn); repeat split; reflexivity.
Qed.

(** X25. POST /soapnotes with a patient id, on a scoped connection: one
    INSERT; a returned row gives 201 with the row under [note]; an INSERT
    that returns no row gives 500; a broken reference gives 400, or 500 when
    the id it reports cannot be printed; a malformed value gives 400, a
    missing schema 404, any other error 500. *)
Theorem post_soapnote_outcome (body : jsval) :
  ev_httpMethod ev = "POST" -> ev_path ev = "/soapnotes" ->
  ev_body ev = Json body ->
  truthy (js_get body "patient_id") = true ->
  trace (fst (handler R true ev))
  = [ Borrow 0; Query 0 (search_path_query t) [];
      Query 0 sql_insert_note (note_insert_values body); Release 0 ]
  /\ match query_reply R [Borrow 0; Query 0 (search_path_query t) []]
                       sql_insert_note (note_insert_values body) with
     | inr result =>
         match rows result with
         | newNote :: _ =>
             r_statusCode (snd (handler R true ev)) = 201%Z
             /\ r_body (snd (handler R true ev))
                = JsonBody (JObj [ ("message", JStr "SOAP note created successfully.");
                                   ("note", JObj newNote) ])
         | [] => r_statusCode (snd (handler R true ev)) = 500%Z
         end
     | inl dbError =>
         r_statusCode (snd (handler R true ev))
         = if code_is dbError "23503" then
             if to_string_throws
                  (if constraint_is dbError "fk_notes_patient" then js_get body "patient_id"
                   else js_or (js_get body "doctor_id") JNull)
             then 500%Z else 400%Z
           else if code_is dbError "22P02" then 400%Z
           else if code_is dbError "3F000" then 404%Z
           else 500%Z
     end.
Proof.
  intros Hm Hp Hb Hr.
  assert (is_object_not_null body = true) as Ho by (destruct body; try discriminate; reflexivity).
  rewrite (handler_tenant_warm R ev t), (tenant_routes_post_soapnotes R ev t _ Hm Hp);
    [ | rewrite Hm; discriminate | unfold is_healthcheck; now rewrite Hm, Hp | exact Hx ].
  remember (post_soapnotes R t ev (initial true)) as x eqn:Ex.
  unfold post_soapnotes in Ex. rewrite Hb in Ex. unfold parse_note_body in Ex. rewrite Ho in Ex.
  unfold try_catch at 1 in Ex. unfold bind at 1 in Ex. cbn [ret] in Ex.
  rewrite Hr in Ex. cbn [negb] in Ex. subst x.
  remember sql_insert_note as q eqn:Eq in *.
  scope isValidSchemaName_spec Ht Hc Hs.
  repeat (break_match; cbn); repeat split; reflexivity.
Qed.

End Scoped.

Lemma delete_patient_outcome_witness :
  trace (fst (handler rt_quiet true (request_for "DELETE" "/patients/p-1" "p-1" NoBody)))
  = [ Borrow 0; Query 0 (search_path_query "clinic_a") [];
      Query 0 sql_delete_patient [PVal (JStr "p-1")]; Release 0 ]
  /\ r_statusCode (snd (handler rt_quiet true
                          (request_for "DELETE" "/patients/p-1" "p-1" NoBody))) = 404%Z.
Proof.
  apply (delete_patient_outcome rt_quiet
           (request_for "DELETE" "/patients/p-1" "p-1" NoBody)
           "clinic_a" (mkResult [] 0) eq_refl eq_refl eq_refl eq_refl
           "p-1" "p-1" eq_refl eq_refl eq_refl).
  discriminate.
Defined.

Lemma get_soapnote_outcome_witness :
  trace (fst (handler rt_quiet true (request_for "GET" "/soapnotes/n-1" "n-1" NoBody)))
  = [ Borrow 0; Query 0 (search_path_query "clinic_a") [];
      Query 0 sql_select_note [PVal (JStr "n-1")]; Release 0 ]
  /\ snd (handler rt_quiet true (request_for "GET" "/soapnotes/n-1" "n-1" NoBody))
     = mkResponse 404 (headers rt_quiet)
         (JsonBody (msg_obj ("SOAP note with ID " ++ "n-1" ++ " not found."))).
Proof.
  apply (get_soapnote_outcome rt_quiet
           (request_for "GET" "/soapnotes/n-1" "n-1" NoBody)
           "clinic_a" (mkResult [] 0) eq_refl eq_refl eq_refl eq_refl
           "n-1" "n-1" eq_refl eq_refl eq_refl).
  discriminate.
Defined.

Lemma list_notes_filter_witness :
  trace (fst (handler rt_quiet true
                (mkEvent "GET" "/soapnotes" None (Some "") NoBody clinic_a)))
  = [ Borrow 0; Query 0 (search_path_query "clinic_a") [];
      Query 0 (sql_select_notes []) []; Release 0 ].
Proof.
  apply (list_notes_filter rt_quiet
           (mkEvent "GET" "/soapnotes" None (Some "") NoBody clinic_a)
           "clinic_a" (mkResult [] 0) eq_refl eq_refl eq_refl eq_refl eq_refl eq_refl).
Defined.

Lemma note_foreign_key_violation_witness :
  snd (handler rt_unknown_patient true
         (request "POST" "/soapnotes" None (Json (JObj [("patient_id", JStr "p-9")])) clinic_a))
  = mkResponse 400 (headers rt_unknown_patient)
      (JsonBody (msg_obj ("Bad Request: Invalid patient_id provided (" ++ "p-9"
                          ++ "). It does not exist.")))
  /\ trace (fst (handler rt_unknown_patient true
                   (request "POST" "/soapnotes" None
                            (Json (JObj [("patient_id", JStr "p-9")])) clinic_a)))
     = [ Borrow 0; Query 0 (search_path_query "clinic_a") [];
         Query 0 sql_insert_note (note_insert_values (JObj [("patient_id", JStr "p-9")]));
         Release 0 ].
Proof.
  apply (note_foreign_key_violation rt_unknown_patient
           (request "POST" "/soapnotes" None (Json (JObj [("patient_id", JStr "p-9")])) clinic_a)
           "clinic_a" (mkResult [] 0) eq_refl eq_refl eq_refl eq_refl
           (JObj [("patient_id", JStr "p-9")])
           (mkError false "violates foreign key constraint" (Some "23503")
                    (JStr "Key (patient_id)=(p-9) is not present in table.")
                    (Some "fk_notes_patient"))
           eq_refl eq_refl eq_refl eq_refl eq_refl eq_refl).
Defined.

(** The two corners of that message, at a patient id no table holds: a
    number of twenty-two digits is printed with an exponent, and an object
    with a [toString] of its own is not printed at all. *)
Example unknown_patient_in_exponent_form :
  snd (handler rt_unknown_patient true
         (request "POST" "/soapnotes" None
                  (Json (JObj [("patient_id", JNum (10 ^ 21))])) clinic_a))
  = mkResponse 400 (headers rt_unknown_patient)
      (JsonBody (msg_obj "Bad Request: Invalid patient_id provided (1e+21). It does not exist.")).
Proof. vm_compute. reflexivity. Qed.

Example unknown_patient_not_printable :
  snd (handler rt_unknown_patient true
         (request "POST" "/soapnotes" None
                  (Json (JObj [("patient_id", JObj [("toString", JNum 1)])])) clinic_a))
  = mkResponse 500 (headers rt_unknown_patient)
      (JsonBody (msg_err_obj "Internal Server Error"
                             (JStr "Cannot convert object to primitive value")))
  /\ trace (fst (handler rt_unknown_patient true
                   (request "POST" "/soapnotes" None
                            (Json (JObj [("patient_id", JObj [("toString", JNum 1)])]))
                            clinic_a)))
     = [ Borrow 0; Query 0 (search_path_query "clinic_a") [];
         Query 0 sql_insert_note
               (note_insert_values (JObj [("patient_id", JObj [("toString", JNum 1)])]));
         Release 0 ].
Proof. split; vm_compute; reflexivity. Qed.

Lemma put_patient_outcome_witness :
  trace (fst (handler rt_insert true
                (request_for "PUT" "/patients/p-1" "p-1"
                             (Json (JObj [("last_name", JStr "Doe")])))))
  = [ Borrow 0; Query 0 (search_path_query "clinic_a") [];
      Query 0 (sql_update_patient ["last_name = $1"; "updated_at = CURRENT_TIMESTAMP"] 2)
              [PVal (JStr "Doe"); PVal (JStr "p-1")];
      Release 0 ]
  /\ r_statusCode (snd (handler rt_insert true
                          (request_for "PUT" "/patients/p-1" "p-1"
                                       (Json (JObj [("last_name", JStr "Doe")]))))) = 200%Z.
Proof.
  exact (put_patient_outcome rt_insert
           (request_for "PUT" "/patients/p-1" "p-1" (Json (JObj [("last_name", JStr "Doe")])))
           "clinic_a"
           (mkResult [[("patient_id", JStr "p-1"); ("note_id", JStr "n-1")]] 1)
           eq_refl eq_refl eq_refl eq_refl
           "p-1" "p-1" (JObj [("last_name", JStr "Doe")]) 0
           eq_refl eq_refl eq_refl ltac:(discriminate) eq_refl eq_refl).
Defined.

Lemma put_soapnote_outcome_witness :
  snd (handler rt_insert true
         (request_for "PUT" "/soapnotes/n-1" "n-1"
                      (Json (JObj [("dx_codes", JArr [JStr "M54.5"])]))))
  = mkResponse 400 (headers rt_insert)
      (JsonBody (msg_obj "Bad Request: No updatable SOAP note fields provided."))
  /\ trace (fst (handler rt_insert true
                   (request_for "PUT" "/soapnotes/n-1" "n-1"
                                (Json (JObj [("dx_codes", JArr [JStr "M54.5"])])))))
     = [ Borrow 0; Query 0 (search_path_query "clinic_a") []; Release 0 ].
Proof.
  exact (put_soapnote_outcome rt_insert
           (request_for "PUT" "/soapnotes/n-1" "n-1"
                        (Json (JObj [("dx_codes", JArr [JStr "M54.5"])])))
           "clinic_a"
           (mkResult [[("patient_id", JStr "p-1"); ("note_id", JStr "n-1")]] 1)
           eq_refl eq_refl eq_refl eq_refl
           "n-1" "n-1" (JObj [("dx_codes", JArr [JStr "M54.5"])]) 0
           eq_refl eq_refl eq_refl ltac:(discriminate) eq_refl eq_refl).
Defined.

Lemma post_patient_outcome_witness :
  trace (fst (handler rt_insert true (request "POST" "/patients" None (Json jane) clinic_a)))
  = [ Borrow 0; Query 0 (search_path_query "clinic_a") [];
      Query 0 sql_insert_patient (patient_insert_values jane); Release 0 ]
  /\ r_statusCode (snd (handler rt_insert true
                          (request "POST" "/patients" None (Json jane) clinic_a))) = 201%Z
  /\ r_body (snd (handler rt_insert true
                    (request "POST" "/patients" None (Json jane) clinic_a)))
     = JsonBody (JObj [ ("message", JStr "Patient created successfully.");
                        ("patientId", JStr "p-1") ]).
Proof.
  exact (post_patient_outcome rt_insert
           (request "POST" "/patients" None (Json jane) clinic_a)
           "clinic_a"
           (mkResult [[("patient_id", JStr "p-1"); ("note_id", JStr "n-1")]] 1)
           eq_refl eq_refl eq_refl eq_refl
           jane eq_refl eq_refl eq_refl eq_refl).
Defined.

Lemma post_soapnote_outcome_witness :
  trace (fst (handler rt_quiet true
                (request "POST" "/soapnotes" None
                         (Json (JObj [("patient_id", JStr "p-1")])) clinic_a)))
  = [ Borrow 0; Query 0 (search_path_query "clinic_a") [];
      Query 0 sql_insert_note (note_insert_values (JObj [("patient_id", JStr "p-1")]));
      Release 0 ]
  /\ r_statusCode (snd (handler rt_quiet true
                          (request "POST" "/soapnotes" None
                                   (Json (JObj [("patient_id", JStr "p-1")])) clinic_a)))
     = 500%Z.
Proof.
  exact (post_soapnote_outcome rt_quiet
           (request "POST" "/soapnotes" None (Json (JObj [("patient_id", JStr "p-1")])) clinic_a)
           "clinic_a" (mkResult [] 0)
           eq_refl eq_refl eq_refl eq_refl
           (JObj [("patient_id", JStr "p-1")]) eq_refl eq_refl eq_refl eq_refl).
Defined.

(** ** When the connection cannot be scoped *)

Lemma schema_missing_cases (R : Runtime) (ev : Event) (t : string) (e : js_error) :
  ev_httpMethod ev <> "OPTIONS" ->
  is_healthcheck ev = false ->
  extract_tenant ev = Some t ->
  regex_test schemaRegex t = true ->
  connect_reply R [] = None ->
  query_reply R [Borrow 0] (search_path_query t) [] = inl e ->
  code_is e "3F000" = true ->
  trace (fst (handler R true ev)) = []
  \/ (snd (handler R true ev)
      = mkResponse 404 (headers R) (JsonBody (schema_not_found t e))
      /\ trace (fst (handler R true ev))
         = [Borrow 0; Query 0 (search_path_query t) []; Release 0]).
Proof.
  intros Hm Hh Hx Ht Hc Hs Hcode.
  apply String.eqb_neq in Hm. apply code_is_inv in Hcode.
  rewrite (handler_warm R ev Hm), (routing_tenant R ev t _ Hh Hx).
  all_routes.
  all: unfold setTenantSearchPath;
    rewrite ?isValidSchemaName_spec, ?Ht; cbn [negb];
    unfold_ops; unfold code_is, borrows, initial; cbn.
  all: repeat route_step.
  all: try (left; reflexivity).
  all: try (right; split; reflexivity).
Qed.

(** X12. When the tenant's schema does not exist (3F000 on the scoping
    directive), every request on a tenant route that reaches the database,
    from a warm start, is answered 404 "Tenant schema ... not found." with
    the database's message; the directive is the only statement sent, and the
    connection is released. *)
Theorem schema_missing_is_404 (R : Runtime) (ev : Event) (t : string) (e : js_error) :
  ev_httpMethod ev <> "OPTIONS" ->
  is_healthcheck ev = false ->
  extract_tenant ev = Some t ->
  regex_test schemaRegex t = true ->
  connect_reply R [] = None ->
  query_reply R [Borrow 0] (search_path_query t) [] = inl e ->
  code_is e "3F000" = true ->
  trace (fst (handler R true ev)) <> [] ->
  snd (handler R true ev) = mkResponse 404 (headers R) (JsonBody (schema_not_found t e))
  /\ trace (fst (handler R true ev))
     = [Borrow 0; Query 0 (search_path_query t) []; Release 0].
Proof.
  intros Hm Hh Hx Ht Hc Hs Hcode Hne.
  destruct (schema_missing_cases R ev t e Hm Hh Hx Ht Hc Hs Hcode) as [E | H];
    [ contradiction | exact H ].
Qed.

Lemma schema_missing_is_404_witness :
  snd (handler rt_no_schema true (request "GET" "/patients" None NoBody clinic_a))
  = mkResponse 404 (headers rt_no_schema)
      (JsonBody (schema_not_found "clinic_a"
                   (mkError false "schema does not exist" (Some "3F000") JUndefined None)))
  /\ trace (fst (handler rt_no_schema true (request "GET" "/patients" None NoBody clinic_a)))
     = [Borrow 0; Query 0 (search_path_query "clinic_a") []; Release 0].
Proof.
  apply (schema_missing_is_404 rt_no_schema
           (request "GET" "/patients" None NoBody clinic_a) "clinic_a"
           (mkError false "schema does not exist" (Some "3F000") JUndefined None)
           ltac:(discriminate) eq_refl eq_refl eq_refl eq_refl eq_refl eq_refl).
  vm_compute. discriminate.
Defined.

Lemma connect_failure_cases (R : Runtime) (ev : Event) (t : string) (e : js_error) :
  ev_httpMethod ev <> "OPTIONS" ->
  is_healthcheck ev = false ->
  extract_tenant ev = Some t ->
  connect_reply R [] = Some e ->
  (forall c, In c route_codes -> code_is e c = false) ->
  trace (fst (handler R true ev)) = []
  \/ (r_statusCode (snd (handler R true ev)) = 500%Z
      /\ error_field (snd (handler R true ev)) = JStr (e_message e)
      /\ trace (fst (handler R true ev)) = [ConnectFailed]).
Proof.
  intros Hm Hh Hx Hc He.
  assert (code_is e "23505" = false) as H1 by (apply He; cbn; tauto).
  assert (code_is e "22P02" = false) as H2 by (apply He; cbn; tauto).
  assert (code_is e "3F000" = false) as H3 by (apply He; cbn; tauto).
  assert (code_is e "23503" = false) as H4 by (apply He; cbn; tauto).
  assert (code_is e "42703" = false) as H5 by (apply He; cbn; tauto).
  clear He.
  apply String.eqb_neq in Hm.
  rewrite (handler_warm R ev Hm), (routing_tenant R ev t _ Hh Hx).
  all_routes.
  all: unfold_ops; unfold borrows, initial; cbn.
  all: repeat first [ progress rewrite ?H1, ?H2, ?H3, ?H4, ?H5 | route_step ].
  all: try (left; reflexivity).
  all: try (right; repeat split; reflexivity).
Qed.

(** X13. When the pool lends no connection, every request on a tenant
    route that asks for one, from a warm start, is answered 500 with the
    driver's message under [error]; nothing is sent and nothing is released.
    This holds for every rejection but one that carries one of the five
    SQLSTATE codes the routes answer otherwise: a rejection without a code,
    and one with a code of the network such as ECONNREFUSED. *)
Theorem connect_failure_is_500 (R : Runtime) (ev : Event) (t : string) (e : js_error) :
  ev_httpMethod ev <> "OPTIONS" ->
  is_healthcheck ev = false ->
  extract_tenant ev = Some t ->
  connect_reply R [] = Some e ->
  (forall c, In c route_codes -> code_is e c = false) ->
  trace (fst (handler R true ev)) <> [] ->
  r_statusCode (snd (handler R true ev)) = 500%Z
  /\ error_field (snd (handler R true ev)) = JStr (e_message e)
  /\ trace (fst (handler R true ev)) = [ConnectFailed].
Proof.
  intros Hm Hh Hx Hc He Hne.
  destruct (connect_failure_cases R ev t e Hm Hh Hx Hc He) as [E | H];
    [ contradiction | exact H ].
Qed.

Lemma connect_failure_is_500_witness :
  r_statusCode (snd (handler rt_refused true (request "GET" "/queue" None NoBody clinic_a)))
  = 500%Z
  /\ error_field (snd (handler rt_refused true (request "GET" "/queue" None NoBody clinic_a)))
     = JStr "connect ECONNREFUSED 10.0.1.17:5432"
  /\ trace (fst (handler rt_refused true (request "GET" "/queue" None NoBody clinic_a)))
     = [ConnectFailed].
Proof.
  apply (connect_failure_is_500 rt_refused
           (request "GET" "/queue" None NoBody clinic_a) "clinic_a"
           (mkError false "connect ECONNREFUSED 10.0.1.17:5432"
                    (Some "ECONNREFUSED") JUndefined None)
           ltac:(discriminate) eq_refl eq_refl eq_refl).
  - intros c Hc. cbn in Hc.
    repeat (destruct Hc as [<- | Hc]; [ reflexivity | ]). contradiction.
  - vm_compute. discriminate.
Defined.

Lemma invalid_tenant_cases (R : Runtime) (ev : Event) (t : string) :
  ev_httpMethod ev <> "OPTIONS" ->
  is_healthcheck ev = false ->
  extract_tenant ev = Some t ->
  regex_test schemaRegex t = false ->
  trace (fst (handler R true ev)) = []
  \/ trace (fst (handler R true ev)) = [ConnectFailed]
  \/ (trace (fst (handler R true ev)) = [Borrow 0; Release 0]
      /\ r_statusCode (snd (handler R true ev)) = 500%Z
      /\ error_field (snd (handler R true ev)) = JStr "Invalid tenant identifier.").
Proof.
  intros Hm Hh Hx Ht.
  apply String.eqb_neq in Hm.
  rewrite (handler_warm R ev Hm), (routing_tenant R ev t _ Hh Hx).
  all_routes.
  all: unfold setTenantSearchPath; rewrite ?isValidSchemaName_spec, ?Ht; cbn [negb].
  all: unfold_ops; unfold code_is, borrows, initial; cbn.
  all: repeat route_step.
  all: try (left; reflexivity).
  all: try (right; left; reflexivity).
  all: try (right; right; repeat split; reflexivity).
Qed.

(** X14. A tenant identifier that fails the allow-list reaches no
    statement at all: from a warm start, on every tenant route, no statement
    is sent, and when a connection was borrowed it is released untouched and
    the answer is 500 with "Invalid tenant identifier." under [error]. *)
Theorem invalid_tenant_sends_nothing (R : Runtime) (ev : Event) (t : string) :
  ev_httpMethod ev <> "OPTIONS" ->
  is_healthcheck ev = false ->
  extract_tenant ev = Some t ->
  regex_test schemaRegex t = false ->
  (forall c text values, ~ In (Query c text values) (trace (fst (handler R true ev))))
  /\ (In (Borrow 0) (trace (fst (handler R true ev))) ->
      trace (fst (handler R true ev)) = [Borrow 0; Release 0]
      /\ r_statusCode (snd (handler R true ev)) = 500%Z
      /\ error_field (snd (handler R true ev)) = JStr "Invalid tenant identifier.").
Proof.
  intros Hm Hh Hx Ht.
  destruct (invalid_tenant_cases R ev t Hm Hh Hx Ht) as [E | [E | H]].
  - rewrite E. split; [ intros c text values [] | intros [] ].
  - rewrite E. split.
    + intros c text values [H | []]. discriminate.
    + intros [H | []]. discriminate.
  - destruct H as (E & Hs & He). split; [ | intros _; auto ].
    rewrite E. intros c text values [H | [H | []]]; discriminate.
Qed.

Lemma invalid_tenant_sends_nothing_witness :
  trace (fst (handler rt_quiet true
                (request "GET" "/patients" None NoBody (claims_for "clinic; DROP"))))
  = [Borrow 0; Release 0]
  /\ r_statusCode (snd (handler rt_quiet true
                          (request "GET" "/patients" None NoBody
                                   (claims_for "clinic; DROP")))) = 500%Z
  /\ error_field (snd (handler rt_quiet true
                         (request "GET" "/patients" None NoBody
                                  (claims_for "clinic; DROP"))))
     = JStr "Invalid tenant identifier.".
Proof.
  apply (proj2 (invalid_tenant_sends_nothing rt_quiet
                  (request "GET" "/patients" None NoBody (claims_for "clinic; DROP"))
                  "clinic; DROP" ltac:(discriminate) eq_refl eq_refl eq_refl)).
  vm_compute. left. reflexivity.
Defined.

(** ** The claims of the request *)

(** Two events that differ at most in their claims. *)
Lemma tenant_routes_claims (R : Runtime) (t : string) (ev : Event) (claims : jsval) :
  tenant_routes R t
    (mkEvent (ev_httpMethod ev) (ev_path ev) (ev_pathId ev) (ev_queryPatientId ev)
             (ev_body ev) claims)
  = tenant_routes R t ev.
Proof. reflexivity. Qed.

(** X15. Of the claims of a request the handler uses the tenant
    identifier and nothing else: two requests that differ in their claims
    only, and have the same tenant identifier once it is trimmed, get the
    same response and make the same conversation with the database. *)
Theorem claims_matter_through_tenant_only (R : Runtime) (warm : bool) (ev : Event)
    (claims : jsval) :
  let ev' := mkEvent (ev_httpMethod ev) (ev_path ev) (ev_pathId ev)
                     (ev_queryPatientId ev) (ev_body ev) claims in
  extract_tenant ev' = extract_tenant ev ->
  handler R warm ev' = handler R warm ev.
Proof.
  intros ev' Hx. subst ev'.
  unfold handler, handler_body, routing. rewrite Hx.
  cbn [ev_httpMethod ev_path].
  rewrite tenant_routes_claims. reflexivity.
Qed.

Lemma claims_matter_through_tenant_only_witness :
  handler rt_quiet true
    (request "GET" "/patients" None NoBody
             (JObj [ ("custom:clinic_id", JStr "  clinic_a ");
                     ("cognito:groups", JStr "admin") ]))
  = handler rt_quiet true (request "GET" "/patients" None NoBody clinic_a).
Proof.
  exact (claims_matter_through_tenant_only rt_quiet true
           (request "GET" "/patients" None NoBody clinic_a)
           (JObj [ ("custom:clinic_id", JStr "  clinic_a ");
                   ("cognito:groups", JStr "admin") ])
           eq_refl).
Defined.

(** ** The pool *)

Lemma tenant_routes_pool (R : Runtime) (t : string) (ev : Event) (st : St) :
  pool (fst (tenant_routes R t ev st)) = pool st.
Proof.
  destruct st as [tr p c s b].
  all_routes; exec; reflexivity.
Qed.

Lemma routing_pool (R : Runtime) (ev : Event) (st : St) :
  pool (fst (routing R ev st)) = pool st.
Proof.
  unfold routing.
  destruct (_ && _).
  - destruct st as [tr p c s b]. unfold healthcheck. exec; reflexivity.
  - destruct (tenant_missing _); [ reflexivity | apply tenant_routes_pool ].
Qed.

Lemma respond_pool (R : Runtime) (x : St * outcome unit) :
  pool (fst (respond R x)) = pool (fst x).
Proof. destruct x as [st [u | e | r]]; reflexivity. Qed.

Lemma plain_statements_no_pool_end (n : nat) (stmts : list db_event) :
  forallb (plain_statement n) stmts = true -> ~ In PoolEnd stmts.
Proof.
  induction stmts as [| e r IH]; cbn; [ tauto | ].
  intros H. apply andb_true_iff in H as (He & Hr).
  intros [-> | Hin]; [ discriminate | now apply IH ].
Qed.

Lemma tenant_session_no_pool_end (t : string) (n : nat) (d : list db_event) :
  tenant_session t n d -> ~ In PoolEnd d.
Proof.
  intros [ | | Hv | stmts Hv Hs]; cbn.
  - tauto.
  - intros [H | []]; discriminate.
  - intros [H | [H | []]]; discriminate.
  - intros [H | [H | H]]; try discriminate.
    apply in_app_or in H as [H | [H | []]]; [ | discriminate ].
    now apply (plain_statements_no_pool_end n stmts).
Qed.

Lemma routing_keeps_pool (R : Runtime) (ev : Event) (st : St) :
  client st = None ->
  exists d, trace (fst (routing R ev st)) = (trace st ++ d)%list /\ ~ In PoolEnd d.
Proof.
  intros fresh. unfold routing.
  destruct (_ && _).
  - destruct (healthcheck_adds R st fresh) as (d & E & Hd).
    exists d. split; [ exact E | ].
    destruct Hd; cbn; intuition discriminate.
  - destruct (tenant_missing _).
    + exists []. split; [ symmetry; apply app_nil_r | cbn; tauto ].
    + destruct (tenant_routes_adds R (match extract_tenant ev with Some t => t | None => "" end)
                  ev st fresh) as (d & E & Hd).
      exists d. split; [ exact E | ]. eapply tenant_session_no_pool_end; eauto.
Qed.

(** X16. The life of the connection pool across an invocation.  A process
    that holds a pool still holds it afterwards, whatever the request and
    whatever the database answers; no request that reaches routing ends the
    pool; and an invocation leaves the process without a pool only when the
    cold-start set-up failed, in which case the pool that had been created is
    ended, the reply is the 500 of the set-up and nothing else was sent. *)
Theorem pool_lifecycle (R : Runtime) (warm : bool) (ev : Event) :
  ev_httpMethod ev <> "OPTIONS" ->
  let st := fst (handler R warm ev) in
  (warm = true -> pool st = true)
  /\ (pool st = true -> ~ In PoolEnd (trace st))
  /\ (pool st = false ->
      pool_setup false (trace st) false
      /\ exists e, snd (handler R warm ev) = unavailable R e).
Proof.
  intros Hm st. subst st. apply String.eqb_neq in Hm.
  destruct (handler_cases R warm ev)
    as [(Hm' & _) | [(_ & i & e & Hi & E) | (_ & i & Hi & E)]].
  - congruence.
  - rewrite E. cbn [fst snd pool trace].
    repeat split.
    + intros ->. inversion Hi.
    + discriminate.
    + inversion Hi; subst; constructor.
    + now exists e.
  - rewrite E, respond_pool, routing_pool, respond_trace. cbn [pool].
    repeat split; try discriminate.
    intros _.
    destruct (routing_keeps_pool R ev (mkSt i true None 200 (JObj [])) eq_refl)
      as (d & -> & Hd).
    cbn [trace]. intros H. apply in_app_or in H as [H | H]; [ | now apply Hd ].
    inversion Hi; subst; cbn in H; intuition discriminate.
Qed.

Lemma pool_lifecycle_witness :
  pool_setup false
    (trace (fst (handler rt_down false (request "GET" "/patients" None NoBody clinic_a))))
    false
  /\ exists e,
       snd (handler rt_down false (request "GET" "/patients" None NoBody clinic_a))
       = unavailable rt_down e.
Proof.
  exact (proj2 (proj2 (pool_lifecycle rt_down false
                         (request "GET" "/patients" None NoBody clinic_a)
                         ltac:(discriminate)))
               eq_refl).
Defined.

Lemma plain_statements_borrows (n : nat) (stmts : list db_event) :
  forallb (plain_statement n) stmts = true -> borrows stmts = 0.
Proof.
  unfold borrows. induction stmts as [| e r IH]; cbn; [ reflexivity | ].
  intros H. apply andb_true_iff in H as (He & Hr).
  destruct e; try discriminate. cbn. now apply IH.
Qed.

Lemma tenant_session_borrows (t : string) (n : nat) (d : list db_event) :
  tenant_session t n d -> borrows d <= 1.
Proof.
  intros [ | | Hv | stmts Hv Hs]; unfold borrows; cbn; try lia.
  rewrite filter_app, length_app. cbn.
  pose proof (plain_statements_borrows n stmts Hs) as H.
  unfold borrows in H. lia.
Qed.

(** X17. An invocation borrows at most one connection for its route, and one
    more for the probe of a cold start: at most one from a warm process, at
    most two from a cold one. *)
Theorem connections_bounded (R : Runtime) (warm : bool) (ev : Event) :
  borrows (trace (fst (handler R warm ev))) <= (if warm then 1 else 2).
Proof.
  assert (forall i b, pool_setup warm i b -> borrows i <= (if warm then 0 else 1)) as Hi.
  { intros i b H. destruct H; unfold borrows; cbn; lia. }
  assert (forall a b, borrows (a ++ b) = borrows a + borrows b) as Happ.
  { intros a b. unfold borrows. now rewrite filter_app, length_app. }
  destruct (handler_trace_grammar R warm ev) as [ | i H | i d H Hd | i H _ | i t d H _ Hd ].
  - destruct warm; unfold borrows; cbn; lia.
  - specialize (Hi _ _ H). destruct warm; lia.
  - rewrite Happ. specialize (Hi _ _ H).
    assert (borrows d <= 1) by (destruct Hd; unfold borrows; cbn; lia).
    destruct warm; lia.
  - specialize (Hi _ _ H). destruct warm; lia.
  - rewrite Happ. specialize (Hi _ _ H).
    pose proof (tenant_session_borrows _ _ _ Hd). destruct warm; lia.
Qed.

(** ** The credentials *)

Section SecretStore.

Import SecretsManager.

Lemma truthy_text_some (o : option string) (s : string) :
  truthy_text o = Some s -> o = Some s /\ s <> "".
Proof.
  destruct o as [x |]; cbn; [ | discriminate ].
  destruct (String.eqb_spec x ""); [ discriminate | ].
  intros H. injection H as <-. auto.
Qed.

Lemma truthy_text_nonempty (s : string) : s <> "" -> truthy_text (Some s) = Some s.
Proof.
  intros H. cbn. destruct (String.eqb_spec s ""); [ contradiction | reflexivity ].
Qed.

Lemma retrieve_spec (S : Service) (arn : string) (calls : list call) :
  snd (fst (retrieve S arn calls)) = (calls ++ [GetSecretValue arn])%list
  /\ match snd (retrieve S arn calls) with
     | inr config =>
         fst (fst (retrieve S arn calls)) = Some arn
         /\ truthy (host config) = true
         /\ exists secret,
              get_secret_value S arn = inr (Some (Parsed secret))
              /\ read_secret S (Some (Parsed secret)) = inr config
     | inl e =>
         exists cause,
           (get_secret_value S arn = inl cause
            \/ exists data, get_secret_value S arn = inr data
                            /\ read_secret S data = inl cause)
           /\ e = Error ("Could not retrieve database credentials: " ++ message cause)
           /\ fst (fst (retrieve S arn calls))
              = if String.eqb (name cause) "ResourceNotFoundException"
                   || String.eqb (name cause) "AccessDeniedException"
                then None else Some arn
     end.
Proof.
  unfold retrieve.
  destruct (get_secret_value S arn) as [cause | data] eqn:G.
  - cbn. split; [ reflexivity | ]. exists cause. auto.
  - destruct (read_secret S data) as [cause | config] eqn:Rd.
    + cbn. split; [ reflexivity | ]. exists cause. split; [ right; eauto | auto ].
    + cbn. split; [ reflexivity | ]. split; [ reflexivity | ].
      unfold read_secret in Rd.
      destruct data as [[msg | secret] |]; try discriminate.
      split.
      * destruct secret; try discriminate;
          destruct (truthy (js_or _ _)) eqn:T; cbn in Rd; try discriminate;
          injection Rd as <-; exact T.
      * exists secret. split; [ reflexivity | exact Rd ].
Qed.

Lemma scan_secrets_no_match (c : string) (l : list secret) (a : option string) :
  forallb (fun s => negb (tag_matches c s)) l = true -> scan_secrets c l a = a.
Proof.
  induction l as [| s r IH]; cbn; [ reflexivity | ].
  intros H. apply andb_true_iff in H as (Hs & Hr).
  apply negb_true_iff in Hs. rewrite Hs. now apply IH.
Qed.

Lemma scan_secrets_match (c : string) (pre post : list secret) (s : secret)
    (a : option string) :
  forallb (fun s => negb (tag_matches c s)) pre = true ->
  tag_matches c s = true ->
  scan_secrets c (pre ++ s :: post) a = ARN s.
Proof.
  induction pre as [| x r IH]; cbn; intros Hp Hs.
  - now rewrite Hs.
  - apply andb_true_iff in Hp as (Hx & Hr).
    apply negb_true_iff in Hx. rewrite Hx. now apply IH.
Qed.

Lemma scan_pages_front (c : string) (front : list (option (list secret) * string))
    (l : listing) :
  passes c front = true ->
  forall tok calls,
    scan_pages c (pages_then front l) tok None calls
    = scan_pages c l (front_token tok front) None (calls ++ front_calls tok front)%list.
Proof.
  induction front as [| [sl t] r IH]; intros Hp tok calls.
  - cbn. now rewrite app_nil_r.
  - cbn in Hp. apply andb_true_iff in Hp as (Hh & Hr).
    apply andb_true_iff in Hh as (Hn & Ht). apply negb_true_iff in Ht.
    cbn [pages_then scan_pages front_calls front_token].
    assert (match sl with Some l0 => scan_secrets c l0 None | None => None end = None) as E.
    { destruct sl as [l0 |]; [ | reflexivity ]. now apply scan_secrets_no_match. }
    rewrite E. cbn [truthy_text]. rewrite Ht.
    rewrite (IH Hr). rewrite <- app_assoc. reflexivity.
Qed.

(** X19. Discovery by tag stops at the first match.  When the pages in
    front hold no secret that passes the tag test and the next page holds
    one, with an ARN, the pages after it are not asked for, the look-up by
    name is not made, and that secret is the one read: the requests are the
    page requests up to that page, then [GetSecretValue] on its ARN, and the
    outcome is the one of a run that starts with this ARN in the cache. *)
Theorem discovery_stops_at_first_match (S : Service) (c arn : string)
    (front : list (option (list secret) * string)) (pre post : list secret) (s : secret)
    (rest : option (string * listing)) :
  truthy_text (DB_CLUSTER_IDENTIFIER S) = Some c ->
  list_secrets S = pages_then front (Page (Some (pre ++ s :: post)%list) rest) ->
  passes c front = true ->
  forallb (fun s => negb (tag_matches c s)) pre = true ->
  tag_matches c s = true ->
  ARN s = Some arn -> arn <> "" ->
  snd (fst (getDbCredentials S None))
  = (front_calls None front
     ++ [ListSecrets (front_token None front); GetSecretValue arn])%list
  /\ snd (getDbCredentials S None) = snd (getDbCredentials S (Some arn))
  /\ fst (fst (getDbCredentials S None)) = fst (fst (getDbCredentials S (Some arn))).
Proof.
  intros Hc Hl Hf Hpre Hs Ha Hne.
  assert (getDbCredentials S None
          = retrieve S arn (front_calls None front
                            ++ [ListSecrets (front_token None front)])%list) as E.
  { unfold getDbCredentials. rewrite Hc. cbn [truthy_text].
    unfold discover. rewrite Hl, (scan_pages_front c front _ Hf).
    cbn [scan_pages app]. rewrite (scan_secrets_match c pre post s None Hpre Hs), Ha.
    repeat (rewrite (truthy_text_nonempty arn Hne); cbn beta iota). reflexivity. }
  rewrite E. unfold getDbCredentials. rewrite Hc, (truthy_text_nonempty arn Hne).
  split; [ | split ].
  - destruct (retrieve_spec S arn
                (front_calls None front ++ [ListSecrets (front_token None front)])%list)
      as (-> & _).
    now rewrite <- app_assoc.
  - unfold retrieve. destruct (get_secret_value S arn) as [e | d];
      [ | destruct (read_secret S d) ]; reflexivity.
  - unfold retrieve. destruct (get_secret_value S arn) as [e | d];
      [ | destruct (read_secret S d) ]; reflexivity.
Qed.

Lemma discovery_stops_at_first_match_witness :
  snd (fst (getDbCredentials store None))
  = [ListSecrets None; ListSecrets (Some "page-2"); GetSecretValue secret_arn].
Proof.
  exact (proj1 (discovery_stops_at_first_match store "emr-cluster-1" secret_arn
                  [(Some [other_secret], "page-2")] [] [] cluster_secret None
                  eq_refl eq_refl eq_refl eq_refl eq_refl eq_refl ltac:(discriminate))).
Defined.


(** X18. A cached ARN is used as it is: the only request is
    [GetSecretValue] on it, no listing is made.  It stays in the cache unless
    the store rejects that request as [ResourceNotFoundException] or
    [AccessDeniedException]; then the cache is cleared, and the next run
    discovers the ARN again. *)
Theorem cached_arn_used_directly (S : Service) (c arn : string) :
  truthy_text (DB_CLUSTER_IDENTIFIER S) = Some c ->
  arn <> "" ->
  snd (fst (getDbCredentials S (Some arn))) = [GetSecretValue arn]
  /\ fst (fst (getDbCredentials S (Some arn)))
     = match get_secret_value S arn with
       | inl e =>
           if String.eqb (name e) "ResourceNotFoundException"
              || String.eqb (name e) "AccessDeniedException"
           then None else Some arn
       | inr _ => Some arn
       end.
Proof.
  intros Hc Hne. unfold getDbCredentials.
  rewrite Hc, (truthy_text_nonempty arn Hne).
  unfold retrieve. destruct (get_secret_value S arn) as [e | d].
  - split; reflexivity.
  - unfold read_secret.
    destruct d as [[msg | secret] |]; try (split; reflexivity).
    destruct secret; try (split; reflexivity);
      destruct (truthy (js_or _ _)); split; reflexivity.
Qed.

Lemma cached_arn_used_directly_witness :
  snd (fst (getDbCredentials store (Some "arn:aws:secretsmanager:old")))
  = [GetSecretValue "arn:aws:secretsmanager:old"]
  /\ fst (fst (getDbCredentials store (Some "arn:aws:secretsmanager:old"))) = None.
Proof.
  exact (cached_arn_used_directly store "emr-cluster-1" "arn:aws:secretsmanager:old"
           eq_refl ltac:(discriminate)).
Defined.


(** X21. Credentials are returned only with a host, and only from a secret
    that was read and parsed in this run; the ARN of that secret is the one
    in the cache afterwards. *)
Theorem credentials_from_cached_secret (S : Service) (cache : option string)
    (config : db_config) :
  snd (getDbCredentials S cache) = inr config ->
  truthy (host config) = true
  /\ exists arn secret,
       arn <> ""
       /\ fst (fst (getDbCredentials S cache)) = Some arn
       /\ get_secret_value S arn = inr (Some (Parsed secret))
       /\ host config = js_or (js_get secret "host") (env_string (DB_CLUSTER_ENDPOINT S)).
Proof.
  unfold getDbCredentials.
  destruct (truthy_text (DB_CLUSTER_IDENTIFIER S)) as [c |]; [ | discriminate ].
  assert (forall arn calls, arn <> "" ->
            snd (retrieve S arn calls) = inr config ->
            truthy (host config) = true
            /\ exists arn' secret,
                 arn' <> ""
                 /\ fst (fst (retrieve S arn calls)) = Some arn'
                 /\ get_secret_value S arn' = inr (Some (Parsed secret))
                 /\ host config
                    = js_or (js_get secret "host") (env_string (DB_CLUSTER_ENDPOINT S)))
    as Hr.
  { intros arn calls Hne H.
    destruct (retrieve_spec S arn calls) as (_ & Hs). rewrite H in Hs.
    destruct Hs as (Hcache & Hhost & secret & Hg & Hread).
    split; [ exact Hhost | ]. exists arn, secret. repeat split; try assumption.
    unfold read_secret in Hread.
    destruct secret; try discriminate;
      destruct (truthy (js_or _ _)); cbn in Hread; try discriminate;
      injection Hread as <-; reflexivity. }
  destruct (truthy_text cache) as [arn |] eqn:Hcache.
  - apply truthy_text_some in Hcache as (_ & Hne). now apply Hr.
  - destruct (discover S c) as [calls [e | secretArn]]; [ discriminate | ].
    destruct (truthy_text secretArn) as [arn |] eqn:Ha; [ | discriminate ].
    apply truthy_text_some in Ha as (_ & Hne). now apply Hr.
Qed.

Lemma credentials_from_cached_secret_witness :
  exists config,
    snd (getDbCredentials store None) = inr config
    /\ truthy (host config) = true
    /\ exists arn secret,
         arn <> ""
         /\ fst (fst (getDbCredentials store None)) = Some arn
         /\ get_secret_value store arn = inr (Some (Parsed secret))
         /\ host config = js_or (js_get secret "host") (env_string (DB_CLUSTER_ENDPOINT store)).
Proof.
  exists (mkConfig (JStr "emr-cluster-1.cluster-abc.us-east-1.rds.amazonaws.com")
                   (JNum 5432) (JStr "emr") (JStr "s3cret") (JStr "postgres")).
  split; [ reflexivity | ].
  exact (credentials_from_cached_secret store None _ eq_refl).
Defined.


(** X22. What a run leaves in the cache, once the cluster is named: either
    nothing, and then the run failed, or an ARN that this run asked the store
    for, in its last request.  An ARN that was found but never tried is not
    cached, and no run answers with credentials and an empty cache. *)
Theorem cache_holds_a_tried_arn (S : Service) (c : string) (cache : option string) :
  truthy_text (DB_CLUSTER_IDENTIFIER S) = Some c ->
  match fst (fst (getDbCredentials S cache)) with
  | Some arn =>
      arn <> ""
      /\ exists before,
           snd (fst (getDbCredentials S cache)) = (before ++ [GetSecretValue arn])%list
  | None => exists e, snd (getDbCredentials S cache) = inl e
  end.
Proof.
  intros Hc. unfold getDbCredentials. rewrite Hc.
  assert (forall arn calls, arn <> "" ->
            match fst (fst (retrieve S arn calls)) with
            | Some arn' =>
                arn' <> ""
                /\ exists before,
                     snd (fst (retrieve S arn calls)) = (before ++ [GetSecretValue arn'])%list
            | None => exists e, snd (retrieve S arn calls) = inl e
            end) as Hr.
  { intros arn calls Hne. unfold retrieve.
    destruct (match get_secret_value S arn with
              | inl e => inl e
              | inr data => read_secret S data
              end) as [e | config]; cbn.
    - destruct (_ || _); cbn; eauto.
    - eauto. }
  destruct (truthy_text cache) as [arn |] eqn:Hcache.
  - apply truthy_text_some in Hcache as (_ & Hne). now apply Hr.
  - destruct (discover S c) as [calls [e | secretArn]]; [ cbn; eauto | ].
    destruct (truthy_text secretArn) as [arn |] eqn:Ha; [ | cbn; eauto ].
    apply truthy_text_some in Ha as (_ & Hne). now apply Hr.
Qed.

Lemma cache_holds_a_tried_arn_witness :
  secret_arn <> ""
  /\ exists before,
       snd (fst (getDbCredentials untagged_store None))
       = (before ++ [GetSecretValue secret_arn])%list.
Proof.
  exact (cache_holds_a_tried_arn untagged_store "emr-cluster-1" None eq_refl).
Defined.


(** X23. Whatever goes wrong, [getDbCredentials] throws a plain [Error] of
    its own: the name of the store's exception does not leave the function,
    and the message is one of its four, three of which carry the cause's
    message behind a fixed prefix. *)
Theorem credential_failures_wrapped (S : Service) (cache : option string) (e : error) :
  snd (getDbCredentials S cache) = inl e ->
  name e = "Error"
  /\ (message e = "Could not retrieve database credentials."
      \/ message e = "Unable to determine the Secret ARN for the DB cluster."
      \/ (exists cause, message e = "Could not retrieve secret ARN: " ++ cause)
      \/ (exists cause, message e = "Could not retrieve database credentials: " ++ cause)).
Proof.
  unfold getDbCredentials.
  assert (forall arn calls, snd (retrieve S arn calls) = inl e ->
            name e = "Error"
            /\ exists cause, message e = "Could not retrieve database credentials: " ++ cause)
    as Hr.
  { intros arn calls. unfold retrieve.
    destruct (match get_secret_value S arn with
              | inl e => inl e
              | inr data => read_secret S data
              end) as [x | config]; cbn; [ | discriminate ].
    intros H. injection H as <-. split; [ reflexivity | eexists; reflexivity ]. }
  destruct (truthy_text (DB_CLUSTER_IDENTIFIER S)) as [c |].
  - destruct (truthy_text cache) as [arn |].
    + intros H. destruct (Hr _ _ H) as (Hn & cause & Hm).
      split; [ exact Hn | right; right; right; exists cause; exact Hm ].
    + destruct (discover S c) as [calls [x | secretArn]].
      * cbn. intros H. injection H as <-.
        split; [ reflexivity | right; right; left; eexists; reflexivity ].
      * destruct (truthy_text secretArn) as [arn |].
        -- intros H. destruct (Hr _ _ H) as (Hn & cause & Hm).
           split; [ exact Hn | right; right; right; exists cause; exact Hm ].
        -- cbn. intros H. injection H as <-. split; [ reflexivity | right; left; reflexivity ].
  - cbn. intros H. injection H as <-. split; [ reflexivity | left; reflexivity ].
Qed.

Lemma credential_failures_wrapped_witness :
  snd (getDbCredentials store (Some "arn:aws:secretsmanager:old"))
  = inl (Error ("Could not retrieve database credentials: "
                ++ "Secrets Manager can't find the specified secret."))
  /\ name (Error ("Could not retrieve database credentials: "
                  ++ "Secrets Manager can't find the specified secret.")) = "Error".
Proof.
  split; [ reflexivity | ].
  exact (proj1 (credential_failures_wrapped store (Some "arn:aws:secretsmanager:old")
                  (Error ("Could not retrieve database credentials: "
                          ++ "Secrets Manager can't find the specified secret."))
                  eq_refl)).
Defined.


Lemma split_spec (sep : ascii) (s : string) :
  exists h t,
    split sep s = h :: t
    /\ contains_char (fun x => Ascii.eqb x sep) (last (h :: t) "") = false
    /\ (exists pre, s = pre ++ last (h :: t) "")
    /\ (t = [] -> h = s).
Proof.
  induction s as [| c r (h & t & E & Ha & (pre & Hb) & Hc)].
  - exists "", []. repeat split. now exists "".
  - cbn [split]. rewrite E. destruct (Ascii.eqb c sep) eqn:Hsep.
    + exists "", (h :: t). repeat split.
      * exact Ha.
      * exists (String c pre). change (last ("" :: h :: t) "") with (last (h :: t) "").
        change (String c pre ++ last (h :: t) "") with (String c (pre ++ last (h :: t) "")).
        now rewrite <- Hb.
      * discriminate.
    + exists (String c h), t. split; [ reflexivity | ].
      destruct t as [| x t'].
      * specialize (Hc eq_refl). subst h. cbn [last] in *.
        repeat split.
        -- cbn. now rewrite Hsep.
        -- now exists "".
      * change (last (String c h :: x :: t') "") with (last (h :: x :: t') "").
        repeat split.
        -- exact Ha.
        -- exists (String c pre).
           change (String c pre ++ last (h :: x :: t') "")
             with (String c (pre ++ last (h :: x :: t') "")).
           now rewrite <- Hb.
        -- discriminate.
Qed.

(** X20. The look-up by name.  When no page of the listing holds a secret
    that passes the tag test, the store is asked once more, for the secrets
    named [rds!cluster-] followed by what stands behind the last dash of the
    cluster identifier; the first secret of the answer is taken, its tags
    unseen, and read.  An empty answer, a rejected request or a first secret
    without an ARN end the run with an error and an empty cache. *)
Theorem name_fallback (S : Service) (c : string)
    (front : list (option (list secret) * string)) (SecretList : option (list secret)) :
  truthy_text (DB_CLUSTER_IDENTIFIER S) = Some c ->
  list_secrets S = pages_then front (Page SecretList None) ->
  passes c front = true ->
  no_match c SecretList = true ->
  let suffix := pop (split "-"%char c) in
  let calls := (front_calls None front
                ++ [ ListSecrets (front_token None front);
                     ListSecretsByName ("rds!cluster-" ++ suffix) ])%list in
  contains_char (fun x => Ascii.eqb x "-"%char) suffix = false
  /\ (exists pre, c = pre ++ suffix)
  /\ getDbCredentials S None
     = match list_by_name S ("rds!cluster-" ++ suffix) with
       | inr (Some (first :: _)) =>
           match truthy_text (ARN first) with
           | Some arn => retrieve S arn calls
           | None =>
               ((None, calls),
                inl (Error "Unable to determine the Secret ARN for the DB cluster."))
           end
       | inr _ =>
           ((None, calls),
            inl (Error ("Could not retrieve secret ARN: "
                        ++ "Failed to find secret ARN via tags or name pattern: "
                        ++ "Secret not found via tags or name pattern for cluster: " ++ c)))
       | inl fallbackError =>
           ((None, calls),
            inl (Error ("Could not retrieve secret ARN: "
                        ++ "Failed to find secret ARN via tags or name pattern: "
                        ++ message fallbackError)))
       end.
Proof.
  intros Hc Hl Hf Hn suffix calls. subst suffix calls.
  destruct (split_spec "-"%char c) as (h & t & E & Ha & Hb & _).
  unfold pop. rewrite E. split; [ exact Ha | ]. split; [ exact Hb | ].
  unfold getDbCredentials. rewrite Hc. cbn [truthy_text].
  unfold discover. rewrite Hl, (scan_pages_front c front _ Hf).
  cbn [scan_pages app].
  assert (match SecretList with Some l => scan_secrets c l None | None => None end = None) as Es.
  { destruct SecretList as [l |]; [ | reflexivity ]. now apply scan_secrets_no_match. }
  rewrite Es. cbn [truthy_text]. unfold pop. rewrite E.
  rewrite <- !app_assoc. cbn [app].
  destruct (list_by_name S _) as [e | [[| first more] |]]; reflexivity.
Qed.

Lemma name_fallback_witness :
  snd (fst (getDbCredentials untagged_store None))
  = [ListSecrets None; ListSecretsByName "rds!cluster-1"; GetSecretValue secret_arn].
Proof.
  rewrite (proj2 (proj2 (name_fallback untagged_store "emr-cluster-1" [] (Some [other_secret])
                           eq_refl eq_refl eq_refl eq_refl))).
  reflexivity.
Defined.

End SecretStore.
